(* ===== verification/_CoqProject ===== *)
-Q . S2P
Prelude.v
JsString.v
Api.v
JsRuntime.v
Resolver.v
Verifier.v
Main.v
Legacy.v
Lifecycle.v
Obs.v
Report.v
Schema.v
SchemaTypes.v
Pipeline.v
Interaction.v
Environment.v
Laws.v
