(* ===== verification/Prelude.v ===== *)
(** * proof-of-hat: a verification development

    The repository is a single-shot script (TypeScript, Node): it looks one
    tweet up, picks the image attached to it, and asks a vision model whether
    the image shows a black cap with the "tunnl" logo.  Two versions of the
    script are in the sources: [src/src/index.ts], the current one, which
    binds the model's answer to a two-field schema, and
    [src/unnamed/part_000], an earlier one, which asks for free text and
    matches keywords in the answer.  Both are modelled whole, from their
    first statement to the exit code of the process.

    ** The parts of the program and the files that model them

    - [Prelude] (this file): what every file shares.  Generic lemmas on
      [find] and [existsb] (the list functions behind JavaScript's
      [Array.prototype.find] and [some]), on options, the hint databases
      [js] (resolution) and [js_rw] (rewriting) and the tactics [js_simp] and
      [case_if].
    - [JsString]: the string operations of the language that the script
      uses, on Rocq strings (bytes): truthiness of [string | undefined]
      ([truthy], [truthy_opt]), the operator [||] on such values ([js_or]),
      template literals ([template], [template_bool]),
      [String.prototype.includes] ([includes]) with its specification
      [Infix], and [toLowerCase] on the ASCII range.
    - [Api]: the data the vendors exchange with the script, as records:
      module [Twitter] (lookup parameters, [MediaObjectV2], the lookup
      result with its optional [data], [includes] and [errors]), module
      [OpenAI] (content parts, chat messages, the zod schema as data, the
      parse request and the parsed completion) and module [Responses] (the
      request of [responses.create] and the fields the free-text variant
      reads from its answer).
    - [JsRuntime]: the effects of the script.  A computation [M A] is a
      record of the events it emitted, in order, and of how it ended
      ([Outcome]: it returned a value, it threw, or it called
      [process.exit]).  [mbind] sequences, [throw], [try_catch] and
      [process_exit] model [throw], [try]/[catch] and [process.exit];
      [require_truthy] is the guard [if (!value) { ... }] whose block throws
      or exits; [console_log], [console_warn] and [console_error] append a
      [Console] event; [await_singleTweet], [await_parse] and [await_create]
      append the network event and continue with what the vendor answered.
      The vendors are the classes [TwitterService], [OpenAIService] and
      [ResponsesService]: functions from the request to a result or a thrown
      value.  Every theorem of the later files is stated for all instances
      of these classes, so for every behaviour of the vendors; the witnesses
      use the instances of [Mock].
    - [Resolver]: [fetchTweetData] of [index.ts] (lines 38-91), whole: the
      diagnostic line, the lookup, the [errors] guard ([checkErrors]), the
      missing-[data] guard, the image selection ([selectImageUrl], lines
      56-77: three [find]s in order of precedence), the warning, and the
      [catch] that wraps every failure ([catchFetch]).  Its specifications
      are the relation [Selected] (the four precedence rules of the design),
      the function [firstCandidate], and the contract [resolve] with the
      errors [ResolutionError].
    - [Verifier]: [askOpenAIAboutImage] of [index.ts] (lines 96-151): the
      request it builds ([parseBody]: system prompt, user prompt, the three
      reference images, the candidate image last, temperature 0, the
      schema), the extraction [choices[0]?.message?.parsed] ([firstParsed]),
      and the [catch] that wraps a failure of the call ([catchAsk]).
    - [Main]: the top level of [index.ts]: the two configuration guards
      (lines 16-24), the construction of the clients, [main] (lines
      154-175), the outer [catch] (lines 177-181); [program] is the script
      as a function of [process.env], [exit_code] the exit code of the
      process.  The specification [verdictOf] is the pipeline of the design
      (configuration, resolution, verification) as a pure function of the
      environment and of the vendors' answers.
    - [Legacy], module [FreeText]: [src/unnamed/part_000].  The client of
      the model is built before the guards (line 13), and its constructor
      throws [OpenAIError_missing_key] when the key is absent
      ([new_OpenAI]; [clientOf] is the client it builds otherwise), so the
      guard of the key only ever sees a key that is present; the resolver
      is the function of
      [index.ts], line for line; [askOpenAIAboutImage] sends the question
      alone and reads [response.choices[0]?.message?.content]
      ([firstContent]); [main] lower-cases the answer, looks for the keywords
      ([classify]) and prints the lines of [report]; its [catch] block
      ([catchMain]) prints two lines and returns.
    - [Lifecycle]: the sequential design (resolve, then verify, then print)
      as a labelled transition system on events ([step], [steps]) with the
      phases of a run as states, and its executable acceptor [follow].
    - [Obs]: the equivalence of computations up to diagnostic lines ([≡],
      an [Equiv] instance on [M A]), and [pipeline], the design written with
      the operations of [JsRuntime], one call per step ([resolveQ],
      [verifyQ]) and no diagnostics.
    - [Report]: what a run tells its user: the response property [LeadsTo]
      on traces with its decision procedure [leadsTo], the explicit verdict
      of the free-text variant ([Verdict], [freetextVerdict]) with the line
      printed for it ([verdictLine]), the size of a run as a function of
      the answers of the vendors ([runLength]), and the variant [rank] of
      the protocol.
    - [Pipeline]: [main] with its two steps as parameters ([mainWith]) and
      the contracts [ResolverContract] and [VerifierContract], the
      interface between [main] and the steps it calls.
    - [Schema]: the contract of the SDK behind [askOpenAIAboutImage], from
      the design: JSON values, the validation of a value against a schema
      ([parse], [conforms]), the reading of a validated value as the record
      of the answer ([decode]), and [validating], which builds the vendor
      the script talks to (an instance of [OpenAIService]) from an API that
      answers with raw completions ([RawService]).
    - [SchemaTypes]: schemas as types of JSON values: the typing relation
      [HasType], the well-formedness of a schema ([WellFormed]: the keys of
      an object are distinct, at every level), and the induction principle
      [ZodType_nested_ind] for schemas, which are nested in lists.
    - [Interaction]: both versions of the script once more, without
      vendors: module [Tree] holds every effectful function of [index.ts]
      as an interaction tree (library ITree) over the events [scriptE] (a
      console line, the lookup, a request to the model, [process.exit]),
      with the text of the model of [Resolver], [Verifier] and [Main], and
      module [Tree.FreeText] those of [part_000], with the text of
      [Legacy]; [eval] runs a tree against vendors, with a bound on the
      number of events.
    - [Environment]: the script in an environment that answers as it
      likes.  A run of a tree is a history [list IO]: the lines and the
      calls in order, every call with the settled promise it was answered
      with, and the outcome; [runs] is the relation between a tree, a
      history and an outcome, given by the first node of the tree ([node]);
      [history] computes the run against given vendors, with the answers;
      [twitterIn], [openaiIn] and [responsesIn] are the vendors that answer
      as the environment did in a history, and [AskedOnce] says that a trace
      calls no vendor twice.  [reaches] is the script at work: the history
      so far and what is left of the tree, which may be waiting for an
      answer that never comes.  [callsOf] keeps the calls of a history, and
      [ScriptCalls] and [FreeTextCalls] say which calls each version may
      make: the lookup of its tweet, then one question, about the image the
      resolution of the answer gave (the question alone in the variant).
    - [Laws]: the trees up to the strong bisimulation of the library
      ([≅]); [MayThrow] says that some environment makes a computation
      throw.

    ** What the theorems show

    - [JsString]: [includes] decides [Infix] (soundness and completeness),
      is reflexive, transitive and stable under concatenation; [toLowerCase]
      is idempotent and preserves length.
    - [JsRuntime]: the monad laws, the laws of [try_catch], and that the
      trace of a sequence is the concatenation of the traces: a computation
      only ever appends events.
    - [Resolver]: [selectImageUrl] implements [Selected] and equals
      [firstCandidate]; each precedence rule; the returned URL is
      non-empty and is a URL of the media list; [fetchTweetData] implements
      [resolve] for every answer of the vendor; its run on every branch
      (errors, missing data, vendor failure, success with or without an
      image), with the exact message; it performs one lookup, never exits
      the process, and warns exactly when no image was found.
    - [Verifier]: the structure of the request; the result on a
      well-formed completion, on an empty list of choices, and on a failure
      of the call; a verdict that is returned is the vendor's.
    - [Main]: the script implements [verdictOf]: exit code 0 exactly when
      the pipeline yields an answer, which is then the one verdict printed;
      no network call before both secrets are present; the model is asked
      only after a successful lookup and only about a URL taken from the
      tweet's media; at most one call to each vendor, in order; the whole
      run when every step succeeds, line by line; the script reads the two
      secrets and nothing else of its environment ([sameSecrets], with
      [Proper] instances for [program] and [verdictOf]).
    - [Legacy]: without the key the run is the exception of the
      constructor, before any line is printed, and the guard of the key
      reports the empty key only; the verdict of the keyword matching in
      terms of [Infix];
      the second keyword list is equivalent to its first entry and an answer
      that says [it does not] is reported as a yes; the run on every branch;
      the request never carries the image; an answer without [choices] ends
      in the failure lines; once configured, the exit code is always 0.
    - [Lifecycle]: the acceptor decides the transition system; the
      protocol is deterministic and its traces compose; by induction on
      derivations, a phase counts the network calls behind it; every run of
      [program] is a trace of the protocol that ends in the phase the
      vendors' answers lead to, and the exit code is 0 exactly in the last
      phase; the runs of the free-text variant follow the protocol as far
      as the question.
    - [Obs]: [≡] is an equivalence that sequencing and [try]/[catch]
      respect ([Proper] instances) and that keeps the outcome, the network
      calls and the printed answers; each step of the script is equivalent
      to its step of the design, so the script is equivalent to [pipeline],
      by rewriting.
    - [Report]: every run ends with an outcome line (the print of the
      answer exactly when it ends normally) and every call is followed by
      one; the last line of the free-text variant is the line of its
      verdict, and says [true] only for [Yes]; an observable step lowers the
      rank of the phase, so the script makes [3 - rank] observable events;
      a run of the script has [runLength] events, between one and seven,
      one of the free-text variant at most eight (none when the
      constructor of the client throws, six at least once configured), and
      the bounds are reached; the two variants call the vendors as often
      when their tweets resolve alike.
    - [Pipeline]: [fetchTweetData] and [askOpenAIAboutImage] keep their
      contracts; for every pair of steps that keep them, [mainWith] ends
      with exit code 0 exactly when both return and an image was found,
      prints exactly the verifier's answer, and asks the model only about
      the image the resolver returned; [mainWith] respects the equivalence
      of [Obs], so a step can be replaced by an equivalent one.
    - [Schema]: the round trip between answers and their JSON form;
      validation against the schema of the answer is reading as an answer;
      behind a validating vendor the verdict returned is the validated
      content of the first choice, and a content that does not conform is a
      failure of the verifier.
    - [SchemaTypes]: validation is typed, for every schema, by induction on
      the schema: what [parse] returns has the type of the schema, and a
      value of the type of a well-formed schema validates to itself, so
      validation is idempotent; the schema of the script is well formed and
      the values of its type are the JSON forms of the answers.
    - [Interaction]: [eval] is monotone in its bound, sequencing and
      [try]/[catch] of trees are those of runs and their steps add up
      ([eval_bind], the rules of [Conv]); function by function, the tree of
      the script runs to the computation of the model, so the tree of the
      whole script ends within eighteen events with the run [program], and
      the tree of the variant within twenty with [FreeText.program]
      ([program_conv], [freetext_program_conv]).  These lemmas relate the
      two models of the development with each other and are no property of
      the code: they carry the theorems about [program] to the tree.
    - [Environment]: the run against vendors is a run ([history_runs]),
      the answers determine the run ([runs_answered_unique]), and as long
      as the environment answers as the vendors do its run goes the way of
      theirs ([runs_agree]); a run of a computation that asks no vendor
      twice is the run against the vendors of its history
      ([runs_realised]), while a computation that asks again has runs that
      no vendor gives ([lookupAgain_not_realised]).  Both versions of the
      script ask once.  So every run of the script in any environment is a
      run of [program]: it ends normally or with exit code 1, it has at
      most seven events, and its question to the model is about the image
      of the tweet that the environment gave to its lookup.  The trees of
      both versions are finite along all their branches (the library's
      [all_finite]), proved from the text of each function by the tactic
      [finite]: the script terminates whatever it is answered.  How a
      run ends and what it prints is decided by what the environment
      answered ([program_environment_verdict], with [answerIn] the model's
      answer in a history): it ends normally exactly when the model
      answered, and prints the object parsed in that answer.  At any
      time of a run, finished or not, the calls made so far are those of
      [ScriptCalls] ([program_calls_so_far], and [freetext_calls_so_far]
      for the variant); a script that waits can go on
      ([reaches_extends]) and waits for nothing but the answer to the
      call it made last ([program_pending]).
    - [Laws]: sequencing of trees is a monad up to [≅], [try]/[catch]
      passes a value, hands a thrown value to its handler and is the
      identity after a computation that cannot throw
      ([try_catch_no_throw], cut at the leaves of the body); the results
      at the leaves of a tree are the results of its runs; equivalent
      trees have the same runs ([runs_proper]).  [main] throws in no
      environment, so the script with the handler of [main().catch] is
      equivalent to [main] alone, in both versions.

    The theorems listed as properties are leaves: what several of them
    need is a lemma of its own (the run lemmas [fetch_run_ok], [main_run],
    [program_run], [freetext_main_run] and the like), and the tactics
    [fetch_cases] and [ask_cases] split a goal into the branches of the
    resolver and of the verifier.

    ** Conventions and bounds

    - Strings are Rocq [string]s, sequences of bytes.  JavaScript strings
      are sequences of UTF-16 code units; the two agree on ASCII text, which
      is what the script's own literals are.  [toLowerCase] lowers [A]-[Z]
      and leaves every other byte as it is.
    - An absent property and [undefined] are [None]; [null] is a separate
      [None] level where the code can tell the two apart (the parsed answer
      of the model).
    - [await] is sequencing: the script has one outstanding operation at a
      time, so promises are modelled by the computation they resolve to.
    - The models of [Resolver], [Verifier], [Main] and [Legacy] use no
      fuel: the script has no loop of its own, and the list functions are
      structural.  A run is a finite trace by construction, with the bound
      of [Report.program_trace_bounds] on its length.  The one definition
      with fuel is [Interaction.eval], which runs a tree for a bounded
      number of events: eighteen are enough for the script
      ([Interaction.program_conv]) and twenty for the free-text
      variant; the bounds add up the events of all branches, the longest
      run of the script makes seven and ends the process.
      [Environment.history] has the same fuel, one unit per event.
      Termination in every environment needs no bound:
      [Environment.program_terminates] is stated with [all_finite].
      That an [await] settles is the vendor's business: in a run an
      answer is a settled promise; a call that never settles is a state of
      [Environment.reaches] from which no history goes on, and the script
      sets no timer of its own.
    - A vendor is a function of the request in every file but
      [Environment].  The script calls each vendor at most once in a run,
      so nothing is lost by it: [Environment.program_any_environment] shows
      that a run in an environment whose answers depend on anything at all
      is a run against such vendors.
    - A run is a function of the environment and of the answers of the
      vendors by construction of the model, so that the script is
      deterministic is no theorem here.  What the code does for it is to
      pin the sampling of the model: every request is [parseBody] of the
      image, with temperature 0 and the schema
      ([Verifier.parseBody_structure]); that the model then answers alike
      is the vendor's business.
    - A [TypeError] of the engine is an [Error] with the engine's message
      ([FreeText.TypeError_reading_0]); only the free-text variant can raise
      one, when the answer has no [choices].

    ** Not modelled

    - The vendors' SDKs ([twitter-api-v2], [openai], [zod], [dotenv]):
      libraries the sources only call; their code is not in the
      repository, so nothing of it can be translated.  [process.env] after
      [dotenv.config()] is the map given to [program]: how the file [.env]
      is found and read is left out.  Of the constructors of the clients,
      the one check that decides a run of the sources is modelled ([new
      OpenAI] throws on an absent key, which the free-text variant meets
      before its guards); the transport, the retries and the timeouts of
      the clients are behind the answer of a call.  The validation of the
      model's answer inside the SDK is modelled in [Schema] from the
      design, not from code: the reading of the JSON text of a content and
      the finish reasons of a choice are left out, which is why the
      component is marked as partly modelled.
    - The textual form of what [console.log] prints: an event keeps the
      arguments as values.
    - The static checks of the TypeScript compiler and [src/tsconfig.json],
      its configuration. *)

From Stdlib Require Export List Bool Ascii ZArith Lia.
From stdpp Require Export base tactics option list strings.

(** ** Hint databases and tactics *)

Create HintDb js discriminated.
Create Rewrite HintDb js_rw.

(** [case_if] splits on the first [if] or [match] on an option in the goal. *)
Ltac case_if :=
  match goal with
  | |- context [if ?b then _ else _] => destruct b eqn:?
  | |- context [match ?o with Some _ => _ | None => _ end] => destruct o eqn:?
  end.

(** [js_simp] normalises with the rewriting database and simplifies
    equalities. *)
Ltac js_simp :=
  repeat (progress (autorewrite with js_rw in *; simplify_eq/=)).

(** ** Lists: [find] and [existsb] *)

Section find.
Context {A : Type} (f : A → bool).
Implicit Types (l : list A) (x : A).

Lemma find_app l1 l2 :
  find f (l1 ++ l2) = match find f l1 with Some x => Some x | None => find f l2 end.
Proof. induction l1 as [|a l1 IH]; simpl; [done|]. by destruct (f a). Qed.

Lemma find_None_Forall l : find f l = None ↔ Forall (λ x, f x = false) l.
Proof.
  induction l as [|a l IH]; simpl.
  - split; [constructor|done].
  - destruct (f a) eqn:Ha; rewrite Forall_cons; [split; [done|]|]; [|tauto].
    intros [? _]; congruence.
Qed.

Lemma find_Some_split l x :
  find f l = Some x ↔
  ∃ l1 l2, l = l1 ++ x :: l2 ∧ f x = true ∧ Forall (λ y, f y = false) l1.
Proof.
  split.
  - induction l as [|a l IH]; simpl; [done|].
    destruct (f a) eqn:Ha.
    + intros [= ->]. by exists [], l.
    + intros (l1 & l2 & -> & ? & ?)%IH. exists (a :: l1), l2. by repeat constructor.
  - intros (l1 & l2 & -> & Hx & Hl1). rewrite find_app.
    apply find_None_Forall in Hl1 as ->. simpl. by rewrite Hx.
Qed.

Lemma find_Some_elem_of l x : find f l = Some x → x ∈ l ∧ f x = true.
Proof.
  intros (l1 & l2 & -> & ? & _)%find_Some_split. split; [|done].
  apply elem_of_app. right. by left.
Qed.

Lemma find_is_Some l x : x ∈ l → f x = true → is_Some (find f l).
Proof.
  intros Hin Hx. destruct (find f l) eqn:E; [by eexists|].
  apply find_None_Forall in E. rewrite Forall_forall in E.
  specialize (E x Hin). congruence.
Qed.

Lemma find_cons_true a l : f a = true → find f (a :: l) = Some a.
Proof. simpl. by intros ->. Qed.

Lemma find_cons_false a l : f a = false → find f (a :: l) = find f l.
Proof. simpl. by intros ->. Qed.

Lemma existsb_find l : existsb f l = bool_decide (is_Some (find f l)).
Proof.
  induction l as [|a l IH]; simpl; [done|].
  destruct (f a); [|done].
  symmetry. apply bool_decide_eq_true_2. by eexists.
Qed.

End find.

Lemma find_ext {A} (f g : A → bool) (l : list A) :
  (∀ x, x ∈ l → f x = g x) → find f l = find g l.
Proof.
  induction l as [|a l IH]; simpl; [done|]. intros H.
  rewrite (H a) by left. destruct (g a); [done|].
  apply IH. intros x Hx. apply H. by right.
Qed.

#[export] Hint Resolve find_Some_elem_of find_is_Some : js.
#[export] Hint Rewrite @find_app : js_rw.

(** ** Options *)

Lemma bind_Some_inv {A B} (o : option A) (g : A → option B) (b : B) :
  o ≫= g = Some b ↔ ∃ a, o = Some a ∧ g a = Some b.
Proof. destruct o; simpl; naive_solver. Qed.

Lemma hd_error_Some_split {A} (l : list A) (x : A) :
  hd_error l = Some x ↔ ∃ l', l = x :: l'.
Proof. destruct l; simpl; naive_solver. Qed.

Lemma bool_decide_is_Some {A} (o : option A) :
  bool_decide (is_Some o) = match o with Some _ => true | None => false end.
Proof. by destruct o. Qed.

Lemma head_app {A} (l1 l2 : list A) :
  head (l1 ++ l2) = match head l1 with Some x => Some x | None => head l2 end.
Proof. by destruct l1. Qed.
