(* ===== verification/JsString.v ===== *)
(** * JsString: the string operations of the language the script uses

    Truthiness of a [string | undefined] value, the operator [||] on such
    values, template literals, [String.prototype.includes] and
    [String.prototype.toLowerCase], on Rocq strings.  [includes] is proved
    against the specification [Infix]: the needle occurs somewhere in the
    string. *)

From S2P Require Import Prelude.

(** ** Truthiness, [||] and template literals *)

(** [ToBoolean] of a string: every string but the empty one is truthy. *)
Definition truthy (s : string) : bool := negb (String.eqb s "").

(** [ToBoolean] of a value of type [string | undefined]. *)
Definition truthy_opt (o : option string) : bool := from_option truthy false o.

(** [a || b] on values of type [string | undefined]. *)
Definition js_or (a b : option string) : option string :=
  if truthy_opt a then a else b.

(** A value of type [string | undefined] inside a template literal. *)
Definition template (o : option string) : string := from_option id "undefined" o.

(** A boolean in a template literal: [`${b}`]. *)
Definition template_bool (b : bool) : string := if b then "true" else "false".

(** The double quote and the line feed, for literals that hold them. *)
Definition dq : string := String "034"%char EmptyString.
Definition nl : string := String "010"%char EmptyString.

(** ** [includes] *)

(** [s.includes(k)]: [k] is a prefix of [s] or occurs in its tail. *)
Fixpoint includes (s k : string) : bool :=
  String.prefix k s ||
  match s with
  | EmptyString => false
  | String _ s' => includes s' k
  end.

(** The specification of [includes]: [k] occurs in [s]. *)
Definition Infix (k s : string) : Prop := ∃ a b, s = a +:+ k +:+ b.

(** ** [toLowerCase] *)

(** Lower-casing of one byte: [A]-[Z] move to [a]-[z], the rest stays. *)
Definition lower_ascii (c : ascii) : ascii :=
  let n := nat_of_ascii c in
  if (65 <=? n)%nat && (n <=? 90)%nat then ascii_of_nat (n + 32) else c.

(** [s.toLowerCase()] on the ASCII range. *)
Fixpoint toLowerCase (s : string) : string :=
  match s with
  | EmptyString => EmptyString
  | String c s' => String (lower_ascii c) (toLowerCase s')
  end.

(** ** Lemmas on append *)

Lemma app_empty_r (s : string) : s +:+ "" = s.
Proof. induction s as [|c s IH]; [done|]. unfold String.app in *. simpl. by rewrite IH. Qed.

Lemma app_String (c : ascii) (s t : string) : String c s +:+ t = String c (s +:+ t).
Proof. done. Qed.

Lemma app_empty_l (s : string) : "" +:+ s = s.
Proof. done. Qed.

Lemma app_assoc_s (s t u : string) : (s +:+ t) +:+ u = s +:+ t +:+ u.
Proof. induction s as [|c s IH]; [done|]. rewrite !app_String. by rewrite IH. Qed.

Lemma app_length_s (s t : string) :
  String.length (s +:+ t) = String.length s + String.length t.
Proof. induction s as [|c s IH]; [done|]. rewrite app_String. simpl. by rewrite IH. Qed.

Lemma app_eq_empty (s t : string) : s +:+ t = "" → s = "" ∧ t = "".
Proof. destruct s; [done|]. by rewrite app_String. Qed.

#[export] Hint Rewrite app_empty_r app_empty_l app_String app_assoc_s : js_rw.

(** ** Truthiness *)

Lemma truthy_true (s : string) : truthy s = true ↔ s ≠ "".
Proof.
  unfold truthy. rewrite negb_true_iff. split.
  - by intros ?%String.eqb_neq.
  - by intros ?%String.eqb_neq.
Qed.

Lemma truthy_false (s : string) : truthy s = false ↔ s = "".
Proof. unfold truthy. rewrite negb_false_iff. apply String.eqb_eq. Qed.

Lemma truthy_opt_true (o : option string) :
  truthy_opt o = true ↔ ∃ s, o = Some s ∧ s ≠ "".
Proof.
  destruct o as [s|]; simpl; [rewrite truthy_true|]; naive_solver.
Qed.

Lemma truthy_opt_false (o : option string) :
  truthy_opt o = false ↔ o = None ∨ o = Some "".
Proof.
  destruct o as [s|]; simpl; [rewrite truthy_false|]; naive_solver.
Qed.

Lemma js_or_truthy (a b : option string) :
  truthy_opt (js_or a b) = truthy_opt a || truthy_opt b.
Proof. unfold js_or. by destruct (truthy_opt a) eqn:E; simpl; [rewrite E|]. Qed.

Lemma template_truthy (o : option string) : truthy_opt o = true → o = Some (template o).
Proof. by intros (s & -> & _)%truthy_opt_true. Qed.

(** ** [includes] decides [Infix] *)

Lemma prefix_spec (k s : string) : String.prefix k s = true ↔ ∃ b, s = k +:+ b.
Proof.
  revert s. induction k as [|c k IH]; intros [|d s]; simpl.
  - split; [by exists ""|done].
  - split; [by eexists|done].
  - split; [done|]. by intros [b Hb].
  - destruct (ascii_dec c d) as [->|Hne].
    + rewrite IH. split; intros [b Hb]; exists b.
      * by rewrite app_String, <-Hb.
      * rewrite app_String in Hb. by simplify_eq.
    + split; [done|]. intros [b Hb]. rewrite app_String in Hb. by simplify_eq.
Qed.

Lemma Infix_prefix (k s b : string) : s = k +:+ b → Infix k s.
Proof. intros ->. by exists "", b. Qed.

Lemma Infix_String (k s : string) (c : ascii) : Infix k s → Infix k (String c s).
Proof. intros (a & b & ->). by exists (String c a), b. Qed.

Lemma Infix_inv (k s : string) :
  Infix k s →
  (∃ b, s = k +:+ b) ∨ ∃ c s', s = String c s' ∧ Infix k s'.
Proof.
  intros ([|c a] & b & ->).
  - left. by exists b.
  - right. exists c, (a +:+ k +:+ b). split; [done|]. by exists a, b.
Qed.

Lemma includes_empty_l (k : string) : includes "" k = String.prefix k "" || false.
Proof. done. Qed.

Lemma includes_String (c : ascii) (s k : string) :
  includes (String c s) k = String.prefix k (String c s) || includes s k.
Proof. done. Qed.

Lemma includes_spec (s k : string) : includes s k = true ↔ Infix k s.
Proof.
  induction s as [|c s IH];
    rewrite ?includes_empty_l, ?includes_String, orb_true_iff, prefix_spec.
  - split; [intros [[b ?]|?]; [by eapply Infix_prefix|done]|].
    intros [?|(? & ? & ? & _)]%Infix_inv; [by left|done].
  - rewrite IH. split.
    + intros [[b ?]|?]; [by eapply Infix_prefix|by apply Infix_String].
    + intros [?|(? & ? & ? & ?)]%Infix_inv; [by left|]. simplify_eq. by right.
Qed.

Lemma Infix_refl (s : string) : Infix s s.
Proof. exists "", "". by rewrite app_empty_l, app_empty_r. Qed.

Lemma Infix_trans (a b c : string) : Infix a b → Infix b c → Infix a c.
Proof.
  intros (x & y & ->) (u & v & ->). exists (u +:+ x), (y +:+ v).
  by rewrite !app_assoc_s.
Qed.

Lemma Infix_app_l (k s t : string) : Infix k s → Infix k (t +:+ s).
Proof. intros (a & b & ->). exists (t +:+ a), b. by rewrite !app_assoc_s. Qed.

Lemma Infix_app_r (k s t : string) : Infix k s → Infix k (s +:+ t).
Proof. intros (a & b & ->). exists a, (b +:+ t). by rewrite !app_assoc_s. Qed.

Lemma Infix_length (k s : string) : Infix k s → String.length k ≤ String.length s.
Proof. intros (a & b & ->). rewrite !app_length_s. lia. Qed.

#[export] Hint Resolve Infix_refl Infix_app_l Infix_app_r : js.

Lemma includes_refl (s : string) : includes s s = true.
Proof. apply includes_spec, Infix_refl. Qed.

Lemma includes_empty (s : string) : includes s "" = true.
Proof. apply includes_spec. by exists "", s. Qed.

Lemma includes_trans (a b c : string) :
  includes b a = true → includes c b = true → includes c a = true.
Proof. rewrite !includes_spec. apply Infix_trans. Qed.

Lemma includes_app_l (k s t : string) :
  includes s k = true → includes (t +:+ s) k = true.
Proof. rewrite !includes_spec. apply Infix_app_l. Qed.

Lemma includes_app_r (k s t : string) :
  includes s k = true → includes (s +:+ t) k = true.
Proof. rewrite !includes_spec. apply Infix_app_r. Qed.

Lemma includes_longer (s k : string) :
  String.length s < String.length k → includes s k = false.
Proof.
  intros Hlt. apply not_true_is_false. intros ?%includes_spec%Infix_length. lia.
Qed.

(** ** [toLowerCase] *)

Lemma lower_ascii_idemp (c : ascii) : lower_ascii (lower_ascii c) = lower_ascii c.
Proof. by destruct c as [[] [] [] [] [] [] [] []]. Qed.

Lemma toLowerCase_idemp (s : string) : toLowerCase (toLowerCase s) = toLowerCase s.
Proof. induction s as [|c s IH]; simpl; [done|]. by rewrite lower_ascii_idemp, IH. Qed.

Lemma toLowerCase_length (s : string) : String.length (toLowerCase s) = String.length s.
Proof. induction s as [|c s IH]; simpl; [done|]. by rewrite IH. Qed.

Lemma toLowerCase_app (s t : string) :
  toLowerCase (s +:+ t) = toLowerCase s +:+ toLowerCase t.
Proof. induction s as [|c s IH]; [done|]. rewrite app_String. simpl. by rewrite IH. Qed.

Lemma toLowerCase_Infix (k s : string) :
  Infix k s → Infix (toLowerCase k) (toLowerCase s).
Proof. intros (a & b & ->). rewrite !toLowerCase_app. by eexists _, _. Qed.

#[export] Hint Rewrite toLowerCase_idemp toLowerCase_app : js_rw.
