(* ===== verification/Api.v ===== *)
(** * Api: the data exchanged with the two vendors

    Module [Twitter] holds the shapes the tweet lookup takes and returns, as
    far as [fetchTweetData] reads them; module [OpenAI] the request that
    [askOpenAIAboutImage] builds (a tagged union of content parts, chat
    messages, the zod schema as data) and the parsed completion it reads.
    A property that may be absent at run time is an [option]. *)

From S2P Require Import Prelude.

Module Twitter.

(** The second argument of [singleTweet]. *)
Record LookupParams := {
  expansions : list string;
  media_fields : list string
}.

(** An entry of the [errors] array of a lookup result. *)
Record InlineErrorV2 := {
  detail : option string;
  title : option string
}.

(** A media attachment: its type ([photo], [video], [animated_gif]) and the
    two URLs the API may give for it. *)
Record MediaObjectV2 := {
  type : string;
  url : option string;
  preview_image_url : option string
}.

Record TweetV2 := { text : string }.

Record ApiV2Includes := { media : option (list MediaObjectV2) }.

(** What [singleTweet] resolves to. *)
Record TweetV2SingleResult := {
  data : option TweetV2;
  includes : option ApiV2Includes;
  errors : option (list InlineErrorV2)
}.

(** The read-only client, built from the bearer token. *)
Record TwitterApiReadOnly := { bearerToken : string }.

#[export] Instance LookupParams_eq_dec : EqDecision LookupParams.
Proof. solve_decision. Defined.
#[export] Instance InlineErrorV2_eq_dec : EqDecision InlineErrorV2.
Proof. solve_decision. Defined.
#[export] Instance MediaObjectV2_eq_dec : EqDecision MediaObjectV2.
Proof. solve_decision. Defined.
#[export] Instance TwitterApiReadOnly_eq_dec : EqDecision TwitterApiReadOnly.
Proof. solve_decision. Defined.

End Twitter.

Module OpenAI.

Record ImageURL := { url : string }.

(** A part of a user message, tagged by its [type] in the source:
    [{ type: "text", text }] or [{ type: "image_url", image_url }]. *)
Inductive ContentPart :=
| TextPart (text : string)
| ImageUrlPart (image_url : ImageURL).

(** The [content] of a chat message: a string or an array of parts. *)
Inductive MessageContent :=
| ContentString (s : string)
| ContentParts (parts : list ContentPart).

Record ChatMessage := {
  role : string;
  content : MessageContent
}.

(** A zod schema, as far as the script builds one: [z.boolean()] and
    [z.string()] with their descriptions, and [z.object]. *)
Inductive ZodType :=
| ZodBoolean (description : string)
| ZodString (description : string)
| ZodObject (shape : list (string * ZodType)).

(** What [zodResponseFormat(schema, name)] carries. *)
Record ResponseFormat := {
  name : string;
  schema : ZodType
}.

(** The argument of [chat.completions.parse]. *)
Record ParseParams := {
  model : string;
  temperature : Z;
  messages : list ChatMessage;
  response_format : ResponseFormat
}.

(** The object the schema describes. *)
Record VerificationResponse := {
  result : bool;
  reasoning : string
}.

(** [parsed] is [null] ([None]) when the model gave no parsable content. *)
Record ParsedMessage := { parsed : option VerificationResponse }.

Record ParsedChoice := { message : option ParsedMessage }.

Record ParsedChatCompletion := { choices : list ParsedChoice }.

(** The client, built from the API key. *)
Record Client := { apiKey : option string }.

#[export] Instance ImageURL_eq_dec : EqDecision ImageURL.
Proof. solve_decision. Defined.
#[export] Instance ContentPart_eq_dec : EqDecision ContentPart.
Proof. solve_decision. Defined.
#[export] Instance VerificationResponse_eq_dec : EqDecision VerificationResponse.
Proof. solve_decision. Defined.

End OpenAI.

(** The request of [openai.responses.create] as the free-text variant
    builds it, and the fields that variant reads from the answer. *)
Module Responses.

(** [{ type: "input_text", text }] *)
Inductive InputPart :=
| InputText (text : string).

Record InputMessage := {
  role : string;
  content : list InputPart
}.

(** [text: { format }] *)
Record TextConfig := { format : OpenAI.ResponseFormat }.

(** The argument of [responses.create]. *)
Record CreateParams := {
  model : string;
  temperature : Z;
  input : list InputMessage;
  text : TextConfig
}.

(** [message.content]: a string, or [null] ([None]). *)
Record ChoiceMessage := { message_content : option string }.

Record Choice := { message : option ChoiceMessage }.

(** The answer, as far as the script reads it: its property [choices],
    which an answer may lack ([None] is [undefined]). *)
Record Response := { choices : option (list Choice) }.

#[export] Instance InputPart_eq_dec : EqDecision InputPart.
Proof. solve_decision. Defined.

End Responses.
