(* ===== verification/JsRuntime.v ===== *)
(** * JsRuntime: the effects of the script

    A computation [M A] records the events it emitted (console lines and
    network calls, in order) and how it ended: with a value, with a thrown
    value, or with [process.exit].  The operations are those the script
    uses: sequencing ([mbind], with stdpp's notation), [throw],
    [try_catch], [process_exit], the three console functions and the
    awaited vendor calls.  The vendors are type classes, so that every
    theorem about the script holds for every behaviour of the vendors. *)

From S2P Require Import Prelude JsString Api.

(** ** Values thrown and logged *)

(** A thrown value: an instance of [Error] with its message, or anything
    else. *)
Inductive Thrown :=
| JsError (message : string)
| JsOther (what : string).

#[export] Instance Thrown_eq_dec : EqDecision Thrown.
Proof. solve_decision. Defined.

(** [new Error(message)]. *)
Definition new_Error (message : string) : Thrown := JsError message.

(** [error instanceof Error ? error.message : fallback]. *)
Definition message_or (fallback : string) (error : Thrown) : string :=
  match error with
  | JsError message => message
  | JsOther _ => fallback
  end.

(** An argument of a console function. *)
Inductive JsVal :=
| VStr (s : string)
| VUndefined
| VNull
| VThrown (e : Thrown)
| VErrors (es : list Twitter.InlineErrorV2)
| VResponse (r : OpenAI.VerificationResponse).

(** A [string | undefined] as a console argument. *)
Definition VOpt (o : option string) : JsVal := from_option VStr VUndefined o.

(** The value [choices[0]?.message?.parsed] as a console argument. *)
Definition VParsed (r : option (option OpenAI.VerificationResponse)) : JsVal :=
  match r with
  | None => VUndefined
  | Some None => VNull
  | Some (Some response) => VResponse response
  end.

Inductive Level := Log | Warn | Error.

(** ** Events and computations *)

Inductive Event :=
| Console (level : Level) (args : list JsVal)
| TwitterLookup (client : Twitter.TwitterApiReadOnly) (tweetId : string)
    (params : Twitter.LookupParams)
| OpenAIParse (client : OpenAI.Client) (body : OpenAI.ParseParams)
| OpenAICreate (client : OpenAI.Client) (body : Responses.CreateParams).

Inductive Outcome (A : Type) :=
| Returned (a : A)
| Threw (e : Thrown)
| Exited (code : Z).
Arguments Returned {A} a.
Arguments Threw {A} e.
Arguments Exited {A} code.

Record M (A : Type) := Run {
  trace : list Event;
  outcome : Outcome A
}.
Arguments Run {A} trace outcome.
Arguments trace {A} m.
Arguments outcome {A} m.

#[export] Instance M_ret : MRet M := λ A a, Run [] (Returned a).

#[export] Instance M_bind : MBind M := λ A B f m,
  match outcome m with
  | Returned a => Run (trace m ++ trace (f a)) (outcome (f a))
  | Threw e => Run (trace m) (Threw e)
  | Exited code => Run (trace m) (Exited code)
  end.

(** [throw e]. *)
Definition throw {A} (e : Thrown) : M A := Run [] (Threw e).

(** [process.exit(code)]: nothing after it runs, no handler sees it. *)
Definition process_exit {A} (code : Z) : M A := Run [] (Exited code).

(** [try { body } catch (error) { handler }]. *)
Definition try_catch {A} (body : M A) (handler : Thrown → M A) : M A :=
  match outcome body with
  | Threw e => Run (trace body ++ trace (handler e)) (outcome (handler e))
  | _ => body
  end.

(** A computation that never completes normally (TypeScript's [never]),
    at any type. *)
Definition never {A} (m : M Empty_set) : M A :=
  m ≫= λ x : Empty_set, match x with end.

(** The guard [if (!value) { otherwise }] before code that uses [value] as
    a string: [otherwise] ends in [throw] or [process.exit], so what
    follows runs with a non-empty string. *)
Definition require_truthy (value : option string) (otherwise : M Empty_set) : M string :=
  match value with
  | Some s => if truthy s then mret s else never otherwise
  | None => never otherwise
  end.

Definition console (level : Level) (args : list JsVal) : M unit :=
  Run [Console level args] (Returned ()).

Definition console_log := console Log.
Definition console_warn := console Warn.
Definition console_error := console Error.

(** ** The vendors *)

(** The social-media API: what a lookup resolves to or rejects with. *)
Class TwitterService :=
  singleTweet_response :
    Twitter.TwitterApiReadOnly → string → Twitter.LookupParams →
    Thrown + Twitter.TweetV2SingleResult.

(** The inference API: what a parse request resolves to or rejects with. *)
Class OpenAIService :=
  parse_response :
    OpenAI.Client → OpenAI.ParseParams → Thrown + OpenAI.ParsedChatCompletion.

(** The inference API of the free-text variant: what [responses.create]
    resolves to or rejects with. *)
Class ResponsesService :=
  create_response :
    OpenAI.Client → Responses.CreateParams → Thrown + Responses.Response.

(** A settled promise as a computation. *)
Definition settle {A} (r : Thrown + A) : Outcome A :=
  match r with
  | inl e => Threw e
  | inr a => Returned a
  end.

(** [await client.v2.singleTweet(tweetId, params)]. *)
Definition await_singleTweet `{TwitterService}
    (client : Twitter.TwitterApiReadOnly) (tweetId : string)
    (params : Twitter.LookupParams) : M Twitter.TweetV2SingleResult :=
  Run [TwitterLookup client tweetId params]
      (settle (singleTweet_response client tweetId params)).

(** [await openai.beta.chat.completions.parse(body)]. *)
Definition await_parse `{OpenAIService}
    (client : OpenAI.Client) (body : OpenAI.ParseParams)
    : M OpenAI.ParsedChatCompletion :=
  Run [OpenAIParse client body] (settle (parse_response client body)).

(** [await openai.responses.create(body)]. *)
Definition await_create `{ResponsesService}
    (client : OpenAI.Client) (body : Responses.CreateParams)
    : M Responses.Response :=
  Run [OpenAICreate client body] (settle (create_response client body)).

(** The exit code of the process for the outcome of its top level: 0 when
    it ran to its end, the code of [process.exit], 1 for an uncaught
    exception. *)
Definition exit_code {A} (o : Outcome A) : Z :=
  match o with
  | Returned _ => 0
  | Threw _ => 1
  | Exited code => code
  end.

(** ** Classification of events *)

Definition is_network (e : Event) : bool :=
  match e with
  | Console _ _ => false
  | _ => true
  end.

Definition is_console (level : Level) (e : Event) : bool :=
  match e with
  | Console Log _ => if level is Log then true else false
  | Console Warn _ => if level is Warn then true else false
  | Console Error _ => if level is Error then true else false
  | _ => false
  end.

(** The network calls of a trace, in order. *)
Definition network (t : list Event) : list Event := filter is_network t.

(** ** Vendors for examples: a vendor that always answers the same *)

Module Mock.

Definition twitter (r : Thrown + Twitter.TweetV2SingleResult) : TwitterService :=
  λ _ _ _, r.

Definition openai (r : Thrown + OpenAI.ParsedChatCompletion) : OpenAIService :=
  λ _ _, r.

Definition responses (r : Thrown + Responses.Response) : ResponsesService :=
  λ _ _, r.

End Mock.

(** ** Running a computation *)

(** [js_run] unfolds the operations of the monad and evaluates a
    computation as far as its data allow. *)
Ltac js_run :=
  cbv [mbind mret M_bind M_ret try_catch throw process_exit new_Error settle
       never console_log console_warn console_error console trace outcome];
  cbn [app].

Tactic Notation "js_run" "in" hyp(H) :=
  cbv [mbind mret M_bind M_ret try_catch throw process_exit new_Error settle
       never console_log console_warn console_error console trace outcome] in H;
  cbn [app] in H.

(** ** Monad laws *)

Lemma M_eta {A} (m : M A) : Run (trace m) (outcome m) = m.
Proof. by destruct m. Qed.

Section laws.
Context {A B C : Type}.
Implicit Types (m : M A) (f : A → M B) (g : B → M C) (h : Thrown → M A).

Lemma bind_ret_l (a : A) f : mret a ≫= f = f a.
Proof. unfold mret, mbind, M_ret, M_bind. simpl. apply M_eta. Qed.

Lemma bind_ret_r m : m ≫= mret = m.
Proof.
  destruct m as [t [a|e|c]]; unfold mbind, M_bind; simpl; by rewrite ?app_nil_r.
Qed.

Lemma bind_assoc m f g : (m ≫= f) ≫= g = m ≫= (λ a, f a ≫= g).
Proof.
  destruct m as [t [a|e|c]]; unfold mbind, M_bind; simpl; [|done..].
  destruct (f a) as [t' [b|e|c]]; simpl; by rewrite ?app_assoc.
Qed.

Lemma bind_Returned (t : list Event) (a : A) f :
  Run t (Returned a) ≫= f = Run (t ++ trace (f a)) (outcome (f a)).
Proof. done. Qed.

Lemma bind_throw (e : Thrown) f : throw e ≫= f = throw e.
Proof. done. Qed.

Lemma bind_exit (code : Z) f : process_exit code ≫= f = process_exit code.
Proof. done. Qed.

(** The trace of a sequence: the first trace, then the second when the
    first computation returned. *)
Lemma trace_bind m f :
  trace (m ≫= f) =
  trace m ++ match outcome m with Returned a => trace (f a) | _ => [] end.
Proof.
  destruct m as [t [a|e|c]]; unfold mbind, M_bind; simpl; by rewrite ?app_nil_r.
Qed.

Lemma outcome_bind m f :
  outcome (m ≫= f) =
  match outcome m with
  | Returned a => outcome (f a)
  | Threw e => Threw e
  | Exited c => Exited c
  end.
Proof. by destruct m as [t [a|e|c]]. Qed.

Lemma trace_bind_prefix m f : trace m `prefix_of` trace (m ≫= f).
Proof. rewrite trace_bind. by eexists. Qed.

(** ** Laws of [try_catch] *)

Lemma try_catch_ret (a : A) h : try_catch (mret a) h = mret a.
Proof. done. Qed.

Lemma try_catch_throw (e : Thrown) h : try_catch (throw e) h = h e.
Proof. unfold try_catch. simpl. apply M_eta. Qed.

Lemma try_catch_exit (code : Z) h : try_catch (process_exit code) h = process_exit code.
Proof. done. Qed.

Lemma trace_try_catch m h :
  trace (try_catch m h) =
  trace m ++ match outcome m with Threw e => trace (h e) | _ => [] end.
Proof. destruct m as [t [a|e|c]]; unfold try_catch; simpl; by rewrite ?app_nil_r. Qed.

Lemma outcome_try_catch m h :
  outcome (try_catch m h) =
  match outcome m with
  | Threw e => outcome (h e)
  | o => o
  end.
Proof. by destruct m as [t [a|e|c]]. Qed.

Lemma try_catch_id m h : (∀ e, outcome m ≠ Threw e) → try_catch m h = m.
Proof.
  destruct m as [t [a|e|c]]; unfold try_catch; simpl; [done| |done].
  by intros Hne; destruct (Hne e).
Qed.

(** A handler that rethrows never lets the block return a value it did not
    compute, and never lets it exit. *)
Lemma try_catch_rethrow m (wrap : Thrown → Thrown) :
  outcome (try_catch m (λ e, throw (wrap e))) =
  match outcome m with
  | Threw e => Threw (wrap e)
  | o => o
  end.
Proof. by rewrite outcome_try_catch. Qed.

End laws.

#[export] Hint Rewrite @bind_ret_l @bind_ret_r @bind_throw @bind_exit
  @try_catch_ret @try_catch_throw @try_catch_exit : js_rw.

(** ** [require_truthy] *)

Lemma never_outcome {A} (m : M Empty_set) :
  outcome (never (A:=A) m) =
  match outcome m with
  | Returned x => match x with end
  | Threw e => Threw e
  | Exited c => Exited c
  end.
Proof. by destruct m as [t [[]|e|c]]. Qed.

Lemma never_trace {A} (m : M Empty_set) : trace (never (A:=A) m) = trace m.
Proof. by destruct m as [t [[]|e|c]]. Qed.

Lemma require_truthy_true (value : option string) (otherwise : M Empty_set) :
  truthy_opt value = true → require_truthy value otherwise = mret (template value).
Proof. intros (s & -> & Hs%truthy_true)%truthy_opt_true. simpl. by rewrite Hs. Qed.

Lemma require_truthy_false (value : option string) (otherwise : M Empty_set) :
  truthy_opt value = false → require_truthy value otherwise = never otherwise.
Proof. intros [->| ->]%truthy_opt_false; done. Qed.

(** ** Events *)

Lemma network_app (t1 t2 : list Event) : network (t1 ++ t2) = network t1 ++ network t2.
Proof. apply filter_app. Qed.

Lemma network_cons (e : Event) (t : list Event) :
  network (e :: t) = if is_network e then e :: network t else network t.
Proof. unfold network. rewrite filter_cons. by destruct e. Qed.

Lemma elem_of_network (e : Event) (t : list Event) :
  e ∈ network t ↔ is_network e = true ∧ e ∈ t.
Proof. unfold network. rewrite list_elem_of_filter, Is_true_true. done. Qed.

Lemma network_console (level : Level) (args : list JsVal) :
  network (trace (console level args)) = [].
Proof. done. Qed.

Lemma outcome_console (level : Level) (args : list JsVal) :
  outcome (console level args) = Returned ().
Proof. done. Qed.

Lemma exit_code_0 {A} (o : Outcome A) :
  exit_code o = 0%Z ↔ (∃ a, o = Returned a) ∨ o = Exited 0.
Proof. destruct o; simpl; split; intros; destruct_or?; destruct_and?; naive_solver. Qed.

#[export] Hint Rewrite network_app : js_rw.
