(* ===== verification/Resolver.v ===== *)
(** * Resolver: [fetchTweetData]

    The tweet resolver of [src/src/index.ts] (lines 38-91): one lookup, the
    guards on the result, the selection of the image URL, and the [catch]
    that wraps every failure into one error.  The selection
    ([selectImageUrl]) is proved against two specifications: the relation
    [Selected], which states the four precedence rules, and the function
    [firstCandidate], the head of the list of candidates in order of
    precedence.  The whole function is proved against the contract
    [resolve]: a sum of a [ResolutionError] and the resolved data. *)

From S2P Require Import Prelude JsString Api JsRuntime.

(** ** The model *)

(** The value [fetchTweetData] resolves to:
    [{ imageUrl?: string, text?: string }]. *)
Record TweetData := {
  imageUrl : option string;
  text : option string
}.

(** The options of the lookup: the media expansion and the three fields. *)
Definition lookupParams : Twitter.LookupParams :=
  {| Twitter.expansions := ["attachments.media_keys"];
     Twitter.media_fields := ["url"; "type"; "preview_image_url"] |}.

(** [m => m.type === 'photo' && m.url] *)
Definition isPhotoWithUrl (m : Twitter.MediaObjectV2) : bool :=
  String.eqb (Twitter.type m) "photo" && truthy_opt (Twitter.url m).

(** [m => m.type === 'photo' && m.preview_image_url] *)
Definition isPhotoWithPreview (m : Twitter.MediaObjectV2) : bool :=
  String.eqb (Twitter.type m) "photo" && truthy_opt (Twitter.preview_image_url m).

(** [m => m.type === 'video' && m.preview_image_url] *)
Definition isVideoWithPreview (m : Twitter.MediaObjectV2) : bool :=
  String.eqb (Twitter.type m) "video" && truthy_opt (Twitter.preview_image_url m).

(** The selection of [imageUrl] from [tweet.includes?.media]: the guard
    [media && media.length > 0], then the three [find]s, each tried when the
    one before gave no truthy URL.  [o ≫= f] is [o?.f]. *)
Definition selectImageUrl (media : option (list Twitter.MediaObjectV2)) : option string :=
  match media with
  | Some ((_ :: _) as media) =>
      let photoMedia := find isPhotoWithUrl media in
      if truthy_opt (photoMedia ≫= Twitter.url) then photoMedia ≫= Twitter.url
      else
        let photoPreviewMedia := find isPhotoWithPreview media in
        if truthy_opt (photoPreviewMedia ≫= Twitter.preview_image_url)
        then photoPreviewMedia ≫= Twitter.preview_image_url
        else
          let videoMediaWithPreview := find isVideoWithPreview media in
          if truthy_opt (videoMediaWithPreview ≫= Twitter.preview_image_url)
          then videoMediaWithPreview ≫= Twitter.preview_image_url
          else None
  | _ => None
  end.

(** The guard on [tweet.errors]: with a non-empty array, log the first
    entry's detail (or title) and throw. *)
Definition checkErrors (tweet : Twitter.TweetV2SingleResult) : M unit :=
  match Twitter.errors tweet with
  | Some ((error0 :: _) as errors) =>
      let errorDetail := js_or (Twitter.detail error0) (Twitter.title error0) in
      console_error [VStr "Error fetching tweet:"; VOpt errorDetail; VErrors errors];;
      throw (new_Error ("Failed to fetch tweet: " +:+ template errorDetail))
  | _ => mret ()
  end.

(** The [catch] block: log, and throw an error that names the tweet. *)
Definition catchFetch (tweetId : string) (error : Thrown) : M TweetData :=
  let message := message_or "Unknown error" error in
  console_error [VStr ("Error fetching or processing tweet " +:+ tweetId +:+ " from API:");
                 VStr message; VThrown error];;
  throw (new_Error ("Failed to process tweet " +:+ tweetId +:+ ": " +:+ message)).

Section resolver.
Context `{TwitterService} (readOnlyTwitterClient : Twitter.TwitterApiReadOnly).

(** The [try] block. *)
Definition tryFetch (tweetId : string) : M TweetData :=
  tweet ← await_singleTweet readOnlyTwitterClient tweetId lookupParams;
  checkErrors tweet;;
  match Twitter.data tweet with
  | None => throw (new_Error "Tweet data not found in API response.")
  | Some data =>
      let media := Twitter.includes tweet ≫= Twitter.media in
      let imageUrl := selectImageUrl media in
      (if negb (truthy_opt imageUrl)
       then console_warn [VStr ("Tweet " +:+ tweetId +:+
              " does not appear to contain a usable image URL (photo or video thumbnail).")]
       else mret ());;
      mret {| imageUrl := imageUrl; text := Some (Twitter.text data) |}
  end.

Definition fetchTweetData (tweetId : string) : M TweetData :=
  console_log [VStr ("Fetching tweet from Twitter API: " +:+ tweetId)];;
  try_catch (tryFetch tweetId) (catchFetch tweetId).

End resolver.

(** ** Specifications *)

(** [m] is the first element of [media] that satisfies [p]. *)
Definition FirstWith (p : Twitter.MediaObjectV2 → bool)
    (media : list Twitter.MediaObjectV2) (m : Twitter.MediaObjectV2) : Prop :=
  ∃ l1 l2, media = l1 ++ m :: l2 ∧ p m = true ∧ Forall (λ y, p y = false) l1.

(** No element of [media] satisfies [p]. *)
Definition NoneWith (p : Twitter.MediaObjectV2 → bool)
    (media : list Twitter.MediaObjectV2) : Prop :=
  Forall (λ y, p y = false) media.

(** The precedence rules of the design, one constructor per rule. *)
Inductive Selected (media : list Twitter.MediaObjectV2) : option string → Prop :=
| Selected_photo_url m :
    FirstWith isPhotoWithUrl media m →
    Selected media (Twitter.url m)
| Selected_photo_preview m :
    NoneWith isPhotoWithUrl media →
    FirstWith isPhotoWithPreview media m →
    Selected media (Twitter.preview_image_url m)
| Selected_video_preview m :
    NoneWith isPhotoWithUrl media →
    NoneWith isPhotoWithPreview media →
    FirstWith isVideoWithPreview media m →
    Selected media (Twitter.preview_image_url m)
| Selected_none :
    NoneWith isPhotoWithUrl media →
    NoneWith isPhotoWithPreview media →
    NoneWith isVideoWithPreview media →
    Selected media None.

(** The URL an attachment offers under a rule, if the rule applies to it. *)
Definition offer (p : Twitter.MediaObjectV2 → bool)
    (get : Twitter.MediaObjectV2 → option string)
    (m : Twitter.MediaObjectV2) : option string :=
  if p m then get m else None.

(** The candidates of a media list, in order of precedence. *)
Definition candidates (media : list Twitter.MediaObjectV2) : list string :=
  omap (offer isPhotoWithUrl Twitter.url) media ++
  omap (offer isPhotoWithPreview Twitter.preview_image_url) media ++
  omap (offer isVideoWithPreview Twitter.preview_image_url) media.

Definition firstCandidate (media : list Twitter.MediaObjectV2) : option string :=
  head (candidates media).

(** The contract of the resolver: what a lookup result resolves to. *)
Inductive ResolutionError :=
| LookupRejected (error : Thrown)
| ApiErrors (errorDetail : option string)
| TweetNotFound.

Definition resolve (r : Thrown + Twitter.TweetV2SingleResult) : ResolutionError + TweetData :=
  match r with
  | inl error => inl (LookupRejected error)
  | inr tweet =>
      match Twitter.errors tweet with
      | Some (error0 :: _) =>
          inl (ApiErrors (js_or (Twitter.detail error0) (Twitter.title error0)))
      | _ =>
          match Twitter.data tweet with
          | None => inl TweetNotFound
          | Some data =>
              inr {| imageUrl := firstCandidate
                       (default [] (Twitter.includes tweet ≫= Twitter.media));
                     text := Some (Twitter.text data) |}
          end
      end
  end.

(** The message of the error [fetchTweetData] throws for a failure. *)
Definition errorMessage (tweetId : string) (err : ResolutionError) : string :=
  "Failed to process tweet " +:+ tweetId +:+ ": " +:+
  match err with
  | LookupRejected error => message_or "Unknown error" error
  | ApiErrors errorDetail => "Failed to fetch tweet: " +:+ template errorDetail
  | TweetNotFound => "Tweet data not found in API response."
  end.

(** [tweet.errors && tweet.errors.length > 0] *)
Definition hasErrors (tweet : Twitter.TweetV2SingleResult) : bool :=
  match Twitter.errors tweet with
  | Some (_ :: _) => true
  | _ => false
  end.

(** The four ways a lookup can end, as a view of the vendor's answer. *)
Inductive FetchCase : Thrown + Twitter.TweetV2SingleResult → Prop :=
| Case_rejected error : FetchCase (inl error)
| Case_errors tweet error0 errors :
    Twitter.errors tweet = Some (error0 :: errors) → FetchCase (inr tweet)
| Case_no_data tweet :
    hasErrors tweet = false → Twitter.data tweet = None → FetchCase (inr tweet)
| Case_ok tweet data :
    hasErrors tweet = false → Twitter.data tweet = Some data → FetchCase (inr tweet).

(** The events of [fetchTweetData], by name. *)
Definition logFetching (tweetId : string) : Event :=
  Console Log [VStr ("Fetching tweet from Twitter API: " +:+ tweetId)].

Definition logCaught (tweetId : string) (error : Thrown) : Event :=
  Console Error
    [VStr ("Error fetching or processing tweet " +:+ tweetId +:+ " from API:");
     VStr (message_or "Unknown error" error); VThrown error].

Definition warnNoImage (tweetId : string) : Event :=
  Console Warn [VStr ("Tweet " +:+ tweetId +:+
    " does not appear to contain a usable image URL (photo or video thumbnail).")].

(** ** Data for examples *)

Module Example.

Definition photo (url preview : option string) : Twitter.MediaObjectV2 :=
  {| Twitter.type := "photo"; Twitter.url := url; Twitter.preview_image_url := preview |}.

Definition video (url preview : option string) : Twitter.MediaObjectV2 :=
  {| Twitter.type := "video"; Twitter.url := url; Twitter.preview_image_url := preview |}.

Definition gif (url preview : option string) : Twitter.MediaObjectV2 :=
  {| Twitter.type := "animated_gif"; Twitter.url := url; Twitter.preview_image_url := preview |}.

Definition tweet (media : list Twitter.MediaObjectV2) : Twitter.TweetV2SingleResult :=
  {| Twitter.data := Some {| Twitter.text := "gm" |};
     Twitter.includes := Some {| Twitter.media := Some media |};
     Twitter.errors := None |}.

Definition notFound (detail : option string) : Twitter.InlineErrorV2 :=
  {| Twitter.detail := detail; Twitter.title := Some "Not Found Error" |}.

Definition failed (detail : option string) : Twitter.TweetV2SingleResult :=
  {| Twitter.data := None;
     Twitter.includes := None;
     Twitter.errors := Some [notFound detail] |}.

Definition client : Twitter.TwitterApiReadOnly := {| Twitter.bearerToken := "token" |}.

End Example.

(** ** The three predicates *)

Lemma isPhotoWithUrl_true (m : Twitter.MediaObjectV2) :
  isPhotoWithUrl m = true ↔
  Twitter.type m = "photo" ∧ ∃ u, Twitter.url m = Some u ∧ u ≠ "".
Proof.
  unfold isPhotoWithUrl.
  by rewrite andb_true_iff, String.eqb_eq, truthy_opt_true.
Qed.

Lemma isPhotoWithPreview_true (m : Twitter.MediaObjectV2) :
  isPhotoWithPreview m = true ↔
  Twitter.type m = "photo" ∧ ∃ u, Twitter.preview_image_url m = Some u ∧ u ≠ "".
Proof.
  unfold isPhotoWithPreview.
  by rewrite andb_true_iff, String.eqb_eq, truthy_opt_true.
Qed.

Lemma isVideoWithPreview_true (m : Twitter.MediaObjectV2) :
  isVideoWithPreview m = true ↔
  Twitter.type m = "video" ∧ ∃ u, Twitter.preview_image_url m = Some u ∧ u ≠ "".
Proof.
  unfold isVideoWithPreview.
  by rewrite andb_true_iff, String.eqb_eq, truthy_opt_true.
Qed.

(** A rule: a predicate on attachments and the URL it reads, such that the
    URL of an attachment the predicate accepts is truthy. *)
Class Rule (p : Twitter.MediaObjectV2 → bool)
    (get : Twitter.MediaObjectV2 → option string) : Prop :=
  rule_truthy : ∀ m, p m = true → truthy_opt (get m) = true.

#[export] Instance Rule_photo_url : Rule isPhotoWithUrl Twitter.url.
Proof. by intros m [_ ?]%andb_true_iff. Qed.

#[export] Instance Rule_photo_preview : Rule isPhotoWithPreview Twitter.preview_image_url.
Proof. by intros m [_ ?]%andb_true_iff. Qed.

#[export] Instance Rule_video_preview : Rule isVideoWithPreview Twitter.preview_image_url.
Proof. by intros m [_ ?]%andb_true_iff. Qed.

Section rule.
Context (p : Twitter.MediaObjectV2 → bool) (get : Twitter.MediaObjectV2 → option string).
Context `{!Rule p get}.
Implicit Types (media : list Twitter.MediaObjectV2) (m : Twitter.MediaObjectV2).

(** The test [if (found?.url)] after a [find] succeeds exactly when the
    [find] found something. *)
Lemma find_get_truthy media :
  truthy_opt (find p media ≫= get) = bool_decide (is_Some (find p media)).
Proof.
  destruct (find p media) as [m|] eqn:E; simpl; [|done].
  apply find_Some_elem_of in E as [_ E]. by apply rule_truthy.
Qed.

Lemma offer_Some m u : offer p get m = Some u ↔ p m = true ∧ get m = Some u.
Proof. unfold offer. destruct (p m); naive_solver. Qed.

Lemma offer_None m : offer p get m = None ↔ p m = false.
Proof.
  unfold offer. destruct (p m) eqn:E; [|done].
  apply rule_truthy, truthy_opt_true in E as (u & -> & _). done.
Qed.

(** The head of the offers of a list is what the first accepted attachment
    offers. *)
Lemma head_omap_offer media : head (omap (offer p get) media) = find p media ≫= get.
Proof.
  induction media as [|m media IH]; simpl; [done|].
  destruct (offer p get m) as [u|] eqn:E.
  - apply offer_Some in E as [-> E]. simpl. by rewrite E.
  - apply offer_None in E as ->. done.
Qed.

Lemma find_get_Some media m :
  find p media = Some m → ∃ u, get m = Some u ∧ u ≠ "" ∧ m ∈ media.
Proof.
  intros [? E]%find_Some_elem_of.
  apply (rule_truthy (get:=get)), truthy_opt_true in E as (u & ? & ?). by exists u.
Qed.

Lemma FirstWith_find media m : FirstWith p media m ↔ find p media = Some m.
Proof. symmetry. apply find_Some_split. Qed.

Lemma NoneWith_find media : NoneWith p media ↔ find p media = None.
Proof. symmetry. apply find_None_Forall. Qed.

End rule.

(** ** [selectImageUrl] *)

(** The selection written with the tests resolved: the first rule whose
    [find] succeeds gives the URL. *)
Lemma selectImageUrl_find (media : list Twitter.MediaObjectV2) :
  selectImageUrl (Some media) =
  match find isPhotoWithUrl media with
  | Some m => Twitter.url m
  | None =>
      match find isPhotoWithPreview media with
      | Some m => Twitter.preview_image_url m
      | None => find isVideoWithPreview media ≫= Twitter.preview_image_url
      end
  end.
Proof.
  destruct media as [|m0 media]; [done|].
  unfold selectImageUrl. rewrite !find_get_truthy by apply _.
  by repeat (case_match; simplify_eq/=; rewrite ?bool_decide_is_Some in * ).
Qed.

Lemma selectImageUrl_None_nil : selectImageUrl None = None ∧ selectImageUrl (Some []) = None.
Proof. done. Qed.

(** The rules admit only the result the selection computes. *)
Lemma Selected_sound (media : list Twitter.MediaObjectV2) (r : option string) :
  Selected media r → selectImageUrl (Some media) = r.
Proof.
  rewrite selectImageUrl_find.
  intros [m Hm | m H1 Hm | m H1 H2 Hm | H1 H2 H3];
    repeat match goal with
    | H : FirstWith _ _ _ |- _ => apply FirstWith_find in H; rewrite H
    | H : NoneWith _ _ |- _ => apply NoneWith_find in H; rewrite H
    end; done.
Qed.

(** The rules admit the result the selection computes. *)
Lemma Selected_complete (media : list Twitter.MediaObjectV2) :
  Selected media (selectImageUrl (Some media)).
Proof.
  rewrite selectImageUrl_find.
  destruct (find isPhotoWithUrl media) as [m|] eqn:E1;
    [by apply Selected_photo_url, FirstWith_find|].
  destruct (find isPhotoWithPreview media) as [m|] eqn:E2;
    [by apply Selected_photo_preview; [apply NoneWith_find|apply FirstWith_find]|].
  destruct (find isVideoWithPreview media) as [m|] eqn:E3; simpl.
  - by apply Selected_video_preview; [apply NoneWith_find..|apply FirstWith_find].
  - by apply Selected_none; apply NoneWith_find.
Qed.

(** The selection is the head of the candidates, also when the tweet has
    no media. *)
Lemma selectImageUrl_default (media : option (list Twitter.MediaObjectV2)) :
  selectImageUrl media = firstCandidate (default [] media).
Proof.
  destruct media as [media|]; [|done]. cbn [from_option id].
  rewrite selectImageUrl_find. unfold firstCandidate, candidates.
  rewrite !head_app, !head_omap_offer by apply _.
  destruct (find isPhotoWithUrl media) as [m|] eqn:E1; simpl.
  { by apply (find_get_Some _ Twitter.url) in E1 as (u & -> & _). }
  destruct (find isPhotoWithPreview media) as [m|] eqn:E2; simpl.
  { by apply (find_get_Some _ Twitter.preview_image_url) in E2 as (u & -> & _). }
  by destruct (find isVideoWithPreview media ≫= _).
Qed.

(** C1. The selection implements the precedence rules: [Selected media r]
    holds exactly when [selectImageUrl] returns [r] on [media].  So the
    rules admit one result for every media list, and the code computes
    it. *)
Theorem selectImageUrl_Selected (media : list Twitter.MediaObjectV2) (r : option string) :
  Selected media r ↔ selectImageUrl (Some media) = r.
Proof. split; [apply Selected_sound|intros <-; apply Selected_complete]. Qed.

(** C6. The selection equals the reference definition: the head of the
    list of candidates taken rule by rule (photo URLs, then photo previews,
    then video previews, each in the order of the API). *)
Theorem selectImageUrl_firstCandidate (media : list Twitter.MediaObjectV2) :
  selectImageUrl (Some media) = firstCandidate media.
Proof. apply (selectImageUrl_default (Some media)). Qed.

(** C32. Rule 1 beats every other rule: when an attachment is a photo with a
    non-empty direct URL and no attachment before it is one, its direct URL
    is selected, whatever previews the list holds and whatever follows. *)
Theorem select_photo_url_first (l1 l2 : list Twitter.MediaObjectV2)
    (m : Twitter.MediaObjectV2) (u : string) :
  Forall (λ y, isPhotoWithUrl y = false) l1 →
  Twitter.type m = "photo" → Twitter.url m = Some u → u ≠ "" →
  selectImageUrl (Some (l1 ++ m :: l2)) = Some u.
Proof.
  intros Hl1 Hty Hu Hne. rewrite selectImageUrl_find.
  assert (find isPhotoWithUrl (l1 ++ m :: l2) = Some m) as ->; [|done].
  apply find_Some_split. exists l1, l2. split_and!; [done| |done].
  apply isPhotoWithUrl_true. eauto.
Qed.

Lemma select_photo_url_first_witness :
  selectImageUrl (Some ([Example.video None (Some "v.jpg"); Example.photo None (Some "p.jpg")] ++
                        Example.photo (Some "direct.jpg") (Some "thumb.jpg") :: [])) =
  Some "direct.jpg".
Proof.
  apply (select_photo_url_first _ _ (Example.photo (Some "direct.jpg") (Some "thumb.jpg")));
    [by repeat constructor|done..].
Defined.

(** A media list with a usable photo never yields a preview of a video:
    if some attachment is a photo with a non-empty direct URL, the selected
    URL is the direct URL of a photo of the list. *)
Theorem select_prefers_direct_url (media : list Twitter.MediaObjectV2)
    (m : Twitter.MediaObjectV2) :
  m ∈ media → isPhotoWithUrl m = true →
  ∃ m' u, m' ∈ media ∧ Twitter.type m' = "photo" ∧ Twitter.url m' = Some u ∧ u ≠ "" ∧
          selectImageUrl (Some media) = Some u.
Proof.
  intros Hin Hm. rewrite selectImageUrl_find.
  destruct (find_is_Some _ _ _ Hin Hm) as [m' E]. rewrite E.
  apply find_Some_elem_of in E as [? (? & u & ? & ?)%isPhotoWithUrl_true].
  by exists m', u.
Qed.

Lemma select_prefers_direct_url_witness :
  ∃ m' u, m' ∈ [Example.photo None (Some "thumb.jpg"); Example.photo (Some "a.jpg") None] ∧
          Twitter.type m' = "photo" ∧ Twitter.url m' = Some u ∧ u ≠ "" ∧
          selectImageUrl (Some [Example.photo None (Some "thumb.jpg");
                                Example.photo (Some "a.jpg") None]) = Some u.
Proof.
  apply (select_prefers_direct_url _ (Example.photo (Some "a.jpg") None)); [|done].
  apply list_elem_of_lookup. by exists 1.
Defined.

(** C33. Rule 3: in a media list without photos, the preview of the first
    video that has a non-empty one is selected. *)
Theorem select_video_preview (l1 l2 : list Twitter.MediaObjectV2)
    (m : Twitter.MediaObjectV2) (u : string) :
  Forall (λ y, Twitter.type y ≠ "photo") (l1 ++ m :: l2) →
  Forall (λ y, isVideoWithPreview y = false) l1 →
  Twitter.type m = "video" → Twitter.preview_image_url m = Some u → u ≠ "" →
  selectImageUrl (Some (l1 ++ m :: l2)) = Some u.
Proof.
  intros Hph Hl1 Hty Hu Hne. rewrite selectImageUrl_find.
  assert (∀ p, (∀ y, p y = true → Twitter.type y = "photo") →
               find p (l1 ++ m :: l2) = None) as Hnone.
  { intros p Hp. apply find_None_Forall. eapply Forall_impl; [exact Hph|].
    intros y Hy. apply not_true_is_false. by intros ?%Hp. }
  rewrite !Hnone by (by intros y [?%String.eqb_eq _]%andb_true_iff).
  assert (find isVideoWithPreview (l1 ++ m :: l2) = Some m) as ->; [|done].
  apply find_Some_split. exists l1, l2. split_and!; [done| |done].
  apply isVideoWithPreview_true. eauto.
Qed.

Lemma select_video_preview_witness :
  selectImageUrl (Some ([Example.gif (Some "g.gif") None; Example.video None None] ++
                        Example.video None (Some "poster.jpg") :: [])) =
  Some "poster.jpg".
Proof.
  apply (select_video_preview _ _ (Example.video None (Some "poster.jpg")));
    [by repeat constructor..|done|done|done].
Defined.

(** C34. Rule 4: a media list with neither a photo nor a video, the empty
    list included, yields no image URL. *)
Theorem select_none (media : list Twitter.MediaObjectV2) :
  Forall (λ y, Twitter.type y ≠ "photo" ∧ Twitter.type y ≠ "video") media →
  selectImageUrl (Some media) = None.
Proof.
  intros Hall. apply Selected_sound.
  apply Selected_none; (eapply Forall_impl; [exact Hall|]);
    intros y [??]; apply not_true_is_false;
    by intros [?%String.eqb_eq _]%andb_true_iff.
Qed.

Lemma select_none_witness :
  selectImageUrl (Some [Example.gif (Some "g.gif") (Some "g.jpg")]) = None.
Proof. apply select_none. by repeat constructor. Defined.

(** The selected URL is never synthesised and never empty: it is the
    direct URL of a photo, or the preview of a photo or a video, of the
    list. *)
Lemma selectImageUrl_Some_inv (media : option (list Twitter.MediaObjectV2)) (u : string) :
  selectImageUrl media = Some u →
  u ≠ "" ∧
  ∃ l m, media = Some l ∧ m ∈ l ∧
    ((Twitter.type m = "photo" ∧ Twitter.url m = Some u) ∨
     (Twitter.type m = "photo" ∧ Twitter.preview_image_url m = Some u) ∨
     (Twitter.type m = "video" ∧ Twitter.preview_image_url m = Some u)).
Proof.
  destruct media as [l|]; [|done]. rewrite selectImageUrl_find.
  destruct (find isPhotoWithUrl l) as [m|] eqn:E1;
    [|destruct (find isPhotoWithPreview l) as [m|] eqn:E2;
      [|destruct (find isVideoWithPreview l) as [m|] eqn:E3; [|done]]];
    simpl; intros Hu;
    match goal with
    | E : find _ _ = Some _ |- _ => apply find_Some_elem_of in E as [Hin Hp]
    end.
  - apply isPhotoWithUrl_true in Hp as (? & ? & ? & ?). simplify_eq. eauto 10.
  - apply isPhotoWithPreview_true in Hp as (? & ? & ? & ?). simplify_eq. eauto 10.
  - apply isVideoWithPreview_true in Hp as (? & ? & ? & ?). simplify_eq. eauto 10.
Qed.

(** The selection finds an image whenever there is a usable one: if an
    attachment satisfies one of the three rules, some URL is selected. *)
Theorem select_complete (media : list Twitter.MediaObjectV2) (m : Twitter.MediaObjectV2) :
  m ∈ media →
  isPhotoWithUrl m || isPhotoWithPreview m || isVideoWithPreview m = true →
  is_Some (selectImageUrl (Some media)).
Proof.
  intros Hin Hm. rewrite selectImageUrl_find.
  destruct (find isPhotoWithUrl media) as [m1|] eqn:E1.
  { by apply (find_get_Some _ Twitter.url) in E1 as (u & -> & _). }
  destruct (find isPhotoWithPreview media) as [m2|] eqn:E2.
  { by apply (find_get_Some _ Twitter.preview_image_url) in E2 as (u & -> & _). }
  destruct (find isVideoWithPreview media) as [m3|] eqn:E3; simpl.
  { by apply (find_get_Some _ Twitter.preview_image_url) in E3 as (u & -> & _). }
  apply find_None_Forall in E1, E2, E3. rewrite Forall_forall in E1, E2, E3.
  rewrite (E1 m Hin), (E2 m Hin), (E3 m Hin) in Hm. done.
Qed.

Lemma select_complete_witness :
  is_Some (selectImageUrl (Some [Example.gif None None; Example.photo None (Some "t.jpg")])).
Proof.
  apply (select_complete _ (Example.photo None (Some "t.jpg"))); [|done].
  apply list_elem_of_lookup. by exists 1.
Defined.

(** ** [fetchTweetData], branch by branch *)

Lemma fetch_case (r : Thrown + Twitter.TweetV2SingleResult) : FetchCase r.
Proof.
  destruct r as [e|tweet]; [constructor|].
  destruct (Twitter.errors tweet) as [[|e0 es]|] eqn:E;
    [|by eapply Case_errors|];
    (destruct (Twitter.data tweet) eqn:D;
      [eapply Case_ok|eapply Case_no_data]; unfold hasErrors; by rewrite ?E).
Qed.

Lemma checkErrors_ok (tweet : Twitter.TweetV2SingleResult) :
  hasErrors tweet = false → checkErrors tweet = mret ().
Proof. unfold hasErrors, checkErrors. by repeat case_match. Qed.

Section fetch.
Context `{TwitterService} (client : Twitter.TwitterApiReadOnly) (tweetId : string).

#[local] Abbreviation response := (singleTweet_response client tweetId lookupParams).
#[local] Abbreviation lookup := (TwitterLookup client tweetId lookupParams).

(** The vendor rejected the lookup. *)
Lemma fetch_run_rejected (error : Thrown) :
  response = inl error →
  fetchTweetData client tweetId =
  Run [logFetching tweetId; lookup; logCaught tweetId error]
      (Threw (JsError (errorMessage tweetId (LookupRejected error)))).
Proof.
  intros E. unfold fetchTweetData, tryFetch, await_singleTweet. rewrite E. by js_run.
Qed.

(** The result carries errors. *)
Lemma fetch_run_errors (tweet : Twitter.TweetV2SingleResult)
    (error0 : Twitter.InlineErrorV2) (errors : list Twitter.InlineErrorV2) :
  response = inr tweet → Twitter.errors tweet = Some (error0 :: errors) →
  let errorDetail := js_or (Twitter.detail error0) (Twitter.title error0) in
  fetchTweetData client tweetId =
  Run [logFetching tweetId; lookup;
       Console Error [VStr "Error fetching tweet:"; VOpt errorDetail;
                      VErrors (error0 :: errors)];
       logCaught tweetId (JsError ("Failed to fetch tweet: " +:+ template errorDetail))]
      (Threw (JsError (errorMessage tweetId (ApiErrors errorDetail)))).
Proof.
  intros E Herr. unfold fetchTweetData, tryFetch, await_singleTweet.
  rewrite E. unfold checkErrors. js_run. by rewrite Herr.
Qed.

(** The result carries no tweet. *)
Lemma fetch_run_no_data (tweet : Twitter.TweetV2SingleResult) :
  response = inr tweet → hasErrors tweet = false → Twitter.data tweet = None →
  fetchTweetData client tweetId =
  Run [logFetching tweetId; lookup;
       logCaught tweetId (JsError "Tweet data not found in API response.")]
      (Threw (JsError (errorMessage tweetId TweetNotFound))).
Proof.
  intros E Herr Hdata. unfold fetchTweetData, tryFetch, await_singleTweet.
  rewrite E. js_run. by rewrite checkErrors_ok, Hdata.
Qed.

(** The result carries a tweet. *)
Lemma fetch_run_ok (tweet : Twitter.TweetV2SingleResult) (data : Twitter.TweetV2) :
  response = inr tweet → hasErrors tweet = false → Twitter.data tweet = Some data →
  let imageUrl := selectImageUrl (Twitter.includes tweet ≫= Twitter.media) in
  fetchTweetData client tweetId =
  Run ([logFetching tweetId; lookup] ++
       if truthy_opt imageUrl then [] else [warnNoImage tweetId])
      (Returned {| imageUrl := imageUrl; text := Some (Twitter.text data) |}).
Proof.
  intros E Herr Hdata. unfold fetchTweetData, tryFetch, await_singleTweet.
  rewrite E. js_run. rewrite checkErrors_ok, Hdata by done.
  by destruct (truthy_opt (selectImageUrl _)).
Qed.

End fetch.

(** [fetch_cases] splits a goal about [fetchTweetData] into the four
    branches and replaces the call by its run. *)
Ltac fetch_cases :=
  match goal with
  | |- context [fetchTweetData ?c ?id] =>
      let r := fresh "r" in
      let E := fresh "E" in
      remember (singleTweet_response c id lookupParams) as r eqn:E;
      symmetry in E;
      destruct (fetch_case r) as
        [error|tweet error0 errors Herr|tweet Herr Hdata|tweet data Herr Hdata];
      [rewrite (fetch_run_rejected c id error E)
      |rewrite (fetch_run_errors c id tweet error0 errors E Herr)
      |rewrite (fetch_run_no_data c id tweet E Herr Hdata)
      |rewrite (fetch_run_ok c id tweet data E Herr Hdata)]
  end.

Lemma hasErrors_false (tweet : Twitter.TweetV2SingleResult) :
  hasErrors tweet = false ↔ Twitter.errors tweet = None ∨ Twitter.errors tweet = Some [].
Proof. unfold hasErrors. repeat case_match; naive_solver. Qed.

Lemma resolve_errors tweet error0 errors :
  Twitter.errors tweet = Some (error0 :: errors) →
  resolve (inr tweet) =
  inl (ApiErrors (js_or (Twitter.detail error0) (Twitter.title error0))).
Proof. simpl. by intros ->. Qed.

Lemma resolve_no_errors tweet :
  hasErrors tweet = false →
  resolve (inr tweet) =
  match Twitter.data tweet with
  | None => inl TweetNotFound
  | Some data =>
      inr {| imageUrl := selectImageUrl (Twitter.includes tweet ≫= Twitter.media);
             text := Some (Twitter.text data) |}
  end.
Proof.
  unfold hasErrors. simpl. rewrite selectImageUrl_default.
  by repeat case_match.
Qed.

(** The outcome of [fetchTweetData] is what [resolve] makes of the vendor's
    answer. *)
Lemma fetch_outcome `{TwitterService} (client : Twitter.TwitterApiReadOnly)
    (tweetId : string) :
  outcome (fetchTweetData client tweetId) =
  match resolve (singleTweet_response client tweetId lookupParams) with
  | inl err => Threw (JsError (errorMessage tweetId err))
  | inr tweetData => Returned tweetData
  end.
Proof.
  fetch_cases; simpl outcome.
  - done.
  - by rewrite (resolve_errors _ _ _ Herr).
  - by rewrite resolve_no_errors, Hdata.
  - by rewrite resolve_no_errors, Hdata.
Qed.

(** What [resolve] returns carries no image URL or a candidate of the
    tweet's media, which is not empty. *)
Lemma resolve_inr (r : Thrown + Twitter.TweetV2SingleResult) (tweetData : TweetData) :
  resolve r = inr tweetData →
  ∃ tweet, r = inr tweet ∧
    imageUrl tweetData = selectImageUrl (Twitter.includes tweet ≫= Twitter.media).
Proof.
  destruct r as [e|tweet]; [done|]. intros Hr. exists tweet. split; [done|].
  destruct (hasErrors tweet) eqn:Herr.
  - unfold hasErrors in Herr. simpl in Hr. by repeat case_match.
  - rewrite resolve_no_errors in Hr by done. by repeat case_match; simplify_eq.
Qed.

(** The network calls of [fetchTweetData]: the lookup, whatever it answers. *)
Lemma fetch_network `{TwitterService} (client : Twitter.TwitterApiReadOnly)
    (tweetId : string) :
  network (trace (fetchTweetData client tweetId)) =
  [TwitterLookup client tweetId lookupParams].
Proof. fetch_cases; [done..|]. simpl. by destruct (truthy_opt _). Qed.

Lemma errorMessage_prefix (tweetId : string) (err : ResolutionError) :
  String.prefix ("Failed to process tweet " +:+ tweetId +:+ ": ")
                (errorMessage tweetId err) = true.
Proof.
  apply prefix_spec. eexists. unfold errorMessage. by rewrite !app_assoc_s.
Qed.

Section fetch_properties.
Context `{TwitterService} (client : Twitter.TwitterApiReadOnly) (tweetId : string).

#[local] Abbreviation response := (singleTweet_response client tweetId lookupParams).
#[local] Abbreviation lookup := (TwitterLookup client tweetId lookupParams).

(** C2. [fetchTweetData] implements the resolver's contract: it returns
    exactly the data [resolve] makes of the vendor's answer, it throws
    exactly when [resolve] fails, then an [Error] carrying [errorMessage],
    and it never ends the process. *)
Theorem fetchTweetData_resolve :
  (∀ tweetData, outcome (fetchTweetData client tweetId) = Returned tweetData ↔
                resolve response = inr tweetData) ∧
  (∀ thrown, outcome (fetchTweetData client tweetId) = Threw thrown ↔
             ∃ err, resolve response = inl err ∧
                    thrown = JsError (errorMessage tweetId err)) ∧
  (∀ code, outcome (fetchTweetData client tweetId) ≠ Exited code).
Proof.
  rewrite fetch_outcome. destruct (resolve response) as [err|tweetData].
  - split_and!; [done| |done]. intros thrown. split; [intros [= <-]; eauto|].
    by intros (? & [= <-] & ->).
  - split_and!; [|split; [done|by intros (? & ? & ?)]|done].
    intros ?. split; congruence.
Qed.

(** C5. The invariant of the resolved image: an image URL that
    [fetchTweetData] returns is not empty and is one of the candidates of
    the tweet the vendor answered with, that is the direct URL of a photo
    or the preview of a photo or a video of its media; it is never
    synthesised. *)
Theorem resolved_image_is_candidate (tweetData : TweetData) (u : string) :
  outcome (fetchTweetData client tweetId) = Returned tweetData →
  imageUrl tweetData = Some u →
  u ≠ "" ∧
  ∃ tweet l m, response = inr tweet ∧ Twitter.includes tweet ≫= Twitter.media = Some l ∧
    m ∈ l ∧
    ((Twitter.type m = "photo" ∧ Twitter.url m = Some u) ∨
     (Twitter.type m = "photo" ∧ Twitter.preview_image_url m = Some u) ∨
     (Twitter.type m = "video" ∧ Twitter.preview_image_url m = Some u)).
Proof.
  rewrite fetch_outcome. destruct (resolve response) as [|td] eqn:Hr; [done|].
  intros [= ->] Hu. apply resolve_inr in Hr as (tweet & -> & Himg).
  rewrite Himg in Hu. apply selectImageUrl_Some_inv in Hu as (? & l & m & ? & ? & ?).
  split; [done|]. by exists tweet, l, m.
Qed.

(** C35. A result with a non-empty [errors] array makes the resolution fail
    with an [Error] whose message ends with the first entry's detail, when
    it has a non-empty one. *)
Theorem fetch_api_errors (tweet : Twitter.TweetV2SingleResult)
    (error0 : Twitter.InlineErrorV2) (errors : list Twitter.InlineErrorV2) (d : string) :
  response = inr tweet → Twitter.errors tweet = Some (error0 :: errors) →
  Twitter.detail error0 = Some d → d ≠ "" →
  outcome (fetchTweetData client tweetId) =
  Threw (JsError ("Failed to process tweet " +:+ tweetId +:+
                  ": Failed to fetch tweet: " +:+ d)).
Proof.
  intros E Herr Hd Hne. rewrite (fetch_run_errors _ _ _ _ _ E Herr). simpl.
  unfold js_or. rewrite Hd. simpl.
  by apply truthy_true in Hne as ->.
Qed.

(** When the first entry has no detail, or an empty one, the message
    carries its title instead. *)
Theorem fetch_api_errors_title (tweet : Twitter.TweetV2SingleResult)
    (error0 : Twitter.InlineErrorV2) (errors : list Twitter.InlineErrorV2) :
  response = inr tweet → Twitter.errors tweet = Some (error0 :: errors) →
  truthy_opt (Twitter.detail error0) = false →
  outcome (fetchTweetData client tweetId) =
  Threw (JsError ("Failed to process tweet " +:+ tweetId +:+
                  ": Failed to fetch tweet: " +:+ template (Twitter.title error0))).
Proof.
  intros E Herr Hd. rewrite (fetch_run_errors _ _ _ _ _ E Herr). simpl.
  unfold js_or. by rewrite Hd.
Qed.

(** A result with neither errors nor a tweet makes the resolution fail
    with the tweet-not-found message. *)
Theorem fetch_no_data (tweet : Twitter.TweetV2SingleResult) :
  response = inr tweet → hasErrors tweet = false → Twitter.data tweet = None →
  outcome (fetchTweetData client tweetId) =
  Threw (JsError ("Failed to process tweet " +:+ tweetId +:+
                  ": Tweet data not found in API response.")).
Proof. intros E Herr Hdata. by rewrite (fetch_run_no_data _ _ _ E Herr Hdata). Qed.

(** A rejected lookup makes the resolution fail with the message of
    the rejection, or with [Unknown error] when what was thrown is no
    [Error]; the thrown value is logged. *)
Theorem fetch_rejected (error : Thrown) :
  response = inl error →
  outcome (fetchTweetData client tweetId) =
    Threw (JsError ("Failed to process tweet " +:+ tweetId +:+ ": " +:+
                    match error with JsError m => m | JsOther _ => "Unknown error" end)) ∧
  Console Error
    [VStr ("Error fetching or processing tweet " +:+ tweetId +:+ " from API:");
     VStr (match error with JsError m => m | JsOther _ => "Unknown error" end);
     VThrown error] ∈ trace (fetchTweetData client tweetId).
Proof.
  intros E. rewrite (fetch_run_rejected _ _ _ E). split; [by destruct error|].
  simpl. do 2 right. left.
Qed.

(** A result with a tweet and no errors resolves: the text is the
    tweet's, the image URL is the selected one, and an absent image URL is
    no failure. *)
Theorem fetch_success (tweet : Twitter.TweetV2SingleResult) (data : Twitter.TweetV2) :
  response = inr tweet → hasErrors tweet = false → Twitter.data tweet = Some data →
  outcome (fetchTweetData client tweetId) =
  Returned {| imageUrl := selectImageUrl (Twitter.includes tweet ≫= Twitter.media);
              text := Some (Twitter.text data) |}.
Proof. intros E Herr Hdata. by rewrite (fetch_run_ok _ _ _ _ E Herr Hdata). Qed.

(** Whatever the vendor answers, [fetchTweetData] performs exactly one
    network call, the lookup of the given tweet with the media expansion,
    after the diagnostic line. *)
Theorem fetch_one_lookup :
  network (trace (fetchTweetData client tweetId)) = [lookup] ∧
  ∃ rest, trace (fetchTweetData client tweetId) = logFetching tweetId :: lookup :: rest.
Proof.
  fetch_cases; (split; [|by eexists]); [done..|].
  simpl. by destruct (truthy_opt _).
Qed.

(** Whatever the vendor answers, [fetchTweetData] never ends the
    process; what it throws is an [Error] whose message starts with the
    tweet it failed on; and an image URL it returns is not empty. *)
Theorem fetch_outcome_shape :
  match outcome (fetchTweetData client tweetId) with
  | Returned tweetData =>
      imageUrl tweetData = None ∨ ∃ u, imageUrl tweetData = Some u ∧ u ≠ ""
  | Threw (JsError message) =>
      String.prefix ("Failed to process tweet " +:+ tweetId +:+ ": ") message = true
  | Threw (JsOther _) => False
  | Exited _ => False
  end.
Proof.
  fetch_cases; simpl outcome; [apply errorMessage_prefix..|].
  simpl. destruct (selectImageUrl _) as [u|] eqn:Hu; [right|by left].
  apply selectImageUrl_Some_inv in Hu as [? _]. by exists u.
Qed.

(** The warning is logged exactly when the resolution succeeds without
    an image URL. *)
Theorem fetch_warns_iff :
  warnNoImage tweetId ∈ trace (fetchTweetData client tweetId) ↔
  ∃ tweetData, outcome (fetchTweetData client tweetId) = Returned tweetData ∧
               imageUrl tweetData = None.
Proof.
  fetch_cases; simpl trace; simpl outcome;
    [split; [intros Hin|intros (? & ? & ?)]; [|done];
     repeat (apply elem_of_cons in Hin as [?|Hin]; [done|]); by apply elem_of_nil in Hin..|].
  destruct (selectImageUrl _) as [u|] eqn:Hu; simpl.
  - apply selectImageUrl_Some_inv in Hu as [Hne%truthy_true _]. rewrite Hne. simpl.
    split; [intros Hin|intros (? & ? & ?); by simplify_eq/=].
    repeat (apply elem_of_cons in Hin as [?|Hin]; [done|]). by apply elem_of_nil in Hin.
  - split; [by eexists|]. intros _. do 2 right. left.
Qed.

End fetch_properties.

(** ** Witnesses: the theorems at concrete lookups *)

Lemma fetch_api_errors_witness :
  outcome (fetchTweetData (H:=Mock.twitter (inr (Example.failed (Some "Could not find tweet"))))
             Example.client "42") =
  Threw (JsError "Failed to process tweet 42: Failed to fetch tweet: Could not find tweet").
Proof.
  by eapply (fetch_api_errors
              (H:=Mock.twitter (inr (Example.failed (Some "Could not find tweet"))))
              Example.client "42" (Example.failed (Some "Could not find tweet"))
              (Example.notFound (Some "Could not find tweet")) [] "Could not find tweet").
Defined.

Lemma fetch_api_errors_title_witness :
  outcome (fetchTweetData (H:=Mock.twitter (inr (Example.failed (Some ""))))
             Example.client "42") =
  Threw (JsError "Failed to process tweet 42: Failed to fetch tweet: Not Found Error").
Proof.
  by eapply (fetch_api_errors_title (H:=Mock.twitter (inr (Example.failed (Some ""))))
              Example.client "42" (Example.failed (Some "")) (Example.notFound (Some "")) []).
Defined.

Lemma fetch_no_data_witness :
  outcome (fetchTweetData
             (H:=Mock.twitter (inr {| Twitter.data := None; Twitter.includes := None;
                                      Twitter.errors := Some [] |}))
             Example.client "42") =
  Threw (JsError "Failed to process tweet 42: Tweet data not found in API response.").
Proof.
  by eapply (fetch_no_data
              (H:=Mock.twitter (inr {| Twitter.data := None; Twitter.includes := None;
                                       Twitter.errors := Some [] |}))
              Example.client "42"
              {| Twitter.data := None; Twitter.includes := None; Twitter.errors := Some [] |}).
Defined.

Lemma fetch_rejected_witness :
  outcome (fetchTweetData (H:=Mock.twitter (inl (JsOther "429"))) Example.client "42") =
    Threw (JsError "Failed to process tweet 42: Unknown error") ∧
  Console Error [VStr "Error fetching or processing tweet 42 from API:";
                 VStr "Unknown error"; VThrown (JsOther "429")]
    ∈ trace (fetchTweetData (H:=Mock.twitter (inl (JsOther "429"))) Example.client "42").
Proof.
  by eapply (fetch_rejected (H:=Mock.twitter (inl (JsOther "429"))) Example.client "42"
              (JsOther "429")).
Defined.

Lemma resolved_image_is_candidate_witness :
  "poster.jpg" ≠ "" ∧
  ∃ tweet l m,
    Mock.twitter (inr (Example.tweet [Example.video None (Some "poster.jpg")]))
      Example.client "42" lookupParams = inr tweet ∧
    Twitter.includes tweet ≫= Twitter.media = Some l ∧ m ∈ l ∧
    ((Twitter.type m = "photo" ∧ Twitter.url m = Some "poster.jpg") ∨
     (Twitter.type m = "photo" ∧ Twitter.preview_image_url m = Some "poster.jpg") ∨
     (Twitter.type m = "video" ∧ Twitter.preview_image_url m = Some "poster.jpg")).
Proof.
  by apply (resolved_image_is_candidate
              (H:=Mock.twitter (inr (Example.tweet [Example.video None (Some "poster.jpg")])))
              Example.client "42" {| imageUrl := Some "poster.jpg"; text := Some "gm" |}).
Defined.

Lemma fetch_success_witness :
  outcome (fetchTweetData
             (H:=Mock.twitter (inr (Example.tweet [Example.video None (Some "poster.jpg")])))
             Example.client "42") =
  Returned {| imageUrl := Some "poster.jpg"; text := Some "gm" |}.
Proof.
  by eapply (fetch_success
              (H:=Mock.twitter (inr (Example.tweet [Example.video None (Some "poster.jpg")])))
              Example.client "42" (Example.tweet [Example.video None (Some "poster.jpg")])
              {| Twitter.text := "gm" |}).
Defined.
