(* ===== verification/Verifier.v ===== *)
(** * Verifier: [askOpenAIAboutImage]

    The visual verifier of [src/src/index.ts] (lines 96-151): the request
    it builds from the candidate image and the three reference images, the
    schema it binds the answer to, the extraction of the parsed answer
    ([choices[0]?.message?.parsed]) and the [catch] that wraps a failure of
    the call. *)

From S2P Require Import Prelude JsString Api JsRuntime.

(** ** The model *)

(** The three reference photographs of the hat. *)
Definition referenceImageUrls : list string :=
  ["https://raw.githubusercontent.com/KuphJr/proof-of-hat/main/tunnl-hat-front.jpg";
   "https://raw.githubusercontent.com/KuphJr/proof-of-hat/main/tunnl-hat-side-1.jpg";
   "https://raw.githubusercontent.com/KuphJr/proof-of-hat/main/tunnl-hat-side-2.jpg"].

(** The schema of the answer: a boolean [result] and a string
    [reasoning]. *)
Definition verificationResponseSchema : OpenAI.ZodType :=
  OpenAI.ZodObject
    [("result", OpenAI.ZodBoolean "Whether the image contains a Tunnl hat.");
     ("reasoning",
      OpenAI.ZodString "A short explanation of the reasoning for the result.")].

(** [zodResponseFormat(schema, name)]. *)
Definition zodResponseFormat (schema : OpenAI.ZodType) (name : string)
    : OpenAI.ResponseFormat :=
  {| OpenAI.name := name; OpenAI.schema := schema |}.

Definition systemPrompt : string :=
  "You are a vision model that analyzes images to determine if they contain a black baseball hat with a "
  +:+ dq +:+ "tunnl" +:+ dq +:+ " logo on it anywhere within the image.".

Definition userPrompt : string :=
  "The first 3 images are reference photos of the black baseball cap with the white "
  +:+ dq +:+ "tunnl" +:+ dq +:+ " logo. The last image is the image you are analyzing."
  +:+ nl +:+
  "Please analyze the final image and return your answer in this exact JSON format:"
  +:+ nl +:+ "{" +:+ nl +:+
  "  " +:+ dq +:+ "result" +:+ dq +:+
  ": true if the image contains a black baseball hat with a "
  +:+ dq +:+ "tunnl" +:+ dq +:+
  " logo on it. false if you cannot see the hat with the logo anywhere in the image."
  +:+ nl +:+
  "  " +:+ dq +:+ "reasoning" +:+ dq +:+ ": " +:+ dq +:+
  "Short explanation of why or why not you think the image contains a black baseball hat with a "
  +:+ dq +:+ "tunnl" +:+ dq +:+ " logo on it." +:+ dq
  +:+ nl +:+ "}" +:+ nl +:+ nl +:+
  "Only output the JSON object.".

(** [{ type: "image_url", image_url: { url } }] *)
Definition imageUrlMessage (imageUrl : string) : OpenAI.ContentPart :=
  OpenAI.ImageUrlPart {| OpenAI.url := imageUrl |}.

(** [referenceImageUrls.map(imageUrl => ...)] *)
Definition referenceImageMessages : list OpenAI.ContentPart :=
  map imageUrlMessage referenceImageUrls.

Definition imageToAnalyzeMessage (imageUrl : string) : OpenAI.ContentPart :=
  imageUrlMessage imageUrl.

(** The argument of [parse]: the model, the temperature, the system
    message, the user message (the prompt, the reference images, the
    candidate image last) and the response format. *)
Definition parseBody (imageUrl : string) : OpenAI.ParseParams :=
  {| OpenAI.model := "gpt-4o";
     OpenAI.temperature := 0;
     OpenAI.messages :=
       [ {| OpenAI.role := "system";
            OpenAI.content := OpenAI.ContentString systemPrompt |};
         {| OpenAI.role := "user";
            OpenAI.content :=
              OpenAI.ContentParts
                (OpenAI.TextPart userPrompt ::
                 referenceImageMessages ++ [imageToAnalyzeMessage imageUrl]) |} ];
     OpenAI.response_format := zodResponseFormat verificationResponseSchema "response" |}.

(** [result.choices[0]?.message?.parsed]: [None] is [undefined] (no first
    choice, or a choice without message), [Some None] is [null]. *)
Definition firstParsed (result : OpenAI.ParsedChatCompletion)
    : option (option OpenAI.VerificationResponse) :=
  OpenAI.parsed <$> (head (OpenAI.choices result) ≫= OpenAI.message).

(** The [catch] block: log the message (or the thrown value), and throw an
    error that says what failed. *)
Definition catchAsk {A} (error : Thrown) : M A :=
  console_error [VStr "Error asking OpenAI:";
                 match error with JsError message => VStr message | _ => VThrown error end];;
  throw (new_Error ("Failed to get response from OpenAI about the image. " +:+
                    message_or "" error)).

Section verifier.
Context `{OpenAIService} (openai : OpenAI.Client).

Definition askOpenAIAboutImage (imageUrl : string)
    : M (option (option OpenAI.VerificationResponse)) :=
  try_catch
    (result ← await_parse openai (parseBody imageUrl);
     mret (firstParsed result))
    catchAsk.

End verifier.

(** ** Specifications *)

(** The URLs of the images of a content, in order. *)
Definition imageUrls (parts : list OpenAI.ContentPart) : list string :=
  omap (λ part, match part with
                | OpenAI.ImageUrlPart image => Some (OpenAI.url image)
                | OpenAI.TextPart _ => None
                end) parts.

(** The parts of the user messages of a request. *)
Definition userParts (body : OpenAI.ParseParams) : list OpenAI.ContentPart :=
  mjoin (omap (λ message,
    match OpenAI.content message with
    | OpenAI.ContentParts parts =>
        if String.eqb (OpenAI.role message) "user" then Some parts else None
    | OpenAI.ContentString _ => None
    end) (OpenAI.messages body)).

(** ** Data for examples *)

Module Example.

Definition verdict : OpenAI.VerificationResponse :=
  {| OpenAI.result := true; OpenAI.reasoning := "hat visible on subject's head" |}.

Definition completion (parsed : option OpenAI.VerificationResponse)
    : OpenAI.ParsedChatCompletion :=
  {| OpenAI.choices := [ {| OpenAI.message := Some {| OpenAI.parsed := parsed |} |} ] |}.

Definition client : OpenAI.Client := {| OpenAI.apiKey := Some "sk-test" |}.

End Example.

(** ** [askOpenAIAboutImage], branch by branch *)

Section ask.
Context `{OpenAIService} (openai : OpenAI.Client) (imageUrl : string).

#[local] Abbreviation call := (OpenAIParse openai (parseBody imageUrl)).

(** The vendor answered. *)
Lemma ask_run_resolved (result : OpenAI.ParsedChatCompletion) :
  parse_response openai (parseBody imageUrl) = inr result →
  askOpenAIAboutImage openai imageUrl = Run [call] (Returned (firstParsed result)).
Proof. intros E. unfold askOpenAIAboutImage, await_parse. rewrite E. by js_run. Qed.

(** The vendor rejected the request. *)
Lemma ask_run_rejected (error : Thrown) :
  parse_response openai (parseBody imageUrl) = inl error →
  askOpenAIAboutImage openai imageUrl =
  Run [call;
       Console Error [VStr "Error asking OpenAI:";
                      match error with JsError m => VStr m | _ => VThrown error end]]
      (Threw (JsError ("Failed to get response from OpenAI about the image. " +:+
                       message_or "" error))).
Proof. intros E. unfold askOpenAIAboutImage, await_parse, catchAsk. rewrite E. by js_run. Qed.

End ask.

(** [ask_cases] splits a goal about [askOpenAIAboutImage] into its two
    branches and replaces the call by its run. *)
Ltac ask_cases :=
  match goal with
  | |- context [askOpenAIAboutImage ?c ?u] =>
      let E := fresh "E" in
      destruct (parse_response c (parseBody u)) as [error|result] eqn:E;
      [rewrite (ask_run_rejected c u error E)|rewrite (ask_run_resolved c u result E)]
  end.

(** The outcome of [askOpenAIAboutImage] is the first parsed answer of the
    vendor, or the wrapped failure. *)
Lemma ask_outcome `{OpenAIService} (openai : OpenAI.Client) (imageUrl : string) :
  outcome (askOpenAIAboutImage openai imageUrl) =
  match parse_response openai (parseBody imageUrl) with
  | inl error =>
      Threw (JsError ("Failed to get response from OpenAI about the image. " +:+
                      message_or "" error))
  | inr result => Returned (firstParsed result)
  end.
Proof. by ask_cases. Qed.

(** The network calls of [askOpenAIAboutImage]: the parse request. *)
Lemma ask_network `{OpenAIService} (openai : OpenAI.Client) (imageUrl : string) :
  network (trace (askOpenAIAboutImage openai imageUrl)) =
  [OpenAIParse openai (parseBody imageUrl)].
Proof. by ask_cases. Qed.

Lemma firstParsed_Some (result : OpenAI.ParsedChatCompletion)
    (r : option OpenAI.VerificationResponse) :
  firstParsed result = Some r ↔
  ∃ choice rest message,
    OpenAI.choices result = choice :: rest ∧ OpenAI.message choice = Some message ∧
    OpenAI.parsed message = r.
Proof.
  unfold firstParsed. destruct result as [[|[[m|]] rest]]; simpl; naive_solver.
Qed.

Lemma firstParsed_None (result : OpenAI.ParsedChatCompletion) :
  firstParsed result = None ↔
  OpenAI.choices result = [] ∨
  ∃ choice rest, OpenAI.choices result = choice :: rest ∧ OpenAI.message choice = None.
Proof.
  unfold firstParsed. destruct result as [[|[[m|]] rest]]; simpl; naive_solver.
Qed.

(** ** The request *)

(** The request carries, in this order, the system prompt, then a user
    message whose images are the three reference images followed by the
    candidate image, which is the last visual input; sampling is
    deterministic (temperature 0) and the answer is bound to the schema. *)
Theorem parseBody_structure (imageUrl : string) :
  head (OpenAI.messages (parseBody imageUrl)) =
    Some {| OpenAI.role := "system"; OpenAI.content := OpenAI.ContentString systemPrompt |} ∧
  head (userParts (parseBody imageUrl)) = Some (OpenAI.TextPart userPrompt) ∧
  imageUrls (userParts (parseBody imageUrl)) = referenceImageUrls ++ [imageUrl] ∧
  last (userParts (parseBody imageUrl)) = Some (imageToAnalyzeMessage imageUrl) ∧
  OpenAI.temperature (parseBody imageUrl) = 0%Z ∧
  OpenAI.schema (OpenAI.response_format (parseBody imageUrl)) = verificationResponseSchema.
Proof. by split_and!. Qed.

(** The request determines the candidate image: two requests are equal
    only for the same image URL. *)
Lemma parseBody_inj (u1 u2 : string) : parseBody u1 = parseBody u2 → u1 = u2.
Proof.
  intros Heq. apply (f_equal (λ body, last (imageUrls (userParts body)))) in Heq.
  by simplify_eq/=.
Qed.

Section ask_properties.
Context `{OpenAIService} (openai : OpenAI.Client) (imageUrl : string).

(** C36. Given a completion whose first choice carries a parsed object, the
    verifier returns that object, unmodified. *)
Theorem ask_returns_parsed (result : OpenAI.ParsedChatCompletion)
    (choice : OpenAI.ParsedChoice) (rest : list OpenAI.ParsedChoice)
    (message : OpenAI.ParsedMessage) :
  parse_response openai (parseBody imageUrl) = inr result →
  OpenAI.choices result = choice :: rest → OpenAI.message choice = Some message →
  outcome (askOpenAIAboutImage openai imageUrl) = Returned (Some (OpenAI.parsed message)).
Proof.
  intros E Hc Hm. rewrite (ask_run_resolved _ _ _ E). simpl. f_equal.
  apply firstParsed_Some. by exists choice, rest, message.
Qed.

(** C8. The verifier never fabricates a verdict: an object it returns is
    the parsed object of the first choice of the vendor's answer. *)
Theorem ask_never_fabricates (r : OpenAI.VerificationResponse) :
  outcome (askOpenAIAboutImage openai imageUrl) = Returned (Some (Some r)) →
  ∃ result choice rest message,
    parse_response openai (parseBody imageUrl) = inr result ∧
    OpenAI.choices result = choice :: rest ∧ OpenAI.message choice = Some message ∧
    OpenAI.parsed message = Some r.
Proof.
  ask_cases; simpl; [done|]. intros [= (c & rest & m & ?)%firstParsed_Some].
  by exists result, c, rest, m.
Qed.

(** C40. A completion without choices, or whose first choice has no
    message, is no failure: the verifier returns [undefined]. *)
Theorem ask_undefined (result : OpenAI.ParsedChatCompletion) :
  parse_response openai (parseBody imageUrl) = inr result →
  head (OpenAI.choices result) ≫= OpenAI.message = None →
  askOpenAIAboutImage openai imageUrl =
  Run [OpenAIParse openai (parseBody imageUrl)] (Returned None).
Proof.
  intros E Hnone. rewrite (ask_run_resolved _ _ _ E). unfold firstParsed.
  by rewrite Hnone.
Qed.

(** C37. A failure of the call is logged and thrown again as an [Error]
    that says what failed, followed by the message of the failure (nothing
    when what was thrown is no [Error]). *)
Theorem ask_rejected (error : Thrown) :
  parse_response openai (parseBody imageUrl) = inl error →
  outcome (askOpenAIAboutImage openai imageUrl) =
  Threw (JsError ("Failed to get response from OpenAI about the image. " +:+
                  match error with JsError m => m | JsOther _ => "" end)).
Proof. intros E. rewrite (ask_run_rejected _ _ _ E). by destruct error. Qed.

(** Whatever the vendor answers, the verifier performs exactly one
    network call, the parse request for the given image, never ends the
    process, and throws nothing but an [Error]. *)
Theorem ask_one_call :
  network (trace (askOpenAIAboutImage openai imageUrl)) =
    [OpenAIParse openai (parseBody imageUrl)] ∧
  match outcome (askOpenAIAboutImage openai imageUrl) with
  | Returned _ | Threw (JsError _) => True
  | Threw (JsOther _) | Exited _ => False
  end.
Proof. by ask_cases. Qed.

End ask_properties.

(** ** Witnesses *)

Lemma ask_returns_parsed_witness :
  outcome (askOpenAIAboutImage (H:=Mock.openai (inr (Example.completion (Some Example.verdict))))
             Example.client "https://pbs.twimg.com/media/a.jpg") =
  Returned (Some (Some {| OpenAI.result := true;
                          OpenAI.reasoning := "hat visible on subject's head" |})).
Proof.
  by eapply (ask_returns_parsed
               (H:=Mock.openai (inr (Example.completion (Some Example.verdict))))
               Example.client "https://pbs.twimg.com/media/a.jpg"
               (Example.completion (Some Example.verdict)) _ []
               {| OpenAI.parsed := Some Example.verdict |}).
Defined.

Lemma ask_never_fabricates_witness :
  ∃ result choice rest message,
    Mock.openai (inr (Example.completion (Some Example.verdict)))
      Example.client (parseBody "a.jpg") = inr result ∧
    OpenAI.choices result = choice :: rest ∧ OpenAI.message choice = Some message ∧
    OpenAI.parsed message = Some Example.verdict.
Proof.
  by apply (ask_never_fabricates
              (H:=Mock.openai (inr (Example.completion (Some Example.verdict))))
              Example.client "a.jpg" Example.verdict).
Defined.

Lemma ask_undefined_witness :
  askOpenAIAboutImage (H:=Mock.openai (inr {| OpenAI.choices := [] |})) Example.client "a.jpg" =
  Run [OpenAIParse Example.client (parseBody "a.jpg")] (Returned None).
Proof.
  by apply (ask_undefined (H:=Mock.openai (inr {| OpenAI.choices := [] |}))
              Example.client "a.jpg" {| OpenAI.choices := [] |}).
Defined.

Lemma ask_rejected_witness :
  outcome (askOpenAIAboutImage (H:=Mock.openai (inl (JsError "429 rate limited")))
             Example.client "a.jpg") =
  Threw (JsError "Failed to get response from OpenAI about the image. 429 rate limited").
Proof.
  by apply (ask_rejected (H:=Mock.openai (inl (JsError "429 rate limited")))
              Example.client "a.jpg" (JsError "429 rate limited")).
Defined.
