(* ===== verification/Main.v ===== *)
(** * Main: the top level of the script

    The configuration guards of [src/src/index.ts] (lines 16-24), the
    construction of the two clients (lines 26-36), [main] (lines 154-175),
    the outer [catch] (lines 177-181) and the exit code of the process.
    [program] is the whole script as a function of [process.env]. *)

From stdpp Require Import gmap.
From S2P Require Import Prelude JsString Api JsRuntime Resolver Verifier.

(** ** The model *)

Definition TWEET_ID : string := "1921299860000518230".

(** [if (!process.env.OPENAI_API_KEY) { console.error(...); process.exit(1); }] *)
Definition requireOpenAIKey (env : gmap string string) : M string :=
  require_truthy (env !! "OPENAI_API_KEY")
    (console_error [VStr "Error: OPENAI_API_KEY is not set in the .env file."];;
     process_exit 1).

(** [if (!process.env.TWITTER_BEARER_TOKEN) { console.error(...); process.exit(1); }] *)
Definition requireTwitterToken (env : gmap string string) : M string :=
  require_truthy (env !! "TWITTER_BEARER_TOKEN")
    (console_error
       [VStr "Error: TWITTER_BEARER_TOKEN is not set in the .env file. This is required to fetch tweet data."];;
     process_exit 1).

(** [new OpenAI({ apiKey })] *)
Definition new_OpenAI (apiKey : string) : OpenAI.Client :=
  {| OpenAI.apiKey := Some apiKey |}.

(** [new TwitterApi(token).readOnly] *)
Definition new_TwitterApi_readOnly (token : string) : Twitter.TwitterApiReadOnly :=
  {| Twitter.bearerToken := token |}.

(** The error [main] throws when the tweet has no usable image. *)
Definition noImageError : Thrown :=
  new_Error ("No image URL found for Tweet ID: " +:+ TWEET_ID +:+ ".").

(** The [catch] block of [main]. *)
Definition catchMain (error : Thrown) : M unit :=
  let errorMessage := message_or "An unknown error occurred" error in
  console_error [VStr "Error in main execution:"; VStr errorMessage; VThrown error];;
  process_exit 1.

(** The handler of [main().catch(...)]. *)
Definition catchUnhandled (error : Thrown) : M unit :=
  let errorMessage := message_or "An unknown unhandled error" error in
  console_error [VStr "Unhandled error in main execution:"; VStr errorMessage;
                 VThrown error];;
  process_exit 1.

Section main.
Context `{TwitterService, OpenAIService}.
Context (openai : OpenAI.Client) (readOnlyTwitterClient : Twitter.TwitterApiReadOnly).

Definition main : M unit :=
  console_log [VStr ("Processing Tweet ID: " +:+ TWEET_ID)];;
  try_catch
    (tweetData ← fetchTweetData readOnlyTwitterClient TWEET_ID;
     console_log [VStr ("Image URL: " +:+ template (imageUrl tweetData))];;
     imageUrl ← require_truthy (imageUrl tweetData) (throw noImageError);
     openAIResponse ← askOpenAIAboutImage openai imageUrl;
     console_log [VParsed openAIResponse])
    catchMain.

(** [main().catch(...)] *)
Definition run : M unit := try_catch main catchUnhandled.

End main.

(** The script, from its first statement: the guards, the clients, the
    run. *)
Definition program `{TwitterService, OpenAIService} (env : gmap string string) : M unit :=
  apiKey ← requireOpenAIKey env;
  token ← requireTwitterToken env;
  let openai := new_OpenAI apiKey in
  let readOnlyTwitterClient := new_TwitterApi_readOnly token in
  run openai readOnlyTwitterClient.

(** ** Specifications *)

(** The events of [main], by name. *)
Definition logProcessing : Event :=
  Console Log [VStr ("Processing Tweet ID: " +:+ TWEET_ID)].

Definition logImageUrl (imageUrl : option string) : Event :=
  Console Log [VStr ("Image URL: " +:+ template imageUrl)].

Definition logMainError (error : Thrown) : Event :=
  Console Error [VStr "Error in main execution:";
                 VStr (message_or "An unknown error occurred" error); VThrown error].

(** Both secrets are present and non-empty. *)
Definition configured (env : gmap string string) : bool :=
  truthy_opt (env !! "OPENAI_API_KEY") && truthy_opt (env !! "TWITTER_BEARER_TOKEN").

(** The clients the script builds from a configured environment. *)
Definition openaiOf (env : gmap string string) : OpenAI.Client :=
  new_OpenAI (template (env !! "OPENAI_API_KEY")).

Definition twitterOf (env : gmap string string) : Twitter.TwitterApiReadOnly :=
  new_TwitterApi_readOnly (template (env !! "TWITTER_BEARER_TOKEN")).

(** What [main] does after a resolution that returned [tweetData]: the
    events it adds and how it ends. *)
Definition afterFetch `{OpenAIService} (openai : OpenAI.Client) (tweetData : TweetData)
    : M unit :=
  if truthy_opt (imageUrl tweetData) then
    let ask := askOpenAIAboutImage openai (template (imageUrl tweetData)) in
    match outcome ask with
    | Returned r =>
        Run (logImageUrl (imageUrl tweetData) :: trace ask ++ [Console Log [VParsed r]])
            (Returned ())
    | Threw error =>
        Run (logImageUrl (imageUrl tweetData) :: trace ask ++ [logMainError error])
            (Exited 1)
    | Exited code => Run (logImageUrl (imageUrl tweetData) :: trace ask) (Exited code)
    end
  else
    Run [logImageUrl (imageUrl tweetData); logMainError noImageError] (Exited 1).

(** The pipeline of the design: configuration, resolution, verification.
    [Some r] is the answer the script prints; [None] is a failed run. *)
Definition verdictOf `{TwitterService, OpenAIService} (env : gmap string string)
    : option (option (option OpenAI.VerificationResponse)) :=
  if configured env then
    match resolve (singleTweet_response (twitterOf env) TWEET_ID lookupParams) with
    | inr tweetData =>
        match imageUrl tweetData with
        | Some imageUrl =>
            match parse_response (openaiOf env) (parseBody imageUrl) with
            | inr result => Some (firstParsed result)
            | inl _ => None
            end
        | None => None
        end
    | inl _ => None
    end
  else None.

(** The verdicts a trace prints: the objects logged alone by
    [console.log]. *)
Definition printed (t : list Event) : list OpenAI.VerificationResponse :=
  omap (λ e, match e with
             | Console Log [VResponse response] => Some response
             | _ => None
             end) t.

(** Two environments that hold the same secrets. *)
Definition sameSecrets (env1 env2 : gmap string string) : Prop :=
  env1 !! "OPENAI_API_KEY" = env2 !! "OPENAI_API_KEY" ∧
  env1 !! "TWITTER_BEARER_TOKEN" = env2 !! "TWITTER_BEARER_TOKEN".

(** ** Data for examples *)

Module Example.

Definition env : gmap string string :=
  <["OPENAI_API_KEY" := "sk-test"]> (<["TWITTER_BEARER_TOKEN" := "token"]> ∅).

Definition noToken : gmap string string := <["OPENAI_API_KEY" := "sk-test"]> ∅.

Definition noKey : gmap string string := <["TWITTER_BEARER_TOKEN" := "token"]> ∅.

Definition emptyKey : gmap string string :=
  <["OPENAI_API_KEY" := ""]> (<["TWITTER_BEARER_TOKEN" := "token"]> ∅).

(** A tweet with one video that has a poster, and a tweet without media. *)
Definition videoTweet : Twitter.TweetV2SingleResult :=
  Resolver.Example.tweet [Resolver.Example.video None (Some "poster.jpg")].

Definition textTweet : Twitter.TweetV2SingleResult := Resolver.Example.tweet [].

(** A model that sees the hat. *)
Definition hat : OpenAI.ParsedChatCompletion :=
  Verifier.Example.completion (Some Verifier.Example.verdict).

End Example.

(** ** The runs of [main] and of [program] *)

Section main_runs.
Context `{TwitterService, OpenAIService}.
Context (openai : OpenAI.Client) (client : Twitter.TwitterApiReadOnly).

#[local] Abbreviation fetch := (fetchTweetData client TWEET_ID).

(** [main] in terms of the runs of the resolver and of the verifier. *)
Lemma main_run :
  main openai client =
  match outcome fetch with
  | Returned tweetData =>
      Run (logProcessing :: trace fetch ++ trace (afterFetch openai tweetData))
          (outcome (afterFetch openai tweetData))
  | Threw error => Run (logProcessing :: trace fetch ++ [logMainError error]) (Exited 1)
  | Exited code => Run (logProcessing :: trace fetch) (Exited code)
  end.
Proof.
  unfold main, afterFetch, catchMain.
  destruct fetch as [t [tweetData|error|code]]; [|by js_run..].
  rewrite bind_Returned. cbn [outcome trace].
  destruct (truthy_opt (imageUrl tweetData)) eqn:Himg.
  - rewrite require_truthy_true, bind_ret_l by done.
    destruct (askOpenAIAboutImage _ _) as [t' [r|error|code]]; js_run;
      by rewrite <-?app_assoc.
  - rewrite require_truthy_false by done. js_run. by rewrite <-?app_assoc.
Qed.

(** [main] catches everything: it returns or ends the process. *)
Lemma main_outcome :
  outcome (main openai client) = Returned () ∨ ∃ code, outcome (main openai client) = Exited code.
Proof.
  rewrite main_run. unfold afterFetch.
  repeat case_match; simpl; eauto.
Qed.

(** So the handler of [main().catch] never runs. *)
Lemma run_main : run openai client = main openai client.
Proof.
  apply try_catch_id. intros e He.
  destruct main_outcome as [Hr|[code Hc]]; congruence.
Qed.

End main_runs.

(** [program] on every environment. *)
Lemma program_run `{TwitterService, OpenAIService} (env : gmap string string) :
  program env =
  if truthy_opt (env !! "OPENAI_API_KEY") then
    if truthy_opt (env !! "TWITTER_BEARER_TOKEN") then main (openaiOf env) (twitterOf env)
    else Run [Console Error
                [VStr "Error: TWITTER_BEARER_TOKEN is not set in the .env file. This is required to fetch tweet data."]]
             (Exited 1)
  else Run [Console Error [VStr "Error: OPENAI_API_KEY is not set in the .env file."]]
           (Exited 1).
Proof.
  unfold program, requireOpenAIKey, requireTwitterToken.
  destruct (truthy_opt (env !! "OPENAI_API_KEY")) eqn:Hkey.
  - rewrite (require_truthy_true (env !! "OPENAI_API_KEY")), bind_ret_l by done.
    destruct (truthy_opt (env !! "TWITTER_BEARER_TOKEN")) eqn:Htoken.
    + rewrite require_truthy_true, bind_ret_l by done. apply run_main.
    + rewrite require_truthy_false by done. by js_run.
  - rewrite (require_truthy_false (env !! "OPENAI_API_KEY")) by done. by js_run.
Qed.

(** ** Network calls *)

Section network.
Context `{TwitterService, OpenAIService}.
Context (openai : OpenAI.Client) (client : Twitter.TwitterApiReadOnly).

Lemma afterFetch_network (tweetData : TweetData) :
  network (trace (afterFetch openai tweetData)) =
  if truthy_opt (imageUrl tweetData)
  then [OpenAIParse openai (parseBody (template (imageUrl tweetData)))]
  else [].
Proof.
  unfold afterFetch. destruct (truthy_opt (imageUrl tweetData)); [|done].
  pose proof (ask_network openai (template (imageUrl tweetData))) as Hask.
  destruct (outcome _); simpl; rewrite !network_cons; simpl;
    by rewrite ?network_app, Hask.
Qed.

(** The image URL of a resolution that succeeded is absent or truthy. *)
Lemma resolve_truthy (r : Thrown + Twitter.TweetV2SingleResult) (tweetData : TweetData) :
  resolve r = inr tweetData →
  truthy_opt (imageUrl tweetData) = bool_decide (is_Some (imageUrl tweetData)).
Proof.
  intros (tweet & _ & ->)%resolve_inr.
  destruct (selectImageUrl _) as [u|] eqn:Hu; [|done].
  apply selectImageUrl_Some_inv in Hu as [Hne%truthy_true _]. simpl. by rewrite Hne.
Qed.

(** The network calls of [main]: the lookup, then the parse request for the
    resolved image when there is one. *)
Lemma main_network :
  network (trace (main openai client)) =
  TwitterLookup client TWEET_ID lookupParams ::
  match resolve (singleTweet_response client TWEET_ID lookupParams) with
  | inr tweetData =>
      match imageUrl tweetData with
      | Some imageUrl => [OpenAIParse openai (parseBody imageUrl)]
      | None => []
      end
  | inl _ => []
  end.
Proof.
  rewrite main_run, fetch_outcome.
  destruct (resolve _) as [err|tweetData] eqn:Hr; cbn [trace outcome];
    unfold logProcessing; rewrite network_cons; cbn [is_network];
    rewrite network_app, fetch_network; [done|].
  rewrite afterFetch_network, (resolve_truthy _ _ Hr).
  by destruct (imageUrl tweetData).
Qed.

End network.

Lemma configured_true (env : gmap string string) :
  configured env = true ↔
  truthy_opt (env !! "OPENAI_API_KEY") = true ∧
  truthy_opt (env !! "TWITTER_BEARER_TOKEN") = true.
Proof. apply andb_true_iff. Qed.

(** [program] on a configured environment is [main] with the clients built
    from it. *)
Lemma program_configured `{TwitterService, OpenAIService} (env : gmap string string) :
  configured env = true → program env = main (openaiOf env) (twitterOf env).
Proof. intros [Hk Ht]%configured_true. by rewrite program_run, Hk, Ht. Qed.

Lemma printed_app (t1 t2 : list Event) : printed (t1 ++ t2) = printed t1 ++ printed t2.
Proof. apply omap_app. Qed.

Lemma printed_cons (e : Event) (t : list Event) : printed (e :: t) = printed [e] ++ printed t.
Proof. apply (printed_app [e]). Qed.

(** Neither the resolver nor the verifier prints a verdict. *)
Lemma fetch_printed `{TwitterService} (client : Twitter.TwitterApiReadOnly)
    (tweetId : string) :
  printed (trace (fetchTweetData client tweetId)) = [].
Proof. fetch_cases; [done..|]. simpl. by destruct (truthy_opt _). Qed.

Lemma ask_printed `{OpenAIService} (openai : OpenAI.Client) (imageUrl : string) :
  printed (trace (askOpenAIAboutImage openai imageUrl)) = [].
Proof. ask_cases; [|done]. by destruct error. Qed.

(** [program] on an environment that lacks a secret: no network call, exit
    code 1. *)
Lemma program_not_configured `{TwitterService, OpenAIService} (env : gmap string string) :
  configured env = false →
  network (trace (program env)) = [] ∧ outcome (program env) = Exited 1.
Proof.
  unfold configured. rewrite program_run.
  destruct (truthy_opt (env !! "OPENAI_API_KEY")); [|done].
  by destruct (truthy_opt (env !! "TWITTER_BEARER_TOKEN")).
Qed.

(** ** The environment as far as the script reads it *)

#[export] Instance sameSecrets_equivalence : Equivalence sameSecrets.
Proof.
  unfold sameSecrets. split; [done|by intros ?? [-> ->]|by intros ??? [-> ->] [-> ->]].
Qed.

#[export] Instance configured_proper : Proper (sameSecrets ==> (=)) configured.
Proof. intros env1 env2 [Hk Ht]. unfold configured. by rewrite Hk, Ht. Qed.

#[export] Instance openaiOf_proper : Proper (sameSecrets ==> (=)) openaiOf.
Proof. intros env1 env2 [Hk Ht]. unfold openaiOf. by rewrite Hk. Qed.

#[export] Instance twitterOf_proper : Proper (sameSecrets ==> (=)) twitterOf.
Proof. intros env1 env2 [Hk Ht]. unfold twitterOf. by rewrite Ht. Qed.

(** The script reads the two secrets and nothing else of its environment:
    environments that hold the same secrets give the same run. *)
#[export] Instance program_proper `{TwitterService, OpenAIService} :
  Proper (sameSecrets ==> (=)) program.
Proof.
  intros env1 env2 Henv. rewrite !program_run.
  destruct Henv as [Hk Ht]. rewrite Hk, Ht. repeat case_match; try done.
  by rewrite (openaiOf_proper env1 env2), (twitterOf_proper env1 env2).
Qed.

#[export] Instance verdictOf_proper `{TwitterService, OpenAIService} :
  Proper (sameSecrets ==> (=)) verdictOf.
Proof.
  intros env1 env2 Henv. unfold verdictOf.
  by rewrite (configured_proper _ _ Henv), (openaiOf_proper _ _ Henv),
    (twitterOf_proper _ _ Henv).
Qed.

(** ** Properties of the script *)

Section program_properties.
Context `{TwitterService, OpenAIService} (env : gmap string string).

#[local] Abbreviation response :=
  (singleTweet_response (twitterOf env) TWEET_ID lookupParams).
#[local] Abbreviation lookup := (TwitterLookup (twitterOf env) TWEET_ID lookupParams).

(** How a run ends and what it prints, by the pipeline of the design: it
    ends normally exactly when the pipeline yields an answer, and prints
    that answer when it is an object. *)
Lemma program_verdict_run :
  (outcome (program env), printed (trace (program env))) =
  match verdictOf env with
  | Some answer => (Returned (), if answer is Some (Some response) then [response] else [])
  | None => (Exited 1, [])
  end.
Proof.
  unfold verdictOf. destruct (configured env) eqn:Hc; last first.
  { rewrite program_run. unfold configured in Hc.
    destruct (truthy_opt (env !! "OPENAI_API_KEY")); [|done].
    by destruct (truthy_opt (env !! "TWITTER_BEARER_TOKEN")). }
  rewrite program_configured, main_run, fetch_outcome by done.
  destruct (resolve response) as [err|tweetData] eqn:Hr; cbn [trace outcome];
    rewrite printed_cons, printed_app, fetch_printed; [done|].
  unfold afterFetch. rewrite (resolve_truthy _ _ Hr).
  destruct (imageUrl tweetData) as [u|]; [|done]. simpl.
  rewrite ask_outcome.
  destruct (parse_response _ _) as [error|result]; simpl;
    rewrite printed_app, ask_printed; [done|].
  by destruct (firstParsed result) as [[?|]|].
Qed.

(** C7. A missing or empty secret ends the process with exit code 1
    before any network call: the only event is the error line that names
    the missing secret, the API key first. *)
Theorem program_missing_secret :
  configured env = false →
  trace (program env) =
    [Console Error
       [VStr (if truthy_opt (env !! "OPENAI_API_KEY")
              then "Error: TWITTER_BEARER_TOKEN is not set in the .env file. This is required to fetch tweet data."
              else "Error: OPENAI_API_KEY is not set in the .env file.")]] ∧
  network (trace (program env)) = [] ∧
  exit_code (outcome (program env)) = 1%Z.
Proof.
  unfold configured. rewrite program_run.
  destruct (truthy_opt (env !! "OPENAI_API_KEY")); [|done].
  by destruct (truthy_opt (env !! "TWITTER_BEARER_TOKEN")).
Qed.

(** C3. The script implements the pipeline of the design: its exit code
    is 0 exactly when the configuration is present, the resolution
    succeeds with an image and the verification call returns, and 1
    otherwise. *)
Theorem program_exit_code :
  exit_code (outcome (program env)) =
  match verdictOf env with Some _ => 0%Z | None => 1%Z end.
Proof.
  pose proof program_verdict_run as Hrun.
  destruct (verdictOf env); by injection Hrun as -> _.
Qed.

(** C10. The script makes at most one call to each vendor, the lookup
    first, with the clients built from the environment. *)
Theorem program_network_order :
  network (trace (program env)) = [] ∨
  network (trace (program env)) = [lookup] ∨
  ∃ imageUrl,
    network (trace (program env)) = [lookup; OpenAIParse (openaiOf env) (parseBody imageUrl)].
Proof.
  destruct (configured env) eqn:Hc; [|left; by apply program_not_configured].
  rewrite program_configured, main_network by done. right.
  destruct (resolve response) as [err|tweetData]; [by left|].
  destruct (imageUrl tweetData) as [u|]; [right; by exists u|by left].
Qed.

(** C4. The model is asked only about an image of the tweet: every parse
    request of a run carries the request built for a URL that is a
    non-empty candidate of the media the lookup answered with, and is sent
    with the client built from the environment. *)
Theorem program_asks_about_tweet_image (c : OpenAI.Client) (body : OpenAI.ParseParams) :
  OpenAIParse c body ∈ trace (program env) →
  c = openaiOf env ∧
  ∃ tweet l m u,
    response = inr tweet ∧ Twitter.includes tweet ≫= Twitter.media = Some l ∧ m ∈ l ∧
    (Twitter.url m = Some u ∨ Twitter.preview_image_url m = Some u) ∧
    u ≠ "" ∧ body = parseBody u.
Proof.
  intros Hin. assert (OpenAIParse c body ∈ network (trace (program env))) as Hnet
    by by apply elem_of_network.
  destruct (configured env) eqn:Hc;
    [|by rewrite (proj1 (program_not_configured env Hc)) in Hnet;
      apply elem_of_nil in Hnet].
  rewrite program_configured, main_network in Hnet by done.
  destruct (resolve response) as [err|tweetData] eqn:Hr;
    [by apply list_elem_of_singleton in Hnet|].
  apply resolve_inr in Hr as (tweet & Hresp & Himg).
  destruct (imageUrl tweetData) as [u|]; [|by apply list_elem_of_singleton in Hnet].
  apply elem_of_cons in Hnet as [?|[= -> ->]%list_elem_of_singleton]; [done|].
  symmetry in Himg. apply selectImageUrl_Some_inv in Himg as (? & l & m & ? & ? & Hm).
  split; [done|]. exists tweet, l, m, u. split_and!; try done. naive_solver.
Qed.

(** C17. The run of the script when every step succeeds: the two
    diagnostic lines, the lookup, the image URL, the parse request for that
    URL, and the answer of the model, printed as it was parsed; then the
    script ends normally. *)
Theorem program_happy_path (tweet : Twitter.TweetV2SingleResult) (data : Twitter.TweetV2)
    (u : string) (result : OpenAI.ParsedChatCompletion) :
  configured env = true →
  response = inr tweet → hasErrors tweet = false → Twitter.data tweet = Some data →
  selectImageUrl (Twitter.includes tweet ≫= Twitter.media) = Some u →
  parse_response (openaiOf env) (parseBody u) = inr result →
  program env =
  Run [logProcessing; logFetching TWEET_ID; lookup; logImageUrl (Some u);
       OpenAIParse (openaiOf env) (parseBody u);
       Console Log [VParsed (firstParsed result)]]
      (Returned ()).
Proof.
  intros Hc Hresp Herr Hdata Hsel Hparse.
  rewrite program_configured, main_run by done.
  rewrite (fetch_run_ok _ _ _ _ Hresp Herr Hdata), Hsel. cbn [outcome trace].
  apply selectImageUrl_Some_inv in Hsel as [Hne%truthy_true _].
  unfold afterFetch. simpl. rewrite Hne, (ask_run_resolved _ _ _ Hparse). done.
Qed.

(** The run of the script on a tweet without a usable image: the
    warning, the line [Image URL: undefined], the error line, exit code 1,
    and no call to the model. *)
Theorem program_no_image (tweet : Twitter.TweetV2SingleResult) (data : Twitter.TweetV2) :
  configured env = true →
  response = inr tweet → hasErrors tweet = false → Twitter.data tweet = Some data →
  selectImageUrl (Twitter.includes tweet ≫= Twitter.media) = None →
  program env =
  Run [logProcessing; logFetching TWEET_ID; lookup; warnNoImage TWEET_ID;
       logImageUrl None; logMainError noImageError]
      (Exited 1).
Proof.
  intros Hc Hresp Herr Hdata Hsel.
  rewrite program_configured, main_run by done.
  by rewrite (fetch_run_ok _ _ _ _ Hresp Herr Hdata), Hsel.
Qed.

(** C9. The script prints a verdict exactly when the pipeline yields one,
    once, and it is the object the vendor parsed: no run prints a verdict
    of its own. *)
Theorem program_prints_verdict :
  printed (trace (program env)) =
  match verdictOf env with
  | Some (Some (Some response)) => [response]
  | _ => []
  end.
Proof.
  pose proof program_verdict_run as Hrun.
  destruct (verdictOf env) as [[[response|]|]|]; by injection Hrun as _ ->.
Qed.

End program_properties.

(** [main] catches every failure: whatever the vendors answer, it
    returns normally or ends the process with exit code 1, and never
    throws, so the handler of [main().catch] never runs. *)
Theorem main_outcome_cases `{TwitterService, OpenAIService}
    (openai : OpenAI.Client) (client : Twitter.TwitterApiReadOnly) :
  (outcome (main openai client) = Returned () ∨ outcome (main openai client) = Exited 1) ∧
  trace (run openai client) = trace (main openai client).
Proof.
  rewrite run_main, main_run, fetch_outcome. split; [|done].
  destruct (resolve _) as [err|tweetData]; [by right|]. simpl.
  unfold afterFetch. destruct (truthy_opt _); [|by right].
  rewrite ask_outcome. destruct (parse_response _ _); simpl; eauto.
Qed.


(** ** Witnesses: the theorems on concrete runs *)

Lemma program_missing_secret_witness :
  trace (program (H:=Mock.twitter (inr Example.videoTweet)) (H0:=Mock.openai (inr Example.hat))
           Example.emptyKey) =
    [Console Error [VStr "Error: OPENAI_API_KEY is not set in the .env file."]] ∧
  network (trace (program (H:=Mock.twitter (inr Example.videoTweet))
                    (H0:=Mock.openai (inr Example.hat)) Example.emptyKey)) = [] ∧
  exit_code (outcome (program (H:=Mock.twitter (inr Example.videoTweet))
                        (H0:=Mock.openai (inr Example.hat)) Example.emptyKey)) = 1%Z.
Proof.
  by apply (program_missing_secret (H:=Mock.twitter (inr Example.videoTweet))
              (H0:=Mock.openai (inr Example.hat)) Example.emptyKey).
Defined.

Lemma program_asks_about_tweet_image_witness :
  new_OpenAI "sk-test" = openaiOf Example.env ∧
  ∃ tweet l m u,
    Mock.twitter (inr Example.videoTweet) (twitterOf Example.env) TWEET_ID lookupParams
      = inr tweet ∧
    Twitter.includes tweet ≫= Twitter.media = Some l ∧ m ∈ l ∧
    (Twitter.url m = Some u ∨ Twitter.preview_image_url m = Some u) ∧
    u ≠ "" ∧ parseBody "poster.jpg" = parseBody u.
Proof.
  apply (program_asks_about_tweet_image (H:=Mock.twitter (inr Example.videoTweet))
           (H0:=Mock.openai (inr Example.hat)) Example.env).
  apply list_elem_of_lookup. by exists 4.
Defined.

Lemma program_happy_path_witness :
  program (H:=Mock.twitter (inr Example.videoTweet)) (H0:=Mock.openai (inr Example.hat))
    Example.env =
  Run [logProcessing; logFetching TWEET_ID;
       TwitterLookup (new_TwitterApi_readOnly "token") TWEET_ID lookupParams;
       logImageUrl (Some "poster.jpg");
       OpenAIParse (new_OpenAI "sk-test") (parseBody "poster.jpg");
       Console Log [VResponse Verifier.Example.verdict]]
      (Returned ()).
Proof.
  by apply (program_happy_path (H:=Mock.twitter (inr Example.videoTweet))
              (H0:=Mock.openai (inr Example.hat)) Example.env
              Example.videoTweet {| Twitter.text := "gm" |} "poster.jpg" Example.hat).
Defined.

Lemma program_no_image_witness :
  program (H:=Mock.twitter (inr Example.textTweet)) (H0:=Mock.openai (inr Example.hat))
    Example.env =
  Run [logProcessing; logFetching TWEET_ID;
       TwitterLookup (new_TwitterApi_readOnly "token") TWEET_ID lookupParams;
       warnNoImage TWEET_ID; logImageUrl None; logMainError noImageError]
      (Exited 1).
Proof.
  by apply (program_no_image (H:=Mock.twitter (inr Example.textTweet))
              (H0:=Mock.openai (inr Example.hat)) Example.env
              Example.textTweet {| Twitter.text := "gm" |}).
Defined.

