(* ===== verification/Legacy.v ===== *)
(** * Legacy: the free-text variant of the script

    [src/unnamed/part_000] is the earlier version of the script.  It
    builds the client of the model before it checks the secrets, so an
    absent key is an exception of the constructor, not the line of the
    guard.  Its resolver is the function of [src/src/index.ts], line for line; its
    verifier sends the question alone to [openai.responses.create] and reads
    [response.choices[0]?.message?.content]; its [main] looks for keywords in
    the lower-cased answer and prints a line for each case; its [catch]
    block prints the failure and lets the process end normally.  Module
    [FreeText] models it with the names of its source. *)

From stdpp Require Import gmap.
From S2P Require Import Prelude JsString Api JsRuntime Resolver Verifier Main.

Module FreeText.

(** ** The model *)

(** The client of the model, as a record of the key it is built from. *)
Definition clientOf (apiKey : option string) : OpenAI.Client :=
  {| OpenAI.apiKey := apiKey |}.

(** What the constructor of the SDK throws when it is given no key: the
    option [apiKey] is [undefined], and so is the variable
    [OPENAI_API_KEY] that the constructor falls back to. *)
Definition OpenAIError_missing_key : Thrown :=
  JsError "The OPENAI_API_KEY environment variable is missing or empty; either provide it, or instantiate the OpenAI client with an apiKey option, like new OpenAI({ apiKey: 'My API Key' }).".

(** [new OpenAI({ apiKey: process.env.OPENAI_API_KEY })] (lines 13-15),
    the first statement of this variant: the key is read before it is
    checked.  The constructor rejects an absent key and takes every string,
    the empty one too: this is the behaviour of the SDK, which is not code
    of the repository, and the one assumption on a constructor that the
    model makes. *)
Definition new_OpenAI (apiKey : option string) : M OpenAI.Client :=
  if apiKey is None then throw OpenAIError_missing_key else mret (clientOf apiKey).

(** The schema of the answer, as this variant declares it. *)
Definition verificationResponseSchema : OpenAI.ZodType :=
  OpenAI.ZodObject
    [("result", OpenAI.ZodBoolean "Whether the image contains a Tunnl hat.");
     ("reasoning",
      OpenAI.ZodString "A short explanation of the reasoning for the result.")].

Definition TWEET_ID : string := "1921316529062265045".

(** [fetchTweetData] of this variant (lines 45-98) is the text of the
    function of [index.ts]. *)
Definition fetchTweetData `{TwitterService} (client : Twitter.TwitterApiReadOnly)
    (tweetId : string) : M TweetData :=
  Resolver.fetchTweetData client tweetId.

(** [zodTextFormat(schema, name)]. *)
Definition zodTextFormat (schema : OpenAI.ZodType) (name : string)
    : OpenAI.ResponseFormat :=
  {| OpenAI.name := name; OpenAI.schema := schema |}.

Definition question : string :=
  "Does this picture contain a black baseball hat with a "
  +:+ dq +:+ "tunnl" +:+ dq +:+ " logo on it?" +:+ nl +:+
  "I have provided you with 3 example images of the hat with the Tunnl logo on it named "
  +:+ dq +:+ "tunnl-hat-front.jpg" +:+ dq +:+ ", "
  +:+ dq +:+ "tunnl-hat-side-1.jpg" +:+ dq +:+ ", and "
  +:+ dq +:+ "tunnl-hat-side-2.jpg" +:+ dq +:+ "." +:+ nl +:+
  "The image you are analyzing is named " +:+ dq +:+ "posted-image.jpg" +:+ dq +:+ "."
  +:+ nl +:+
  "If you cannot see the hat with the logo anywhere in the image, respond with "
  +:+ dq +:+ "no" +:+ dq +:+ "." +:+ nl +:+
  "If you can see the hat with the logo anywhere in the image, respond with "
  +:+ dq +:+ "yes" +:+ dq +:+ "." +:+ nl.

(** The argument of [responses.create]: one user message that holds the
    question, and the text format. *)
Definition createBody (question : string) : Responses.CreateParams :=
  {| Responses.model := "gpt-4o";
     Responses.temperature := 0;
     Responses.input :=
       [ {| Responses.role := "user";
            Responses.content := [Responses.InputText question] |} ];
     Responses.text :=
       {| Responses.format := zodTextFormat verificationResponseSchema "response" |} |}.

(** What the engine throws for [response.choices[0]] when [choices] is
    [undefined]: a [TypeError], which is an [Error]. *)
Definition TypeError_reading_0 : Thrown :=
  JsError "Cannot read properties of undefined (reading '0')".

(** [response.choices[0]?.message?.content]: [None] is [undefined] or
    [null], which the caller does not tell apart. *)
Definition firstContent (response : Responses.Response) : M (option string) :=
  match Responses.choices response with
  | Some choices =>
      mret ((head choices ≫= Responses.message) ≫= Responses.message_content)
  | None => throw TypeError_reading_0
  end.

Section verifier.
Context `{ResponsesService} (openai : OpenAI.Client).

(** The parameter [imageUrl] is not used by the body. *)
Definition askOpenAIAboutImage (imageUrl question : string) : M (option string) :=
  try_catch
    (response ← await_create openai (createBody question);
     firstContent response)
    catchAsk.

End verifier.

Definition positiveKeywords : list string :=
  ["yes"; "it does"; "shows a black baseball hat"].

Definition negativeKeywords : list string :=
  ["no"; "it does not"; "does not show"].

(** [keywords.some(keyword => responseLower.includes(keyword))] *)
Definition someIncluded (keywords : list string) (responseLower : string) : bool :=
  existsb (λ keyword, includes responseLower keyword) keywords.

(** The variable [result] of [main] after the two tests: [None] is
    [undefined]. *)
Definition classify (responseLower : string) : option bool :=
  if someIncluded positiveKeywords responseLower then Some true
  else if someIncluded negativeKeywords responseLower then Some false
  else None.

Definition theQuestion : string :=
  "Does the image contain a black baseball hat with white lettering?".

(** The [else] branch of [if (openAIResponse)]. *)
Definition reportNoResponse : M unit :=
  console_log [VStr "OpenAI did not provide a response."];;
  console_log [VStr ("Result for " +:+ dq +:+ theQuestion +:+ dq +:+
                     ": false (no OpenAI response)")].

(** The block [if (openAIResponse) { ... } else { ... }] of [main]. *)
Definition report (openAIResponse : option string) : M unit :=
  match openAIResponse with
  | Some response =>
      if truthy response then
        console_log [VStr "OpenAI Response:"; VStr response];;
        let responseLower := toLowerCase response in
        match classify responseLower with
        | Some result =>
            console_log [VStr (theQuestion +:+ " " +:+ template_bool result)]
        | None =>
            console_log
              [VStr "Could not definitively determine the answer from OpenAI's response."];;
            console_log [VStr "Full OpenAI response:"; VStr response];;
            console_log
              [VStr ("Assuming 'false' due to ambiguous response for: " +:+ theQuestion)]
        end
      else reportNoResponse
  | None => reportNoResponse
  end.

(** The error [main] throws when the tweet has no usable image. *)
Definition noImageError : Thrown :=
  new_Error ("No image URL found for Tweet ID: " +:+ TWEET_ID +:+ ".").

(** The [catch] block of [main]: two lines, and no [process.exit]. *)
Definition catchMain (error : Thrown) : M unit :=
  let errorMessage := message_or "An unknown error occurred" error in
  console_error [VStr "Error in main execution:"; VStr errorMessage; VThrown error];;
  console_log [VStr ("Result for " +:+ dq +:+ theQuestion +:+ dq +:+
                     ": false (due to error: " +:+ errorMessage +:+ ")")].

Section main.
Context `{TwitterService, ResponsesService}.
Context (openai : OpenAI.Client) (readOnlyTwitterClient : Twitter.TwitterApiReadOnly).

Definition main : M unit :=
  console_log [VStr ("Processing Tweet ID: " +:+ TWEET_ID)];;
  try_catch
    (tweetData ← fetchTweetData readOnlyTwitterClient TWEET_ID;
     imageUrl ← require_truthy (imageUrl tweetData) (throw noImageError);
     openAIResponse ← askOpenAIAboutImage openai imageUrl question;
     report openAIResponse)
    catchMain.

(** [main().catch(...)] *)
Definition run : M unit := try_catch main catchUnhandled.

End main.

(** The script, from its first statement: the client of the model, the
    guards, the client of the lookup, the run. *)
Definition program `{TwitterService, ResponsesService} (env : gmap string string)
    : M unit :=
  openai ← new_OpenAI (env !! "OPENAI_API_KEY");
  requireOpenAIKey env;;
  token ← requireTwitterToken env;
  let readOnlyTwitterClient := new_TwitterApi_readOnly token in
  run openai readOnlyTwitterClient.

(** ** Specifications *)

(** The answer holds a keyword of the first list, of the second list. *)
Definition Positive (s : string) : Prop :=
  Infix "yes" s ∨ Infix "it does" s ∨ Infix "shows a black baseball hat" s.

Definition Negative (s : string) : Prop :=
  Infix "no" s ∨ Infix "it does not" s ∨ Infix "does not show" s.

(** The events of the run, by name. *)
Definition logProcessing : Event :=
  Console Log [VStr ("Processing Tweet ID: " +:+ TWEET_ID)].

Definition logResponse (response : string) : Event :=
  Console Log [VStr "OpenAI Response:"; VStr response].

Definition logVerdict (result : bool) : Event :=
  Console Log [VStr (theQuestion +:+ " " +:+ template_bool result)].

Definition logAskError (error : Thrown) : Event :=
  Console Error [VStr "Error asking OpenAI:";
                 match error with JsError message => VStr message | _ => VThrown error end].

(** The error [askOpenAIAboutImage] throws for a failure [error]. *)
Definition wrapAsk (error : Thrown) : Thrown :=
  JsError ("Failed to get response from OpenAI about the image. " +:+ message_or "" error).

(** What [askOpenAIAboutImage] makes of the vendor's answer: the content of
    the first choice, or the failure it wraps. *)
Definition contentOf (r : Thrown + Responses.Response) : Thrown + option string :=
  match r with
  | inl error => inl error
  | inr response =>
      match Responses.choices response with
      | Some choices =>
          inr ((head choices ≫= Responses.message) ≫= Responses.message_content)
      | None => inl TypeError_reading_0
      end
  end.

(** The lines [report] prints. *)
Definition reportLines (openAIResponse : option string) : list Event :=
  if truthy_opt openAIResponse then
    let response := template openAIResponse in
    logResponse response ::
    match classify (toLowerCase response) with
    | Some result => [logVerdict result]
    | None =>
        [Console Log
           [VStr "Could not definitively determine the answer from OpenAI's response."];
         Console Log [VStr "Full OpenAI response:"; VStr response];
         Console Log
           [VStr ("Assuming 'false' due to ambiguous response for: " +:+ theQuestion)]]
    end
  else
    [Console Log [VStr "OpenAI did not provide a response."];
     Console Log [VStr ("Result for " +:+ dq +:+ theQuestion +:+ dq +:+
                        ": false (no OpenAI response)")]].

(** The lines of the [catch] block of [main]. *)
Definition failureLines (error : Thrown) : list Event :=
  [Console Error [VStr "Error in main execution:";
                  VStr (message_or "An unknown error occurred" error); VThrown error];
   Console Log [VStr ("Result for " +:+ dq +:+ theQuestion +:+ dq +:+
                      ": false (due to error: " +:+
                      message_or "An unknown error occurred" error +:+ ")")]].

(** What [main] does after a resolution that returned [tweetData]. *)
Definition afterFetch `{ResponsesService} (openai : OpenAI.Client) (tweetData : TweetData)
    : list Event :=
  if truthy_opt (imageUrl tweetData) then
    OpenAICreate openai (createBody question) ::
    match contentOf (create_response openai (createBody question)) with
    | inl error => logAskError error :: failureLines (wrapAsk error)
    | inr content => reportLines content
    end
  else failureLines noImageError.

(** ** Data for examples *)

Module Example.

Definition answer (content : option string) : Responses.Response :=
  {| Responses.choices :=
       Some [ {| Responses.message := Some {| Responses.message_content := content |} |} ] |}.

(** An answer without the property [choices]. *)
Definition noChoices : Responses.Response := {| Responses.choices := None |}.

End Example.

(** ** The keywords *)

Lemma someIncluded_spec (keywords : list string) (s : string) :
  someIncluded keywords s = true ↔ ∃ keyword, keyword ∈ keywords ∧ Infix keyword s.
Proof.
  unfold someIncluded. rewrite existsb_exists.
  setoid_rewrite includes_spec. by setoid_rewrite list_elem_of_In.
Qed.

Lemma positive_spec (s : string) : someIncluded positiveKeywords s = true ↔ Positive s.
Proof.
  unfold Positive, someIncluded. simpl.
  rewrite !orb_true_iff, !includes_spec. naive_solver.
Qed.

Lemma negative_spec (s : string) : someIncluded negativeKeywords s = true ↔ Negative s.
Proof.
  unfold Negative, someIncluded. simpl.
  rewrite !orb_true_iff, !includes_spec. naive_solver.
Qed.

(** Every keyword of the second list holds the first of them. *)
Lemma negative_no (s : string) : Negative s ↔ Infix "no" s.
Proof.
  split; [|by left]. intros [?|[?|?]]; [done|..]; eapply Infix_trans; [|done|..|done].
  - by exists "it does ", "t".
  - by exists "does ", "t show".
Qed.

Lemma it_does_not_positive (s : string) : Infix "it does not" s → Positive s.
Proof. intros ?. right; left. eapply Infix_trans; [|done]. by exists "", " not". Qed.

Lemma classify_true (s : string) : classify s = Some true ↔ Positive s.
Proof.
  unfold classify. rewrite <-positive_spec.
  destruct (someIncluded positiveKeywords s); [done|]. by case_match.
Qed.

Lemma classify_false (s : string) : classify s = Some false ↔ ¬ Positive s ∧ Infix "no" s.
Proof.
  unfold classify. rewrite <-negative_no, <-positive_spec, <-negative_spec.
  destruct (someIncluded positiveKeywords s); [naive_solver|].
  destruct (someIncluded negativeKeywords s); naive_solver.
Qed.

Lemma classify_None (s : string) : classify s = None ↔ ¬ Positive s ∧ ¬ Infix "no" s.
Proof.
  unfold classify. rewrite <-negative_no, <-positive_spec, <-negative_spec.
  destruct (someIncluded positiveKeywords s); [naive_solver|].
  destruct (someIncluded negativeKeywords s); naive_solver.
Qed.

(** A string that holds a keyword is not empty, and neither is the string
    it is the lower case of. *)
Lemma Infix_truthy (k s : string) : k ≠ "" → Infix k (toLowerCase s) → truthy s = true.
Proof.
  intros Hk Hin%Infix_length. apply truthy_true. intros ->.
  destruct k; [done|]. simpl in Hin. lia.
Qed.

(** ** The runs of the verifier, of [report] and of [main] *)

Lemma freetext_ask_run `{ResponsesService} (openai : OpenAI.Client)
    (imageUrl question : string) :
  askOpenAIAboutImage openai imageUrl question =
  match contentOf (create_response openai (createBody question)) with
  | inl error =>
      Run [OpenAICreate openai (createBody question); logAskError error]
          (Threw (wrapAsk error))
  | inr content => Run [OpenAICreate openai (createBody question)] (Returned content)
  end.
Proof.
  unfold askOpenAIAboutImage, await_create, contentOf, firstContent, catchAsk.
  destruct (create_response _ _) as [error|[[choices|]]]; by js_run.
Qed.

Lemma report_run (openAIResponse : option string) :
  report openAIResponse = Run (reportLines openAIResponse) (Returned ()).
Proof.
  unfold report, reportLines, reportNoResponse.
  destruct openAIResponse as [response|]; [|done]. simpl.
  destruct (truthy response); [|done]. by destruct (classify _) as [[]|].
Qed.

Section main_runs.
Context `{TwitterService, ResponsesService}.
Context (openai : OpenAI.Client) (client : Twitter.TwitterApiReadOnly).

#[local] Abbreviation response := (singleTweet_response client TWEET_ID lookupParams).

(** [main] for every answer of the vendors: it always returns. *)
Lemma freetext_main_run :
  main openai client =
  Run (logProcessing :: trace (Resolver.fetchTweetData client TWEET_ID) ++
       match resolve response with
       | inl err => failureLines (JsError (errorMessage TWEET_ID err))
       | inr tweetData => afterFetch openai tweetData
       end)
      (Returned ()).
Proof.
  unfold main, fetchTweetData, afterFetch, catchMain.
  pose proof (fetch_outcome client TWEET_ID) as Ho.
  destruct (Resolver.fetchTweetData client TWEET_ID) as [t o]. simpl in Ho. subst o.
  destruct (resolve response) as [err|tweetData]; [by js_run|].
  rewrite bind_Returned. cbn [outcome trace].
  destruct (truthy_opt (imageUrl tweetData)) eqn:Himg.
  - rewrite require_truthy_true, bind_ret_l, freetext_ask_run by done.
    destruct (contentOf _) as [error|content]; [js_run; by rewrite <-?app_assoc|].
    rewrite bind_Returned, report_run. js_run. by rewrite <-?app_assoc.
  - rewrite require_truthy_false by done. js_run. by rewrite app_nil_r.
Qed.

(** So the handler of [main().catch] never runs. *)
Lemma freetext_run_main : run openai client = main openai client.
Proof. apply try_catch_id. by rewrite freetext_main_run. Qed.

End main_runs.

(** [program] on every environment. *)
Lemma freetext_program_run `{TwitterService, ResponsesService} (env : gmap string string) :
  program env =
  match env !! "OPENAI_API_KEY" with
  | None => throw OpenAIError_missing_key
  | Some apiKey =>
      if truthy apiKey then
        if truthy_opt (env !! "TWITTER_BEARER_TOKEN")
        then main (clientOf (env !! "OPENAI_API_KEY")) (twitterOf env)
        else Run [Console Error
                    [VStr "Error: TWITTER_BEARER_TOKEN is not set in the .env file. This is required to fetch tweet data."]]
                 (Exited 1)
      else Run [Console Error [VStr "Error: OPENAI_API_KEY is not set in the .env file."]]
               (Exited 1)
  end.
Proof.
  unfold program, requireOpenAIKey, requireTwitterToken, new_OpenAI.
  destruct (env !! "OPENAI_API_KEY") as [apiKey|] eqn:Hkey; [|done].
  rewrite bind_ret_l. destruct (truthy apiKey) eqn:Ht.
  - rewrite (require_truthy_true (Some apiKey)), bind_ret_l by done.
    destruct (truthy_opt (env !! "TWITTER_BEARER_TOKEN")) eqn:Htoken.
    + rewrite require_truthy_true, bind_ret_l by done. apply freetext_run_main.
    + rewrite require_truthy_false by done. by js_run.
  - rewrite (require_truthy_false (Some apiKey)) by done. by js_run.
Qed.

Lemma freetext_program_configured `{TwitterService, ResponsesService}
    (env : gmap string string) :
  configured env = true →
  program env = main (clientOf (env !! "OPENAI_API_KEY")) (twitterOf env).
Proof.
  intros [Hk Ht]%configured_true. rewrite freetext_program_run, Ht.
  destruct (env !! "OPENAI_API_KEY") as [apiKey|]; [|done]. simpl in Hk. by rewrite Hk.
Qed.

(** ** Network calls *)

Lemma reportLines_network (openAIResponse : option string) :
  network (reportLines openAIResponse) = [].
Proof. unfold reportLines. by repeat case_match. Qed.

Lemma failureLines_network (error : Thrown) : network (failureLines error) = [].
Proof. done. Qed.

Lemma freetext_afterFetch_network `{ResponsesService} (openai : OpenAI.Client)
    (tweetData : TweetData) :
  network (afterFetch openai tweetData) =
  if truthy_opt (imageUrl tweetData) then [OpenAICreate openai (createBody question)]
  else [].
Proof.
  unfold afterFetch. destruct (truthy_opt _); [|done].
  rewrite network_cons. cbn [is_network]. f_equal.
  destruct (contentOf _); [done|apply reportLines_network].
Qed.

(** The network calls of [main]: the lookup, then the question when the
    resolution gave an image. *)
Lemma freetext_main_network `{TwitterService, ResponsesService}
    (openai : OpenAI.Client) (client : Twitter.TwitterApiReadOnly) :
  network (trace (main openai client)) =
  TwitterLookup client TWEET_ID lookupParams ::
  match resolve (singleTweet_response client TWEET_ID lookupParams) with
  | inr tweetData =>
      if truthy_opt (imageUrl tweetData)
      then [OpenAICreate openai (createBody question)] else []
  | inl _ => []
  end.
Proof.
  rewrite freetext_main_run. cbn [trace]. unfold logProcessing.
  rewrite network_cons. cbn [is_network]. rewrite network_app, fetch_network.
  destruct (resolve _); [done|]. by rewrite freetext_afterFetch_network.
Qed.

(** The runs of [program] without a secret: the error of the constructor,
    or the line of a guard and exit code 1. *)
Lemma freetext_not_configured_run `{TwitterService, ResponsesService}
    (env : gmap string string) :
  configured env = false →
  program env = throw OpenAIError_missing_key ∨
  ∃ message, program env = Run [Console Error [VStr message]] (Exited 1).
Proof.
  unfold configured. rewrite freetext_program_run.
  destruct (env !! "OPENAI_API_KEY") as [apiKey|]; [simpl|by left].
  destruct (truthy apiKey); [|by eauto].
  destruct (truthy_opt (env !! "TWITTER_BEARER_TOKEN")); [done|by eauto].
Qed.

(** [program] without a secret: no network call, exit code 1.  The guard
    of the key prints its line for an empty key only: an absent key has
    made the constructor throw before. *)
Lemma freetext_not_configured `{TwitterService, ResponsesService}
    (env : gmap string string) :
  configured env = false →
  network (trace (program env)) = [] ∧ exit_code (outcome (program env)) = 1%Z.
Proof. by intros [->|[message ->]]%freetext_not_configured_run. Qed.

(** ** Properties of the keyword matching *)

(** C22. The verdict of the keyword matching: [true] exactly when the
    lower-cased answer holds a keyword of the first list; [false] exactly
    when it holds none of them and a keyword of the second list;
    undetermined exactly when it holds no keyword at all. *)
Theorem classify_spec (s : string) :
  (classify s = Some true ↔ Positive s) ∧
  (classify s = Some false ↔ ¬ Positive s ∧ Negative s) ∧
  (classify s = None ↔ ¬ Positive s ∧ ¬ Negative s).
Proof.
  rewrite negative_no.
  split_and!; [apply classify_true|apply classify_false|apply classify_None].
Qed.

(** C39. The second list of keywords is worth its first entry: a text
    holds one of [no], [it does not], [does not show] exactly when it holds
    [no]. *)
Theorem negativeKeywords_collapse (s : string) :
  someIncluded negativeKeywords s = someIncluded ["no"] s.
Proof.
  apply eq_true_iff_eq. rewrite negative_spec, negative_no.
  unfold someIncluded. simpl. by rewrite orb_false_r, includes_spec.
Qed.

(** C27. An answer that says [it does not], in any case of letters and
    whatever surrounds it, is reported as a yes: the first list is tested
    first and [it does] is a part of [it does not]. *)
Theorem report_it_does_not (response : string) :
  Infix "it does not" (toLowerCase response) →
  report (Some response) = Run [logResponse response; logVerdict true] (Returned ()).
Proof.
  intros Hin. rewrite report_run. unfold reportLines. simpl.
  rewrite (Infix_truthy "it does not") by done.
  apply it_does_not_positive, classify_true in Hin. by rewrite Hin.
Qed.

(** ** Properties of the script *)

Section program_properties.
Context `{TwitterService, ResponsesService} (env : gmap string string).

#[local] Abbreviation openai := (clientOf (env !! "OPENAI_API_KEY")).
#[local] Abbreviation lookup := (TwitterLookup (twitterOf env) TWEET_ID lookupParams).
#[local] Abbreviation create := (OpenAICreate openai (createBody question)).

(** C25. Once both secrets are present this variant always ends with exit
    code 0, whatever the vendors answer: its [catch] block prints the
    failure and returns.  Without a secret the exit code is 1. *)
Theorem freetext_exit_code :
  exit_code (outcome (program env)) = if configured env then 0%Z else 1%Z.
Proof.
  destruct (configured env) eqn:Hc.
  - by rewrite freetext_program_configured, freetext_main_run.
  - by rewrite (proj2 (freetext_not_configured env Hc)).
Qed.

(** C24. The guard of the key cannot report an absent key.  The client of
    the model is built on the first line of this variant, before the
    guards, and the constructor throws when it is given no key: the run has
    no event, not the line of the guard either, and ends with the uncaught
    error and exit code 1.  The line of the guard is printed for a key that
    is present and empty.  What the source fixes is the order (the client
    on line 13, the guard on line 22); that the constructor throws is the
    SDK's behaviour, written into [new_OpenAI]. *)
Theorem freetext_missing_key :
  (env !! "OPENAI_API_KEY" = None →
   program env = Run [] (Threw OpenAIError_missing_key) ∧
   exit_code (outcome (program env)) = 1%Z) ∧
  (env !! "OPENAI_API_KEY" = Some "" →
   program env =
   Run [Console Error [VStr "Error: OPENAI_API_KEY is not set in the .env file."]]
       (Exited 1)).
Proof. rewrite freetext_program_run. by split; intros ->. Qed.

(** C26. The model is never shown the image of the tweet: every request of
    a run is the request built from the question alone, one user message
    with one text part, whatever the lookup answered. *)
Theorem freetext_request_without_image (c : OpenAI.Client) (body : Responses.CreateParams) :
  OpenAICreate c body ∈ trace (program env) →
  c = openai ∧ body = createBody question ∧
  Responses.input body =
    [ {| Responses.role := "user"; Responses.content := [Responses.InputText question] |} ].
Proof.
  intros Hin. assert (OpenAICreate c body ∈ network (trace (program env))) as Hnet
    by by apply elem_of_network.
  destruct (configured env) eqn:Hc;
    [|by rewrite (proj1 (freetext_not_configured env Hc)) in Hnet;
      apply elem_of_nil in Hnet].
  rewrite freetext_program_configured, freetext_main_network in Hnet by done.
  apply elem_of_cons in Hnet as [?|Hnet]; [done|].
  destruct (resolve _) as [err|tweetData]; [by apply elem_of_nil in Hnet|].
  destruct (truthy_opt _); [|by apply elem_of_nil in Hnet].
  by apply list_elem_of_singleton in Hnet as [= -> ->].
Qed.

(** The run of this variant on a tweet with an image: the two
    diagnostic lines, the lookup, the question, and then the lines of the
    report for the content of the first choice, or the two failure lines
    for what the call or the reading of the answer threw; the script ends
    normally in both cases. *)
Theorem freetext_with_image (tweet : Twitter.TweetV2SingleResult) (data : Twitter.TweetV2)
    (u : string) :
  configured env = true →
  singleTweet_response (twitterOf env) TWEET_ID lookupParams = inr tweet →
  hasErrors tweet = false → Twitter.data tweet = Some data →
  selectImageUrl (Twitter.includes tweet ≫= Twitter.media) = Some u →
  program env =
  Run ([logProcessing; logFetching TWEET_ID; lookup; create] ++
       match contentOf (create_response openai (createBody question)) with
       | inl error => logAskError error :: failureLines (wrapAsk error)
       | inr content => reportLines content
       end)
      (Returned ()).
Proof.
  intros Hc Hresp Herr Hdata Hsel.
  rewrite freetext_program_configured, freetext_main_run by done.
  rewrite (fetch_run_ok _ _ _ _ Hresp Herr Hdata), Hresp, resolve_no_errors, Hdata, Hsel
    by done.
  apply selectImageUrl_Some_inv in Hsel as [Hne%truthy_true _].
  unfold afterFetch. simpl. by rewrite Hne.
Qed.

(** C38. An answer without the property [choices] makes the reading of
    [response.choices[0]] throw: the run reports a failure of the model,
    with the message of the [TypeError], and ends normally. *)
Theorem freetext_no_choices (tweet : Twitter.TweetV2SingleResult) (data : Twitter.TweetV2)
    (u : string) (response : Responses.Response) :
  configured env = true →
  singleTweet_response (twitterOf env) TWEET_ID lookupParams = inr tweet →
  hasErrors tweet = false → Twitter.data tweet = Some data →
  selectImageUrl (Twitter.includes tweet ≫= Twitter.media) = Some u →
  create_response openai (createBody question) = inr response →
  Responses.choices response = None →
  program env =
  Run [logProcessing; logFetching TWEET_ID; lookup; create;
       Console Error [VStr "Error asking OpenAI:";
                      VStr "Cannot read properties of undefined (reading '0')"];
       Console Error
         [VStr "Error in main execution:";
          VStr "Failed to get response from OpenAI about the image. Cannot read properties of undefined (reading '0')";
          VThrown (wrapAsk TypeError_reading_0)];
       Console Log
         [VStr ("Result for " +:+ dq +:+ theQuestion +:+ dq +:+
                ": false (due to error: Failed to get response from OpenAI about the image. Cannot read properties of undefined (reading '0'))")]]
      (Returned ()).
Proof.
  intros Hc Hresp Herr Hdata Hsel Hcreate Hnone.
  rewrite freetext_program_configured, freetext_main_run by done.
  rewrite (fetch_run_ok _ _ _ _ Hresp Herr Hdata), Hresp, resolve_no_errors, Hdata, Hsel
    by done.
  apply selectImageUrl_Some_inv in Hsel as [Hne%truthy_true _].
  unfold afterFetch, contentOf. simpl. by rewrite Hne, Hcreate, Hnone.
Qed.

End program_properties.

(** ** Witnesses: the theorems on concrete runs *)

Lemma report_it_does_not_witness :
  report (Some "No, it does not show the hat.") =
  Run [logResponse "No, it does not show the hat."; logVerdict true] (Returned ()).
Proof. apply report_it_does_not. by exists "no, ", " show the hat.". Defined.

Lemma freetext_missing_key_witness :
  program (H:=Mock.twitter (inr Main.Example.videoTweet))
    (H0:=Mock.responses (inr (Example.answer (Some "yes")))) Main.Example.noKey =
  Run [] (Threw OpenAIError_missing_key).
Proof.
  by apply (freetext_missing_key (H:=Mock.twitter (inr Main.Example.videoTweet))
              (H0:=Mock.responses (inr (Example.answer (Some "yes")))) Main.Example.noKey).
Defined.

Lemma freetext_request_without_image_witness :
  clientOf (Some "sk-test") = clientOf (Main.Example.env !! "OPENAI_API_KEY") ∧
  createBody question = createBody question ∧
  Responses.input (createBody question) =
    [ {| Responses.role := "user"; Responses.content := [Responses.InputText question] |} ].
Proof.
  apply (freetext_request_without_image
           (H:=Mock.twitter (inr Main.Example.videoTweet))
           (H0:=Mock.responses (inr (Example.answer (Some "yes")))) Main.Example.env).
  apply list_elem_of_lookup. by exists 3.
Defined.

Lemma freetext_with_image_witness :
  program (H:=Mock.twitter (inr Main.Example.videoTweet))
    (H0:=Mock.responses (inr (Example.answer (Some "I can't tell.")))) Main.Example.env =
  Run [logProcessing; logFetching TWEET_ID;
       TwitterLookup (new_TwitterApi_readOnly "token") TWEET_ID lookupParams;
       OpenAICreate (clientOf (Some "sk-test")) (createBody question);
       logResponse "I can't tell.";
       Console Log
         [VStr "Could not definitively determine the answer from OpenAI's response."];
       Console Log [VStr "Full OpenAI response:"; VStr "I can't tell."];
       Console Log
         [VStr "Assuming 'false' due to ambiguous response for: Does the image contain a black baseball hat with white lettering?"]]
      (Returned ()).
Proof.
  by apply (freetext_with_image (H:=Mock.twitter (inr Main.Example.videoTweet))
              (H0:=Mock.responses (inr (Example.answer (Some "I can't tell."))))
              Main.Example.env Main.Example.videoTweet {| Twitter.text := "gm" |}
              "poster.jpg").
Defined.

Lemma freetext_no_choices_witness :
  outcome (program (H:=Mock.twitter (inr Main.Example.videoTweet))
             (H0:=Mock.responses (inr Example.noChoices)) Main.Example.env) =
  Returned ().
Proof.
  by rewrite (freetext_no_choices (H:=Mock.twitter (inr Main.Example.videoTweet))
                (H0:=Mock.responses (inr Example.noChoices))
                Main.Example.env Main.Example.videoTweet {| Twitter.text := "gm" |}
                "poster.jpg" Example.noChoices).
Defined.

End FreeText.
