(* ===== verification/Lifecycle.v ===== *)
(** * Lifecycle: the protocol of a run

    The design is sequential: resolve, then verify, then print.  This file
    states it as a labelled transition system on the events of a run,
    [step], with the phases of a run as its states, gives the executable
    acceptor [follow] of its traces, proves the invariants of the protocol
    by induction on its derivations, and shows that every run of the script
    of [src/src/index.ts], and of the free-text variant, follows it. *)

From stdpp Require Import gmap.
From S2P Require Import Prelude JsString Api JsRuntime Resolver Verifier Main Legacy.

(** ** The protocol *)

(** The phases of a run: nothing sent yet, the lookup sent, the question
    sent, the answer printed. *)
Inductive Phase := Idle | Resolving | Verifying | Reported.

#[export] Instance Phase_eq_dec : EqDecision Phase.
Proof. solve_decision. Defined.

(** The print of the answer: [console.log] of one value that is no
    string. *)
Definition isReport (e : Event) : bool :=
  match e with
  | Console Log [VUndefined] | Console Log [VNull] | Console Log [VResponse _] => true
  | _ => false
  end.

(** A line of the console that is no print of the answer. *)
Definition isDiagnostic (e : Event) : bool :=
  match e with
  | Console _ _ => negb (isReport e)
  | _ => false
  end.

(** The steps of the protocol: a diagnostic line in any phase; the lookup
    from [Idle]; the question from [Resolving]; the print of the answer
    from [Verifying]. *)
Inductive step : Phase → Event → Phase → Prop :=
| step_diagnostic (p : Phase) (e : Event) :
    isDiagnostic e = true → step p e p
| step_lookup (client : Twitter.TwitterApiReadOnly) (tweetId : string)
      (params : Twitter.LookupParams) :
    step Idle (TwitterLookup client tweetId params) Resolving
| step_parse (client : OpenAI.Client) (body : OpenAI.ParseParams) :
    step Resolving (OpenAIParse client body) Verifying
| step_create (client : OpenAI.Client) (body : Responses.CreateParams) :
    step Resolving (OpenAICreate client body) Verifying
| step_report (e : Event) :
    isReport e = true → step Verifying e Reported.

(** The traces of the protocol. *)
Inductive steps : Phase → list Event → Phase → Prop :=
| steps_nil (p : Phase) : steps p [] p
| steps_cons (p q r : Phase) (e : Event) (t : list Event) :
    step p e q → steps q t r → steps p (e :: t) r.

(** The step function of the protocol. *)
Definition next (p : Phase) (e : Event) : option Phase :=
  if isDiagnostic e then Some p
  else
    match p, e with
    | Idle, TwitterLookup _ _ _ => Some Resolving
    | Resolving, OpenAIParse _ _ | Resolving, OpenAICreate _ _ => Some Verifying
    | Verifying, Console _ _ => Some Reported
    | _, _ => None
    end.

(** The acceptor: the phase a trace leads to, if it follows the
    protocol. *)
Fixpoint follow (p : Phase) (t : list Event) : option Phase :=
  match t with
  | [] => Some p
  | e :: t => next p e ≫= λ q, follow q t
  end.

(** The number of network calls behind a phase. *)
Definition calls (p : Phase) : nat :=
  match p with
  | Idle => 0
  | Resolving => 1
  | Verifying | Reported => 2
  end.

(** The phase in which the run of the script ends, from the answers of the
    vendors: [Reported] exactly when the pipeline yields an answer. *)
Definition finalPhase `{TwitterService, OpenAIService} (env : gmap string string) : Phase :=
  if configured env then
    match resolve (singleTweet_response (twitterOf env) TWEET_ID lookupParams) with
    | inr tweetData =>
        match imageUrl tweetData with
        | Some imageUrl =>
            match parse_response (openaiOf env) (parseBody imageUrl) with
            | inr _ => Reported
            | inl _ => Verifying
            end
        | None => Resolving
        end
    | inl _ => Resolving
    end
  else Idle.

(** ** The acceptor decides the protocol *)

Lemma step_next (p q : Phase) (e : Event) : step p e q ↔ next p e = Some q.
Proof.
  unfold next. split.
  - intros [p' e' Hd|?|?|?|e' Hr]; [by rewrite Hd|done..|].
    unfold isDiagnostic. destruct e'; [|done..]. by rewrite Hr.
  - destruct (isDiagnostic e) eqn:Hd; [intros [= ->]; by constructor|].
    destruct p, e; try done; intros [= <-]; try by constructor.
    apply step_report. unfold isDiagnostic in Hd. by apply negb_false_iff in Hd.
Qed.

Lemma steps_follow (p r : Phase) (t : list Event) : steps p t r ↔ follow p t = Some r.
Proof.
  split.
  - induction 1 as [|p q r e t Hs _ IH]; [done|].
    apply step_next in Hs. simpl. by rewrite Hs.
  - revert p. induction t as [|e t IH]; intros p; simpl; [intros [= ->]; constructor|].
    destruct (next p e) as [q|] eqn:Hq; [|done]. simpl. intros Ht.
    eapply steps_cons; [by apply step_next|by apply IH].
Qed.

#[export] Instance steps_dec (p r : Phase) (t : list Event) : Decision (steps p t r).
Proof.
  refine (cast_if (decide (follow p t = Some r))); by rewrite steps_follow.
Defined.

(** The protocol is deterministic. *)
Lemma steps_deterministic (p r1 r2 : Phase) (t : list Event) :
  steps p t r1 → steps p t r2 → r1 = r2.
Proof. rewrite !steps_follow. congruence. Qed.

(** ** Composition *)

Lemma follow_app (p : Phase) (t1 t2 : list Event) :
  follow p (t1 ++ t2) = follow p t1 ≫= λ q, follow q t2.
Proof.
  revert p. induction t1 as [|e t1 IH]; intros p; simpl; [done|].
  destruct (next p e); simpl; [apply IH|done].
Qed.

Lemma steps_app (p q r : Phase) (t1 t2 : list Event) :
  steps p t1 q → steps q t2 r → steps p (t1 ++ t2) r.
Proof. rewrite !steps_follow, follow_app. by intros ->. Qed.

(** Diagnostic lines keep the phase. *)
Lemma follow_diagnostics (p : Phase) (t : list Event) :
  forallb isDiagnostic t = true → follow p t = Some p.
Proof.
  induction t as [|e t IH]; simpl; [done|]. intros [He Ht]%andb_true_iff.
  unfold next. rewrite He. simpl. by apply IH.
Qed.

Lemma follow_cons_diagnostic (p : Phase) (e : Event) (t : list Event) :
  isDiagnostic e = true → follow p (e :: t) = follow p t.
Proof. intros He. simpl. unfold next. by rewrite He. Qed.

#[export] Hint Resolve step_diagnostic step_lookup step_parse step_create step_report
  steps_nil : js.

(** ** Invariants of the protocol, by induction on its derivations *)

(** A step adds the network call it is, and no other. *)
Lemma step_calls (p q : Phase) (e : Event) :
  step p e q → calls q = calls p + length (network [e]).
Proof.
  intros [p' e' Hd|?|?|?|e' Hr]; [|done..|]; destruct e'; try done; simpl; lia.
Qed.

Lemma steps_calls (p r : Phase) (t : list Event) :
  steps p t r → calls r = calls p + length (network t).
Proof.
  induction 1 as [|p q r e t Hs _ IH]; [simpl; lia|].
  apply step_calls in Hs. change (e :: t) with ([e] ++ t).
  rewrite network_app, length_app. lia.
Qed.

(** The phases are passed in order. *)
Lemma steps_monotone (p r : Phase) (t : list Event) : steps p t r → calls p ≤ calls r.
Proof. intros Hs%steps_calls. lia. Qed.

(** Nothing is sent after the question. *)
Lemma steps_quiet (p r : Phase) (t : list Event) :
  steps p t r → calls p = 2 → network t = [].
Proof.
  intros Hs Hp. pose proof (steps_calls _ _ _ Hs) as Hc.
  assert (calls r ≤ 2) by by destruct r; simpl; lia.
  apply length_zero_iff_nil. lia.
Qed.

(** ** The runs of the script follow the protocol *)

Lemma isReport_parsed (r : option (option OpenAI.VerificationResponse)) :
  isReport (Console Log [VParsed r]) = true.
Proof. by destruct r as [[?|]|]. Qed.

(** The resolver leads from [Idle] to [Resolving]. *)
Lemma fetch_follow `{TwitterService} (client : Twitter.TwitterApiReadOnly)
    (tweetId : string) :
  follow Idle (trace (fetchTweetData client tweetId)) = Some Resolving.
Proof. fetch_cases; [done..|]. simpl. by destruct (truthy_opt _). Qed.

(** The verifier leads from [Resolving] to [Verifying]. *)
Lemma ask_follow `{OpenAIService} (openai : OpenAI.Client) (imageUrl : string) :
  follow Resolving (trace (askOpenAIAboutImage openai imageUrl)) = Some Verifying.
Proof. ask_cases; [|done]. by destruct error. Qed.

Lemma afterFetch_follow `{OpenAIService} (openai : OpenAI.Client) (tweetData : TweetData) :
  follow Resolving (trace (afterFetch openai tweetData)) =
  Some (if truthy_opt (imageUrl tweetData) then
          match parse_response openai (parseBody (template (imageUrl tweetData))) with
          | inr _ => Reported
          | inl _ => Verifying
          end
        else Resolving).
Proof.
  unfold afterFetch. destruct (truthy_opt _); [|done].
  pose proof (ask_follow openai (template (imageUrl tweetData))) as Hask.
  rewrite ask_outcome. destruct (parse_response _ _) as [error|result];
    cbn [trace]; rewrite follow_cons_diagnostic, follow_app, Hask by done; [done|].
  simpl. unfold next, isDiagnostic. by rewrite isReport_parsed.
Qed.

(** The run of the script leads from [Idle] to its final phase. *)
Lemma program_follow `{TwitterService, OpenAIService} (env : gmap string string) :
  follow Idle (trace (program env)) = Some (finalPhase env).
Proof.
  unfold finalPhase. destruct (configured env) eqn:Hc.
  - rewrite program_configured, main_run, fetch_outcome by done.
    pose proof (fetch_follow (twitterOf env) TWEET_ID) as Hfetch.
    destruct (resolve _) as [err|tweetData] eqn:Hr; cbn [trace];
      rewrite follow_cons_diagnostic, follow_app, Hfetch by done; [done|].
    simpl. rewrite afterFetch_follow, (resolve_truthy _ _ Hr).
    by destruct (imageUrl tweetData).
  - rewrite program_run. unfold configured in Hc.
    destruct (truthy_opt (env !! "OPENAI_API_KEY")); [|done].
    by destruct (truthy_opt (env !! "TWITTER_BEARER_TOKEN")).
Qed.

(** The run of the free-text variant follows the protocol too, as far as
    the question. *)
Lemma freetext_follow `{TwitterService, ResponsesService} (env : gmap string string) :
  ∃ r, follow Idle (trace (FreeText.program env)) = Some r ∧ r ≠ Reported.
Proof.
  destruct (configured env) eqn:Hc.
  - rewrite FreeText.freetext_program_configured, FreeText.freetext_main_run by done.
    pose proof (fetch_follow (twitterOf env) FreeText.TWEET_ID) as Hfetch.
    cbn [trace]. rewrite follow_cons_diagnostic, follow_app, Hfetch by done. simpl.
    destruct (resolve _) as [err|tweetData]; [by exists Resolving|].
    unfold FreeText.afterFetch. destruct (truthy_opt _); [|by exists Resolving].
    exists Verifying. split; [|done]. simpl.
    destruct (FreeText.contentOf _) as [error|content]; [by destruct error|].
    apply follow_diagnostics. unfold FreeText.reportLines. by repeat case_match.
  - exists Idle. split; [|done].
    by destruct (FreeText.freetext_not_configured_run env Hc) as [->|[message ->]].
Qed.

Section protocol_properties.
Context `{TwitterService, OpenAIService} (env : gmap string string).

(** C11. Every run of the script follows the protocol of the design
    (resolve, then verify, then print) and ends in the phase the answers of
    the vendors lead to; its exit code is 0 exactly when that phase is
    [Reported], that is when the answer was printed. *)
Theorem program_protocol :
  steps Idle (trace (program env)) (finalPhase env) ∧
  (exit_code (outcome (program env)) = 0%Z ↔ finalPhase env = Reported).
Proof.
  split; [apply steps_follow, program_follow|].
  unfold finalPhase. destruct (configured env) eqn:Hc;
    [|by rewrite (proj2 (program_not_configured env Hc))].
  rewrite program_configured, main_run, fetch_outcome by done.
  destruct (resolve _) as [err|tweetData] eqn:Hr; [done|]. simpl.
  unfold afterFetch. rewrite (resolve_truthy _ _ Hr).
  destruct (imageUrl tweetData) as [u|]; [|done]. simpl.
  rewrite ask_outcome. by destruct (parse_response _ _).
Qed.

(** The number of network calls of a run is the number of calls
    behind its final phase: none without configuration, the lookup alone
    when the resolution gives no image, two when the model was asked; it
    follows from the invariant of the protocol. *)
Theorem program_calls :
  length (network (trace (program env))) = calls (finalPhase env) ∧
  calls (finalPhase env) ≤ 2.
Proof.
  pose proof (proj2 (steps_follow _ _ _) (program_follow env)) as Hs.
  apply steps_calls in Hs. split; [simpl in Hs; lia|]. by destruct (finalPhase env); simpl; lia.
Qed.

End protocol_properties.
