(* ===== verification/Obs.v ===== *)
(** * Obs: runs up to their diagnostics

    What a run of the script lets its environment observe is the calls it
    makes to the vendors, the answer it prints and how it ends; the
    diagnostic lines are for the reader of the console.  This file makes
    that an equivalence on computations ([≡], coarser than equality), shows
    that sequencing and [try]/[catch] respect it, so that a step can be
    replaced by an equivalent one inside a computation, and proves the
    script of [src/src/index.ts] equivalent to [pipeline]: the design of the
    spec written with the same operations and no diagnostics. *)

From stdpp Require Import gmap.
From S2P Require Import Prelude JsString Api JsRuntime Resolver Verifier Main.
From S2P Require Import Legacy Lifecycle.

(** ** Observations *)

Definition observable (e : Event) : bool := negb (isDiagnostic e).

(** The events of a trace that are no diagnostics, in order. *)
Definition observe (t : list Event) : list Event := filter observable t.

(** Two computations are equivalent when they show the same events and
    end alike. *)
#[export] Instance M_equiv {A} : Equiv (M A) := λ m1 m2,
  observe (trace m1) = observe (trace m2) ∧ outcome m1 = outcome m2.

(** ** The design, without diagnostics *)

(** A call to a vendor: the event, and what the vendor settled with. *)
Definition call {A} (e : Event) (r : Thrown + A) : M A := Run [e] (settle r).

(** The resolver of the design: one lookup, resolved as the contract
    says. *)
Definition resolveQ `{TwitterService} (client : Twitter.TwitterApiReadOnly)
    (tweetId : string) : M TweetData :=
  call (TwitterLookup client tweetId lookupParams)
       (sum_map (λ err, JsError (errorMessage tweetId err)) id
          (resolve (singleTweet_response client tweetId lookupParams))).

(** The verifier of the design: one request, the first parsed answer. *)
Definition verifyQ `{OpenAIService} (openai : OpenAI.Client) (imageUrl : string)
    : M (option (option OpenAI.VerificationResponse)) :=
  call (OpenAIParse openai (parseBody imageUrl))
       (sum_map (λ error, JsError ("Failed to get response from OpenAI about the image. "
                                   +:+ message_or "" error))
          firstParsed (parse_response openai (parseBody imageUrl))).

(** The script of the design: configuration, resolution, verification,
    print; every failure ends the process with code 1. *)
Definition pipeline `{TwitterService, OpenAIService} (env : gmap string string) : M unit :=
  if configured env then
    try_catch
      (tweetData ← resolveQ (twitterOf env) TWEET_ID;
       imageUrl ← require_truthy (imageUrl tweetData) (throw noImageError);
       openAIResponse ← verifyQ (openaiOf env) imageUrl;
       console_log [VParsed openAIResponse])
      (λ _, process_exit 1)
  else process_exit 1.

(** ** The equivalence *)

Lemma observe_app (t1 t2 : list Event) : observe (t1 ++ t2) = observe t1 ++ observe t2.
Proof. apply filter_app. Qed.

Lemma observe_cons (e : Event) (t : list Event) :
  observe (e :: t) = if observable e then e :: observe t else observe t.
Proof. unfold observe. rewrite filter_cons. by destruct (observable e). Qed.

Lemma observe_diagnostics (t : list Event) :
  forallb isDiagnostic t = true → observe t = [].
Proof.
  induction t as [|e t IH]; [done|]. simpl. intros [He Ht]%andb_true_iff.
  rewrite observe_cons. unfold observable. rewrite He. by apply IH.
Qed.

#[export] Instance M_equivalence {A} : Equivalence (≡@{M A}).
Proof.
  split.
  - by intros m.
  - by intros m1 m2 [??].
  - intros m1 m2 m3 [??] [??]. split; congruence.
Qed.

(** Equal computations are equivalent. *)
Lemma equiv_eq {A} (m1 m2 : M A) : m1 = m2 → m1 ≡ m2.
Proof. by intros ->. Qed.

(** Sequencing respects the equivalence. *)
#[export] Instance mbind_proper {A B} :
  Proper (pointwise_relation A (≡) ==> (≡) ==> (≡)) (mbind (M:=M) (A:=A) (B:=B)).
Proof.
  intros f g Hfg m1 m2 [Ht Ho]. split.
  - rewrite !trace_bind, !observe_app, Ht, Ho.
    destruct (outcome m2) as [a| |]; [|done..]. f_equal. apply Hfg.
  - rewrite !outcome_bind, Ho. destruct (outcome m2) as [a| |]; [|done..]. apply Hfg.
Qed.

(** So does [try]/[catch]. *)
#[export] Instance try_catch_proper {A} :
  Proper ((≡) ==> pointwise_relation Thrown (≡) ==> (≡)) (try_catch (A:=A)).
Proof.
  intros m1 m2 [Ht Ho] h1 h2 Hh. split.
  - rewrite !trace_try_catch, !observe_app, Ht, Ho.
    destruct (outcome m2) as [|e|]; [done| |done]. f_equal. apply Hh.
  - rewrite !outcome_try_catch, Ho. destruct (outcome m2) as [|e|]; [done| |done].
    apply Hh.
Qed.

(** The equivalence keeps what the theorems of [Main] speak of. *)
#[export] Instance outcome_proper {A} : Proper ((≡) ==> (=)) (outcome (A:=A)).
Proof. by intros m1 m2 [??]. Qed.

Lemma observe_network (t : list Event) : network (observe t) = network t.
Proof.
  induction t as [|e t IH]; [done|]. rewrite observe_cons, !network_cons.
  destruct e; simpl; rewrite ?network_cons; simpl; try by rewrite IH.
  destruct (observable _); rewrite ?network_cons; simpl; by rewrite IH.
Qed.

Lemma observe_printed (t : list Event) : printed (observe t) = printed t.
Proof.
  induction t as [|e t IH]; [done|]. rewrite observe_cons, (printed_cons e t).
  destruct (observable e) eqn:He; [by rewrite printed_cons, IH|].
  rewrite IH. unfold observable in He. apply negb_false_iff in He.
  destruct e as [level args| | |]; [|done..].
  by destruct level, args as [|[] []].
Qed.

#[export] Instance network_proper {A} :
  Proper ((≡) ==> (=)) (λ m : M A, network (trace m)).
Proof. intros m1 m2 [Ht _]. by rewrite <-(observe_network (trace m1)), Ht, observe_network. Qed.

#[export] Instance printed_proper {A} :
  Proper ((≡) ==> (=)) (λ m : M A, printed (trace m)).
Proof. intros m1 m2 [Ht _]. by rewrite <-(observe_printed (trace m1)), Ht, observe_printed. Qed.

(** ** The steps of the script, up to diagnostics *)

(** A diagnostic line does nothing. *)
Lemma console_quiet (level : Level) (args : list JsVal) :
  isDiagnostic (Console level args) = true → console level args ≡ mret ().
Proof.
  intros Hd. split; [|done]. simpl. rewrite observe_cons. unfold observable.
  by rewrite Hd.
Qed.

Lemma fetch_quiet `{TwitterService} (client : Twitter.TwitterApiReadOnly)
    (tweetId : string) :
  fetchTweetData client tweetId ≡ resolveQ client tweetId.
Proof.
  split; [|rewrite fetch_outcome; unfold resolveQ; simpl; by destruct (resolve _)].
  fetch_cases; [done..|]. simpl. by destruct (truthy_opt _).
Qed.

Lemma ask_quiet `{OpenAIService} (openai : OpenAI.Client) (imageUrl : string) :
  askOpenAIAboutImage openai imageUrl ≡ verifyQ openai imageUrl.
Proof.
  unfold verifyQ. ask_cases; (split; [|done]); [|done]. by destruct error.
Qed.

(** The [catch] block of [main] ends the process. *)
Lemma catchMain_quiet (error : Thrown) : catchMain error ≡ process_exit 1.
Proof. done. Qed.

(** ** The script implements the design *)

Lemma main_pipeline `{TwitterService, OpenAIService}
    (openai : OpenAI.Client) (client : Twitter.TwitterApiReadOnly) :
  main openai client ≡
  try_catch
    (tweetData ← resolveQ client TWEET_ID;
     imageUrl ← require_truthy (imageUrl tweetData) (throw noImageError);
     openAIResponse ← verifyQ openai imageUrl;
     console_log [VParsed openAIResponse])
    (λ _, process_exit 1).
Proof.
  unfold main, console_log. rewrite console_quiet, bind_ret_l by done.
  apply try_catch_proper; [|intros error; apply catchMain_quiet].
  apply mbind_proper; [intros tweetData|apply fetch_quiet].
  rewrite console_quiet, bind_ret_l by done.
  apply mbind_proper; [intros imageUrl|done].
  apply mbind_proper; [done|apply ask_quiet].
Qed.

(** C12. The script implements the design up to its diagnostics: on
    every environment and for every answer of the vendors, the run of the
    script and the run of [pipeline] (configuration, resolution,
    verification, print, exit code 1 on every failure) make the same calls
    in the same order, print the same answer and end with the same
    outcome. *)
Theorem program_pipeline `{TwitterService, OpenAIService} (env : gmap string string) :
  program env ≡ pipeline env.
Proof.
  unfold pipeline. destruct (configured env) eqn:Hc.
  - rewrite program_configured by done. apply main_pipeline.
  - rewrite program_run. unfold configured in Hc.
    destruct (truthy_opt (env !! "OPENAI_API_KEY")); [|done].
    by destruct (truthy_opt (env !! "TWITTER_BEARER_TOKEN")).
Qed.
