(* ===== verification/Report.v ===== *)
(** * Report: what a run tells its user

    The last line of a run is its result: the print of the answer or an
    error line for the script of [src/src/index.ts], one of five result
    lines for the free-text variant of [src/unnamed/part_000].  This file
    states that every call to a vendor is answered to the user ([LeadsTo],
    a response property on the trace), gives the free-text variant the
    explicit verdict the design notes ask for ([Verdict], which keeps apart
    what the variant prints as [false]) and shows that the variant prints
    the line of that verdict, bounds the length of the runs, and gives the
    protocol of [Lifecycle] its variant ([rank]): every observable step
    lowers it, so a run makes at most three of them. *)

From stdpp Require Import gmap.
From S2P Require Import Prelude JsString Api JsRuntime Resolver Verifier Main.
From S2P Require Import Legacy Lifecycle Obs.

(** ** Response on a trace *)

(** The line that ends a run of the script: the print of the answer, or a
    line on stderr. *)
Definition isOutcomeLine (e : Event) : bool := isReport e || is_console Error e.

(** Every event that satisfies [P] is followed, sooner or later, by one
    that satisfies [Q]. *)
Definition LeadsTo (P Q : Event → bool) (t : list Event) : Prop :=
  ∀ t1 e t2, t = t1 ++ e :: t2 → P e = true → Exists (λ e', Q e' = true) t2.

(** The same, computed. *)
Fixpoint leadsTo (P Q : Event → bool) (t : list Event) : bool :=
  match t with
  | [] => true
  | e :: t => (if P e then existsb Q t else true) && leadsTo P Q t
  end.

(** ** The variant of the protocol *)

(** The observable steps a phase has left. *)
Definition rank (p : Phase) : nat :=
  match p with
  | Idle => 3
  | Resolving => 2
  | Verifying => 1
  | Reported => 0
  end.

(** ** The size of a run *)

(** The number of events of [main], from the answers of the vendors. *)
Definition mainLength `{TwitterService, OpenAIService}
    (openai : OpenAI.Client) (client : Twitter.TwitterApiReadOnly) : nat :=
  match resolve (singleTweet_response client TWEET_ID lookupParams) with
  | inl (ApiErrors _) => 6
  | inl _ => 5
  | inr tweetData =>
      match imageUrl tweetData with
      | Some imageUrl =>
          if parse_response openai (parseBody imageUrl) is inr _ then 6 else 7
      | None => 6
      end
  end.

(** The number of events of a run of the script. *)
Definition runLength `{TwitterService, OpenAIService} (env : gmap string string) : nat :=
  if configured env then mainLength (openaiOf env) (twitterOf env) else 1.

(** ** The verdict of the free-text variant *)

(** The result of a run of the free-text variant, with the cases the
    variant prints as [false] kept apart. *)
Inductive Verdict :=
| Yes
| No
| Indeterminate
| NoAnswer
| Failed (error : Thrown).

#[export] Instance Verdict_eq_dec : EqDecision Verdict.
Proof. solve_decision. Defined.

(** The verdict for the content of the answer. *)
Definition verdictOfAnswer (content : option string) : Verdict :=
  if truthy_opt content then
    match FreeText.classify (toLowerCase (template content)) with
    | Some true => Yes
    | Some false => No
    | None => Indeterminate
    end
  else NoAnswer.

(** The verdict of a run, from the answers of the vendors. *)
Definition freetextVerdict `{TwitterService, ResponsesService}
    (env : gmap string string) : Verdict :=
  match resolve (singleTweet_response (twitterOf env) FreeText.TWEET_ID lookupParams) with
  | inl err => Failed (JsError (errorMessage FreeText.TWEET_ID err))
  | inr tweetData =>
      if truthy_opt (imageUrl tweetData) then
        match FreeText.contentOf
                (create_response (FreeText.clientOf (env !! "OPENAI_API_KEY"))
                   (FreeText.createBody FreeText.question)) with
        | inl error => Failed (FreeText.wrapAsk error)
        | inr content => verdictOfAnswer content
        end
      else Failed FreeText.noImageError
  end.

(** The line the variant prints last for a verdict. *)
Definition verdictLine (v : Verdict) : Event :=
  match v with
  | Yes => FreeText.logVerdict true
  | No => FreeText.logVerdict false
  | Indeterminate =>
      Console Log [VStr ("Assuming 'false' due to ambiguous response for: " +:+
                         FreeText.theQuestion)]
  | NoAnswer =>
      Console Log [VStr ("Result for " +:+ dq +:+ FreeText.theQuestion +:+ dq +:+
                         ": false (no OpenAI response)")]
  | Failed error =>
      Console Log [VStr ("Result for " +:+ dq +:+ FreeText.theQuestion +:+ dq +:+
                         ": false (due to error: " +:+
                         message_or "An unknown error occurred" error +:+ ")")]
  end.

(** ** Lemmas on [last] and [LeadsTo] *)

Lemma last_cons_app_Some {A} (x y : A) (l1 l2 : list A) :
  last l2 = Some y → last (x :: l1 ++ l2) = Some y.
Proof. intros Hy. by rewrite app_comm_cons, last_app, Hy. Qed.

Lemma leadsTo_spec (P Q : Event → bool) (t : list Event) :
  leadsTo P Q t = true ↔ LeadsTo P Q t.
Proof.
  unfold LeadsTo. induction t as [|e t IH]; simpl.
  { split; [by intros _ [|??] ?? ?|done]. }
  rewrite andb_true_iff, IH. split.
  - intros [He Ht] [|e' t1] e0 t2 [= <- Heq] HP.
    + subst t. rewrite HP in He. apply existsb_exists in He as (e' & ? & ?).
      apply Exists_exists. exists e'. by rewrite list_elem_of_In.
    + by apply (Ht t1 e0 t2).
  - intros Ht. split.
    + destruct (P e) eqn:HP; [|done].
      specialize (Ht [] e t eq_refl HP). apply Exists_exists in Ht as (e' & ? & ?).
      apply existsb_exists. exists e'. by rewrite <-list_elem_of_In.
    + intros t1 e0 t2 -> HP. by apply (Ht (e :: t1) e0 t2).
Qed.

#[export] Instance LeadsTo_dec (P Q : Event → bool) (t : list Event) :
  Decision (LeadsTo P Q t).
Proof.
  refine (cast_if (decide (leadsTo P Q t = true))); by rewrite <-leadsTo_spec.
Defined.

(** A trace that ends with an event of [Q] that is none of [P] answers
    every event of [P]. *)
Lemma LeadsTo_last (P Q : Event → bool) (t : list Event) (e : Event) :
  last t = Some e → Q e = true → P e = false → LeadsTo P Q t.
Proof.
  intros Hlast HQ HP t1 e0 t2 -> HP0. rewrite last_app_cons in Hlast.
  destruct t2 as [|e1 t2]; [simpl in Hlast; congruence|].
  rewrite last_cons_cons in Hlast. apply Exists_exists. exists e.
  split; [by apply last_Some_elem_of|done].
Qed.

(** ** The last line of the script *)

Lemma afterFetch_last `{OpenAIService} (openai : OpenAI.Client) (tweetData : TweetData) :
  ∃ e, last (trace (afterFetch openai tweetData)) = Some e ∧
       isOutcomeLine e = true ∧
       (isReport e = true ↔ outcome (afterFetch openai tweetData) = Returned ()).
Proof.
  unfold afterFetch. destruct (truthy_opt _); [|by eexists].
  rewrite ask_outcome. destruct (parse_response _ _) as [error|result]; cbn [trace outcome];
    eexists; (split; [by rewrite app_comm_cons, last_snoc|]); [done|].
  unfold isOutcomeLine. by rewrite isReport_parsed.
Qed.

Lemma program_last `{TwitterService, OpenAIService} (env : gmap string string) :
  ∃ e, last (trace (program env)) = Some e ∧
       isOutcomeLine e = true ∧
       (isReport e = true ↔ outcome (program env) = Returned ()).
Proof.
  destruct (configured env) eqn:Hc.
  - rewrite program_configured, main_run, fetch_outcome by done.
    destruct (resolve _) as [err|tweetData]; cbn [trace outcome].
    + eexists. by rewrite app_comm_cons, last_snoc.
    + destruct (afterFetch_last (openaiOf env) tweetData) as (e & Hlast & He).
      exists e. by rewrite (last_cons_app_Some _ e).
  - rewrite program_run. unfold configured in Hc.
    destruct (truthy_opt (env !! "OPENAI_API_KEY")); [|by eexists].
    destruct (truthy_opt (env !! "TWITTER_BEARER_TOKEN")); [done|by eexists].
Qed.

(** ** The last line of the free-text variant *)

Lemma reportLines_last (content : option string) :
  last (FreeText.reportLines content) = Some (verdictLine (verdictOfAnswer content)).
Proof.
  unfold FreeText.reportLines, verdictOfAnswer.
  destruct (truthy_opt content); [|done]. by destruct (FreeText.classify _) as [[]|].
Qed.

Lemma freetext_last `{TwitterService, ResponsesService} (env : gmap string string) :
  configured env = true →
  last (trace (FreeText.program env)) = Some (verdictLine (freetextVerdict env)).
Proof.
  intros Hc. rewrite FreeText.freetext_program_configured, FreeText.freetext_main_run by done.
  cbn [trace]. apply last_cons_app_Some. unfold freetextVerdict.
  destruct (resolve _) as [err|tweetData]; [done|]. unfold FreeText.afterFetch.
  destruct (truthy_opt _); [|done].
  destruct (FreeText.contentOf _) as [error|content]; [done|].
  rewrite last_cons, reportLines_last. done.
Qed.

(** ** The length of a run *)

(** The resolver makes two events when it finds an image, four when the
    answer lists errors, three otherwise. *)
Lemma fetch_length `{TwitterService} (client : Twitter.TwitterApiReadOnly)
    (tweetId : string) :
  length (trace (fetchTweetData client tweetId)) =
  match resolve (singleTweet_response client tweetId lookupParams) with
  | inl (ApiErrors _) => 4
  | inl _ => 3
  | inr tweetData => if truthy_opt (imageUrl tweetData) then 2 else 3
  end.
Proof.
  fetch_cases; cbn [trace].
  - done.
  - by rewrite (resolve_errors _ _ _ Herr).
  - by rewrite resolve_no_errors, Hdata.
  - rewrite resolve_no_errors, Hdata by done. cbn [imageUrl].
    by destruct (truthy_opt _).
Qed.

Lemma ask_length `{OpenAIService} (openai : OpenAI.Client) (imageUrl : string) :
  length (trace (askOpenAIAboutImage openai imageUrl)) =
  if parse_response openai (parseBody imageUrl) is inr _ then 1 else 2.
Proof. by ask_cases. Qed.

Lemma main_length `{TwitterService, OpenAIService}
    (openai : OpenAI.Client) (client : Twitter.TwitterApiReadOnly) :
  length (trace (main openai client)) = mainLength openai client.
Proof.
  unfold mainLength. rewrite main_run, fetch_outcome.
  destruct (resolve _) as [err|tweetData] eqn:Hr; cbn [trace length];
    rewrite length_app, fetch_length, Hr; [by destruct err|].
  unfold afterFetch. rewrite (resolve_truthy _ _ Hr).
  destruct (imageUrl tweetData) as [u|]; [|done].
  rewrite !bool_decide_eq_true_2 by done. change (template (Some u)) with u.
  pose proof (ask_length openai u) as Hask. rewrite ask_outcome.
  destruct (parse_response _ _); cbn [trace length]; by rewrite length_app, Hask.
Qed.

Lemma mainLength_bounds `{TwitterService, OpenAIService}
    (openai : OpenAI.Client) (client : Twitter.TwitterApiReadOnly) :
  5 ≤ mainLength openai client ≤ 7.
Proof. unfold mainLength. repeat case_match; lia. Qed.

(** The size of a run of the script. *)
Lemma program_length `{TwitterService, OpenAIService} (env : gmap string string) :
  length (trace (program env)) = runLength env.
Proof.
  unfold runLength. destruct (configured env) eqn:Hc.
  - by rewrite program_configured, main_length.
  - rewrite program_run. unfold configured in Hc.
    destruct (truthy_opt (env !! "OPENAI_API_KEY")); [|done].
    by destruct (truthy_opt (env !! "TWITTER_BEARER_TOKEN")).
Qed.

Lemma runLength_bounds `{TwitterService, OpenAIService} (env : gmap string string) :
  1 ≤ runLength env ≤ 7.
Proof.
  unfold runLength. pose proof (mainLength_bounds (openaiOf env) (twitterOf env)).
  destruct (configured env); lia.
Qed.

Lemma failureLines_length (error : Thrown) : length (FreeText.failureLines error) = 2.
Proof. done. Qed.

Lemma reportLines_length (content : option string) :
  2 ≤ length (FreeText.reportLines content) ≤ 4.
Proof. unfold FreeText.reportLines. repeat case_match; cbn [length]; lia. Qed.

Lemma freetext_main_length `{TwitterService, ResponsesService}
    (openai : OpenAI.Client) (client : Twitter.TwitterApiReadOnly) :
  6 ≤ length (trace (FreeText.main openai client)) ≤ 8.
Proof.
  rewrite FreeText.freetext_main_run. cbn [trace length]. rewrite length_app, fetch_length.
  destruct (resolve _) as [err|tweetData];
    [rewrite failureLines_length; destruct err; lia|].
  unfold FreeText.afterFetch. destruct (truthy_opt _); [|rewrite failureLines_length; lia].
  destruct (FreeText.contentOf _) as [error|content];
    cbn [length]; [rewrite failureLines_length; lia|].
  pose proof (reportLines_length content). lia.
Qed.

(** ** Progress of the protocol *)

(** An observable step lowers the rank by one, a diagnostic keeps it. *)
Lemma step_rank (p q : Phase) (e : Event) :
  step p e q → (if observable e then 1 else 0) + rank q = rank p.
Proof.
  unfold observable. intros [p' e' Hd|?|?|?|e' Hr]; [by rewrite Hd|done..|].
  destruct e'; [|done..]. unfold isDiagnostic. by rewrite Hr.
Qed.

Lemma steps_rank (p q : Phase) (t : list Event) :
  steps p t q → length (observe t) + rank q = rank p.
Proof.
  induction 1 as [|p q r e t Hs%step_rank _ IH]; [done|]. rewrite observe_cons.
  destruct (observable e); cbn [length]; lia.
Qed.

(** ** What the last line says *)

(** An outcome line is a line of the console, no call. *)
Lemma isOutcomeLine_network (e : Event) : isOutcomeLine e = true → is_network e = false.
Proof. by destruct e. Qed.

(** Only the verdict [Yes] prints the line that says [true]. *)
Lemma verdictLine_true (v : Verdict) : verdictLine v = FreeText.logVerdict true ↔ v = Yes.
Proof. split; [|by intros ->]. by destruct v. Qed.

(** ** Properties *)

(** C21. Every run tells its user how it went: the run of the script is
    never silent, its last line is the print of the answer or an error line
    on stderr, it is the print of the answer exactly when the script ends
    normally, and every call to a vendor is followed, later in the run, by
    such a line. *)
Theorem program_responds `{TwitterService, OpenAIService} (env : gmap string string) :
  LeadsTo is_network isOutcomeLine (trace (program env)) ∧
  ∃ e, last (trace (program env)) = Some e ∧ isOutcomeLine e = true ∧
       (isReport e = true ↔ outcome (program env) = Returned ()).
Proof.
  destruct (program_last env) as (e & Hlast & He & Hreport).
  split; [|by exists e]. eapply LeadsTo_last; [done..|by apply isOutcomeLine_network].
Qed.

(** C23. The free-text variant implements an explicit verdict: on a
    configured environment the last line of the run is the line of the
    verdict ([Yes], [No], [Indeterminate], [NoAnswer] or [Failed]) that the
    answers of the vendors determine, the run ends normally whatever the
    verdict is, and the line says [true] only for the verdict [Yes]: the
    four other verdicts are all told as [false]. *)
Theorem freetext_verdict_line `{TwitterService, ResponsesService}
    (env : gmap string string) :
  configured env = true →
  last (trace (FreeText.program env)) = Some (verdictLine (freetextVerdict env)) ∧
  outcome (FreeText.program env) = Returned () ∧
  (last (trace (FreeText.program env)) = Some (FreeText.logVerdict true) ↔
   freetextVerdict env = Yes).
Proof.
  intros Hc. rewrite (freetext_last env Hc). split; [done|]. split.
  - by rewrite FreeText.freetext_program_configured, FreeText.freetext_main_run.
  - rewrite <-verdictLine_true. split; [by intros [= ->]|by intros ->].
Qed.

(** C31. The size of a run is a function of the answers of the vendors,
    and it is small: the script makes [runLength] events, which is one
    without a secret and between five and seven otherwise, and at most two
    of them are calls to a vendor; so the cost of a run is bounded by one
    lookup and one request to the model, whatever the vendors answer. *)
Theorem program_trace_bounds `{TwitterService, OpenAIService} (env : gmap string string) :
  length (trace (program env)) = runLength env ∧
  1 ≤ runLength env ≤ 7 ∧
  (configured env = true → 5 ≤ runLength env) ∧
  length (network (trace (program env))) ≤ 2.
Proof.
  pose proof (runLength_bounds env) as Hb. split_and!; [apply program_length|lia..| |].
  - unfold runLength in *. intros ->.
    apply (mainLength_bounds (openaiOf env) (twitterOf env)).
  - destruct (configured env) eqn:Hc;
      [|rewrite (proj1 (program_not_configured env Hc)); simpl; lia].
    rewrite program_configured, main_network by done. repeat case_match; simpl; lia.
Qed.

(** The protocol has a variant and the script runs it down: every
    observable step of the protocol lowers the rank of the phase by one, so
    no trace of the protocol makes more observable events than the rank of
    its first phase; the run of the script starts at rank three and its
    observable events (the calls and the print of the answer) are as many
    as the rank it has run down when it ends. *)
Theorem program_progress `{TwitterService, OpenAIService} (env : gmap string string) :
  (∀ p q e, step p e q → observable e = true → rank q < rank p) ∧
  length (observe (trace (program env))) + rank (finalPhase env) = 3.
Proof.
  split.
  - intros p q e Hs%step_rank He. rewrite He in Hs. lia.
  - by rewrite (steps_rank Idle (finalPhase env)) by apply steps_follow, program_follow.
Qed.

(** The free-text variant makes at most eight events, and six or more
    once it is configured; it makes none when the constructor of the client
    throws. *)
Lemma freetext_trace_bounds `{TwitterService, ResponsesService} (env : gmap string string) :
  length (trace (FreeText.program env)) ≤ 8 ∧
  (configured env = true → 6 ≤ length (trace (FreeText.program env))) ∧
  (env !! "OPENAI_API_KEY" = None → trace (FreeText.program env) = []).
Proof.
  pose proof (freetext_main_length (FreeText.clientOf (env !! "OPENAI_API_KEY"))
                (twitterOf env)) as Hmain.
  split_and!.
  - destruct (configured env) eqn:Hc; [rewrite FreeText.freetext_program_configured by done; lia|].
    destruct (FreeText.freetext_not_configured_run env Hc) as [->|[message ->]]; simpl; lia.
  - intros Hc. rewrite FreeText.freetext_program_configured by done. lia.
  - intros Hk. by rewrite FreeText.freetext_program_run, Hk.
Qed.

(** The two variants resolve alike: when the vendor gives the tweets of
    the two variants the same resolution, they call the vendors as often
    (the free-text variant asks its question where the script asks about
    the image). *)
Lemma variants_calls_alike `{TwitterService, OpenAIService, ResponsesService}
    (env : gmap string string) :
  resolve (singleTweet_response (twitterOf env) TWEET_ID lookupParams) =
  resolve (singleTweet_response (twitterOf env) FreeText.TWEET_ID lookupParams) →
  length (network (trace (program env))) =
  length (network (trace (FreeText.program env))).
Proof.
  intros Hr. destruct (configured env) eqn:Hc.
  - rewrite program_configured, FreeText.freetext_program_configured, main_network,
      FreeText.freetext_main_network, <-Hr by done.
    destruct (resolve _) as [err|tweetData] eqn:Hres; [done|].
    rewrite (resolve_truthy _ _ Hres). by destruct (imageUrl tweetData).
  - by rewrite (proj1 (program_not_configured env Hc)),
      (proj1 (FreeText.freetext_not_configured env Hc)).
Qed.

(** The two variants declare the same schema. *)
Lemma variants_same_schema : FreeText.verificationResponseSchema = verificationResponseSchema.
Proof. done. Qed.

(** The question the result lines quote is not the question the model was
    asked, nor a part of it. *)
Lemma reported_question_differs :
  includes FreeText.question FreeText.theQuestion = false.
Proof. vm_compute. reflexivity. Qed.

(** ** Witnesses *)

Lemma freetext_verdict_line_witness :
  last (trace (FreeText.program (H:=Mock.twitter (inr Main.Example.videoTweet))
                 (H0:=Mock.responses (inr (FreeText.Example.answer (Some "Yes, it does."))))
                 Main.Example.env)) =
  Some (Console Log
          [VStr "Does the image contain a black baseball hat with white lettering? true"]).
Proof.
  exact (proj1 (freetext_verdict_line (H:=Mock.twitter (inr Main.Example.videoTweet))
                  (H0:=Mock.responses (inr (FreeText.Example.answer (Some "Yes, it does."))))
                  Main.Example.env eq_refl)).
Defined.

Lemma program_trace_bounds_witness :
  5 ≤ runLength (H:=Mock.twitter (inr Main.Example.videoTweet))
        (H0:=Mock.openai (inr Main.Example.hat)) Main.Example.env.
Proof.
  by apply (program_trace_bounds (H:=Mock.twitter (inr Main.Example.videoTweet))
              (H0:=Mock.openai (inr Main.Example.hat)) Main.Example.env).
Defined.

(** The bounds are reached: a tweet with an image and a model that
    refuses make seven events. *)
Example program_longest_run :
  length (trace (program (H:=Mock.twitter (inr Main.Example.videoTweet))
                   (H0:=Mock.openai (inl (JsError "overloaded"))) Main.Example.env)) = 7.
Proof. vm_compute. reflexivity. Qed.

Example program_shortest_run :
  length (trace (program (H:=Mock.twitter (inr Main.Example.videoTweet))
                   (H0:=Mock.openai (inr Main.Example.hat)) Main.Example.emptyKey)) = 1.
Proof. vm_compute. reflexivity. Qed.

Example freetext_longest_run :
  length (trace (FreeText.program (H:=Mock.twitter (inr Main.Example.videoTweet))
                   (H0:=Mock.responses (inr (FreeText.Example.answer (Some "I can't tell."))))
                   Main.Example.env)) = 8.
Proof. vm_compute. reflexivity. Qed.

(** The response property, decided on a run. *)
Example program_responds_run :
  leadsTo is_network isOutcomeLine
    (trace (program (H:=Mock.twitter (inr Main.Example.videoTweet))
              (H0:=Mock.openai (inl (JsError "overloaded"))) Main.Example.env)) = true.
Proof. vm_compute. reflexivity. Qed.
