(* ===== verification/Schema.v ===== *)
(** * Schema: the validation of the model's answer

    [src/src/index.ts] declares the schema of the answer (lines 30-33) and
    binds the request to it (line 133); the SDK then validates the content
    of every choice against the schema and hands the script the parsed
    object, or rejects.  This file models that contract of the SDK, from
    the design: JSON values, the validation of a value against a schema
    ([parse], with the default of zod for objects: unknown keys are
    stripped), the reading of a validated value as the record of the answer
    ([decode]), and a vendor of the model built from a vendor of raw
    completions ([validating]).  The theorems of [Verifier] and [Main] hold
    for every vendor, so for this one: what the script prints is then the
    validated content of the first choice. *)

From stdpp Require Import gmap.
From S2P Require Import Prelude JsString Api JsRuntime Resolver Verifier Main.

(** ** JSON values and validation *)

Inductive Json :=
| JNull
| JBool (b : bool)
| JNumber (n : Z)
| JString (s : string)
| JArray (items : list Json)
| JObject (fields : list (string * Json)).

(** [object[key]] on a parsed object, which holds each key once. *)
Fixpoint field (key : string) (fields : list (string * Json)) : option Json :=
  match fields with
  | [] => None
  | (key', value) :: fields => if String.eqb key key' then Some value else field key fields
  end.

(** [schema.parse(value)]: the validated value, or nothing.  An object
    keeps the keys of the shape, in the order of the shape. *)
Fixpoint parse (schema : OpenAI.ZodType) (value : Json) : option Json :=
  match schema, value with
  | OpenAI.ZodBoolean _, JBool b => Some (JBool b)
  | OpenAI.ZodString _, JString s => Some (JString s)
  | OpenAI.ZodObject shape, JObject fields =>
      JObject <$>
        (fix entries (shape : list (string * OpenAI.ZodType)) :=
           match shape with
           | [] => Some []
           | (key, schema') :: shape =>
               v ← field key fields ≫= parse schema';
               rest ← entries shape;
               Some ((key, v) :: rest)
           end) shape
  | _, _ => None
  end.

(** [schema.safeParse(value).success] *)
Definition conforms (schema : OpenAI.ZodType) (value : Json) : bool :=
  bool_decide (is_Some (parse schema value)).

(** The answer as a JSON value, and a JSON value read as an answer
    ([z.infer<typeof verificationResponseSchema>]). *)
Definition encode (response : OpenAI.VerificationResponse) : Json :=
  JObject [("result", JBool (OpenAI.result response));
           ("reasoning", JString (OpenAI.reasoning response))].

Definition toResponse (value : Json) : option OpenAI.VerificationResponse :=
  match value with
  | JObject fields =>
      match field "result" fields, field "reasoning" fields with
      | Some (JBool result), Some (JString reasoning) =>
          Some {| OpenAI.result := result; OpenAI.reasoning := reasoning |}
      | _, _ => None
      end
  | _ => None
  end.

(** The content of a choice, validated against the schema of the request
    and read as an answer. *)
Definition decode (schema : OpenAI.ZodType) (value : Json)
    : option OpenAI.VerificationResponse :=
  parse schema value ≫= toResponse.

(** ** A vendor that validates *)

(** A completion before validation: the content of a message is a JSON
    value, or [null]. *)
Record RawMessage := { content : option Json }.
Record RawChoice := { message : option RawMessage }.
Record RawCompletion := { choices : list RawChoice }.

(** The inference API itself. *)
Class RawService :=
  raw_response : OpenAI.Client → OpenAI.ParseParams → Thrown + RawCompletion.

(** What the SDK throws for a content that fails validation: an [Error]
    whose message lists the issues; the model keeps its name for them. *)
Definition ZodError : Thrown := JsError "ZodError".

(** The validation of a message: [null] stays [null], a content that
    conforms becomes the parsed object, any other content is rejected. *)
Definition parseMessage (schema : OpenAI.ZodType) (m : RawMessage)
    : option OpenAI.ParsedMessage :=
  match content m with
  | None => Some {| OpenAI.parsed := None |}
  | Some value => (λ r, {| OpenAI.parsed := Some r |}) <$> decode schema value
  end.

Definition parseChoice (schema : OpenAI.ZodType) (c : RawChoice)
    : option OpenAI.ParsedChoice :=
  match message c with
  | None => Some {| OpenAI.message := None |}
  | Some m => (λ m', {| OpenAI.message := Some m' |}) <$> parseMessage schema m
  end.

(** Every choice is validated: one that fails rejects the completion. *)
Definition parseCompletion (schema : OpenAI.ZodType) (raw : RawCompletion)
    : Thrown + OpenAI.ParsedChatCompletion :=
  match mapM (parseChoice schema) (choices raw) with
  | Some choices => inr {| OpenAI.choices := choices |}
  | None => inl ZodError
  end.

(** The vendor the script talks to, from the API behind it: the answer is
    validated against the schema the request carries. *)
Definition validating (raw : RawService) : OpenAIService :=
  λ client body,
    match raw_response client body with
    | inl error => inl error
    | inr completion =>
        parseCompletion (OpenAI.schema (OpenAI.response_format body)) completion
    end.

(** The content of the first choice of a raw completion. *)
Definition firstRawContent (raw : RawCompletion) : option (option Json) :=
  content <$> (head (choices raw) ≫= message).

(** ** Data for examples *)

Module Example.

(** An answer with a key the schema does not know. *)
Definition verbose : Json :=
  JObject [("confidence", JNumber 9); ("reasoning", JString "logo visible");
           ("result", JBool true)].

(** An answer whose [result] is a string. *)
Definition mistyped : Json :=
  JObject [("result", JString "yes"); ("reasoning", JString "logo visible")].

Definition completion (value : Json) : RawCompletion :=
  {| choices := [ {| message := Some {| content := Some value |} |} ] |}.

(** An API that always answers [value]. *)
Definition api (value : Json) : RawService := λ _ _, inr (completion value).

End Example.

(** ** Validation against the schema of the answer *)

(** Validation against the schema of the answer, unfolded. *)
Lemma parse_schema (value : Json) :
  parse verificationResponseSchema value =
  match value with
  | JObject fields =>
      match field "result" fields, field "reasoning" fields with
      | Some (JBool result), Some (JString reasoning) =>
          Some (JObject [("result", JBool result); ("reasoning", JString reasoning)])
      | _, _ => None
      end
  | _ => None
  end.
Proof.
  destruct value as [| | | | |fields]; try done. simpl.
  destruct (field "result" fields) as [[]|]; try done; simpl;
    by destruct (field "reasoning" fields) as [[]|].
Qed.

(** Reading needs no validation first: it checks what it reads. *)
Lemma decode_toResponse (value : Json) :
  decode verificationResponseSchema value = toResponse value.
Proof.
  unfold decode. rewrite parse_schema. destruct value as [| | | | |fields]; try done.
  simpl. destruct (field "result" fields) as [[]|]; try done;
    by destruct (field "reasoning" fields) as [[]|].
Qed.

Lemma decode_Some (value : Json) (r : OpenAI.VerificationResponse) :
  decode verificationResponseSchema value = Some r ↔
  ∃ fields, value = JObject fields ∧
    field "result" fields = Some (JBool (OpenAI.result r)) ∧
    field "reasoning" fields = Some (JString (OpenAI.reasoning r)).
Proof.
  rewrite decode_toResponse. destruct r as [result reasoning]. split.
  - destruct value as [| | | | |fields]; try done. simpl.
    destruct (field "result" fields) as [[]|] eqn:Hres; try done;
      destruct (field "reasoning" fields) as [[]|] eqn:Hrea; try done.
    intros [= -> ->]. by exists fields.
  - intros (fields & -> & Hres & Hrea). simpl in *. by rewrite Hres, Hrea.
Qed.

(** ** The validating vendor *)

(** The first parsed answer of a validated completion is the decoded
    content of the first choice. *)
Lemma firstParsed_parseCompletion (schema : OpenAI.ZodType) (raw : RawCompletion)
    (completion : OpenAI.ParsedChatCompletion) :
  parseCompletion schema raw = inr completion →
  firstParsed completion =
  match firstRawContent raw with
  | None => None
  | Some None => Some None
  | Some (Some value) => Some <$> decode schema value
  end ∧
  (∀ value, firstRawContent raw = Some (Some value) → is_Some (decode schema value)).
Proof.
  unfold parseCompletion, firstParsed, firstRawContent.
  destruct (mapM _ _) as [cs|] eqn:Hcs; [|done]. intros [= <-].
  apply mapM_Some in Hcs. destruct raw as [[|c rest]]; simpl in *;
    [by apply Forall2_nil_inv_l in Hcs as ->|].
  apply Forall2_cons_inv_l in Hcs as (c' & cs' & Hc & _ & ->). simpl.
  unfold parseChoice, parseMessage in Hc. destruct c as [[[[value|]]|]]; simpl in *;
    [|by simplify_eq..].
  destruct (decode schema value) as [r|] eqn:Hd; simplify_eq/=. split; [done|].
  intros ? [= <-]. by rewrite Hd.
Qed.

(** A value conforms to the schema of the answer exactly when it reads as
    an answer. *)
Lemma conforms_decode (value : Json) :
  conforms verificationResponseSchema value =
  bool_decide (is_Some (decode verificationResponseSchema value)).
Proof.
  unfold conforms. rewrite decode_toResponse, parse_schema.
  destruct value as [| | | | |fields]; try done. simpl.
  destruct (field "result" fields) as [[]|]; try done;
    by destruct (field "reasoning" fields) as [[]|].
Qed.

(** The request of the script carries the schema of the answer. *)
Lemma parseBody_schema (imageUrl : string) :
  OpenAI.schema (OpenAI.response_format (parseBody imageUrl)) = verificationResponseSchema.
Proof. done. Qed.

(** A choice that does not conform rejects the completion. *)
Lemma parseCompletion_invalid (schema : OpenAI.ZodType) (raw : RawCompletion)
    (c : RawChoice) (m : RawMessage) (value : Json) :
  c ∈ choices raw → message c = Some m → content m = Some value →
  decode schema value = None →
  parseCompletion schema raw = inl ZodError.
Proof.
  intros Hin Hm Hc Hd. unfold parseCompletion.
  rewrite (mapM_None_2 (parseChoice schema) (choices raw)); [done|].
  apply Exists_exists. exists c. split; [done|].
  unfold parseChoice, parseMessage. by rewrite Hm, Hc, Hd.
Qed.

(** ** Properties *)

(** C29. Round trip: the JSON form of an answer conforms to the schema,
    validation leaves it as it is, and it reads back as the same answer;
    conversely a value that validates does so to the JSON form of the
    answer it reads as, whatever other keys it holds. *)
Theorem schema_roundtrip (r : OpenAI.VerificationResponse) (value : Json) :
  (parse verificationResponseSchema (encode r) = Some (encode r) ∧
   decode verificationResponseSchema (encode r) = Some r) ∧
  (decode verificationResponseSchema value = Some r ↔
   parse verificationResponseSchema value = Some (encode r)).
Proof.
  split; [by destruct r|]. rewrite decode_toResponse, parse_schema.
  destruct r as [result reasoning], value as [| | | | |fields]; try done. simpl.
  destruct (field "result" fields) as [[]|]; try done;
    destruct (field "reasoning" fields) as [[]|]; try done.
  unfold encode. simpl. naive_solver.
Qed.

Section validating.
Context (raw : RawService) (openai : OpenAI.Client) (imageUrl : string).

(** C28. Behind a validating vendor, a verdict the verifier returns is the
    content of the first choice of the raw completion, validated against
    the schema of the answer. *)
Theorem validating_ask_verdict (r : OpenAI.VerificationResponse) :
  outcome (askOpenAIAboutImage (H:=validating raw) openai imageUrl) =
    Returned (Some (Some r)) →
  ∃ completion value,
    raw_response openai (parseBody imageUrl) = inr completion ∧
    firstRawContent completion = Some (Some value) ∧
    conforms verificationResponseSchema value = true ∧
    toResponse value = Some r.
Proof.
  rewrite ask_outcome. unfold parse_response, validating. rewrite parseBody_schema.
  destruct (raw_response _ _) as [error|completion]; [done|].
  destruct (parseCompletion _ _) as [error|parsed] eqn:Hp; [done|].
  apply firstParsed_parseCompletion in Hp as [-> _]. intros [= Hr].
  destruct (firstRawContent completion) as [[value|]|] eqn:Hfc; simplify_eq/=.
  destruct (decode _ value) as [r'|] eqn:Hd; simplify_eq/=.
  exists completion, value. by rewrite conforms_decode, <-decode_toResponse, Hd.
Qed.

(** C30. Behind a validating vendor, a completion with a choice whose
    content does not conform to the schema is a failure of the verifier:
    it throws the error of the validation, wrapped as every failure of the
    call is, and returns no verdict. *)
Theorem validating_rejects_invalid (completion : RawCompletion) (c : RawChoice)
    (m : RawMessage) (value : Json) :
  raw_response openai (parseBody imageUrl) = inr completion →
  c ∈ choices completion → message c = Some m → content m = Some value →
  conforms verificationResponseSchema value = false →
  ∃ issues,
    ZodError = JsError issues ∧
    outcome (askOpenAIAboutImage (H:=validating raw) openai imageUrl) =
    Threw (JsError ("Failed to get response from OpenAI about the image. " +:+ issues)).
Proof.
  intros Hraw Hin Hm Hc Hconf. eexists. split; [done|]. rewrite ask_outcome.
  unfold parse_response, validating. rewrite parseBody_schema, Hraw.
  rewrite (parseCompletion_invalid _ _ c m value); [done..|].
  rewrite conforms_decode in Hconf. apply bool_decide_eq_false in Hconf.
  by destruct (decode _ value); [destruct Hconf|].
Qed.

End validating.

(** ** Witnesses *)

Lemma validating_ask_verdict_witness :
  ∃ completion value,
    (Example.api Example.verbose) Verifier.Example.client
      (parseBody "a.jpg") = inr completion ∧
    firstRawContent completion = Some (Some value) ∧
    conforms verificationResponseSchema value = true ∧
    toResponse value = Some {| OpenAI.result := true; OpenAI.reasoning := "logo visible" |}.
Proof.
  by apply (validating_ask_verdict (Example.api Example.verbose)
              Verifier.Example.client "a.jpg").
Defined.

Lemma validating_rejects_invalid_witness :
  ∃ issues,
    ZodError = JsError issues ∧
    outcome (askOpenAIAboutImage
               (H:=validating (Example.api Example.mistyped))
               Verifier.Example.client "a.jpg") =
    Threw (JsError ("Failed to get response from OpenAI about the image. " +:+ issues)).
Proof.
  apply (validating_rejects_invalid (Example.api Example.mistyped)
           Verifier.Example.client "a.jpg" (Example.completion Example.mistyped)
           {| message := Some {| content := Some Example.mistyped |} |}
           {| content := Some Example.mistyped |} Example.mistyped); try done.
  by apply list_elem_of_singleton.
Defined.
