(* ===== verification/SchemaTypes.v ===== *)
(** * SchemaTypes: the type of a validated value

    A schema is a type of JSON values.  This file states the typing
    relation [HasType] and the well-formedness of a schema (the keys of an
    object are distinct, at every level), and proves for every schema that
    validation ([Schema.parse]) yields a value of the type of the schema,
    and that a value of that type is left as it is.  The schema of
    [src/src/index.ts] (lines 30-33) is well formed, and the values of its
    type are the JSON forms of the answers.

    [OpenAI.ZodType] is nested in [list], so the induction principle that
    Rocq generates for it gives no hypothesis for the schemas of a shape;
    [ZodType_nested_ind] does. *)

From stdpp Require Import gmap.
From S2P Require Import Prelude JsString Api JsRuntime Resolver Verifier Main Schema.

(** ** Typing and well-formedness *)

(** [value] has the type of [schema]: a boolean, a string, or an object
    with the keys of the shape, in its order, each value of the type of
    its key. *)
Inductive HasType : OpenAI.ZodType → Json → Prop :=
| HasType_boolean (description : string) (b : bool) :
    HasType (OpenAI.ZodBoolean description) (JBool b)
| HasType_string (description s : string) :
    HasType (OpenAI.ZodString description) (JString s)
| HasType_object (shape : list (string * OpenAI.ZodType))
      (fields : list (string * Json)) :
    Forall2 (λ entry kv, entry.1 = kv.1 ∧ HasType entry.2 kv.2) shape fields →
    HasType (OpenAI.ZodObject shape) (JObject fields).

(** A schema whose objects name each key once. *)
Inductive WellFormed : OpenAI.ZodType → Prop :=
| WellFormed_boolean (description : string) :
    WellFormed (OpenAI.ZodBoolean description)
| WellFormed_string (description : string) :
    WellFormed (OpenAI.ZodString description)
| WellFormed_object (shape : list (string * OpenAI.ZodType)) :
    NoDup shape.*1 → Forall (λ entry, WellFormed entry.2) shape →
    WellFormed (OpenAI.ZodObject shape).

(** The entries of a validated object: for every key of the shape, the
    validated value of that key in [fields]. *)
Fixpoint parseEntries (fields : list (string * Json))
    (shape : list (string * OpenAI.ZodType)) : option (list (string * Json)) :=
  match shape with
  | [] => Some []
  | (key, schema) :: shape =>
      v ← field key fields ≫= parse schema;
      rest ← parseEntries fields shape;
      Some ((key, v) :: rest)
  end.

(** Induction on a schema, with the hypothesis for every schema of a
    shape. *)
Definition ZodType_nested_ind (P : OpenAI.ZodType → Prop)
    (fboolean : ∀ description, P (OpenAI.ZodBoolean description))
    (fstring : ∀ description, P (OpenAI.ZodString description))
    (fobject : ∀ shape, Forall (λ entry, P entry.2) shape → P (OpenAI.ZodObject shape))
    : ∀ schema, P schema :=
  fix go (schema : OpenAI.ZodType) : P schema :=
    match schema with
    | OpenAI.ZodBoolean description => fboolean description
    | OpenAI.ZodString description => fstring description
    | OpenAI.ZodObject shape =>
        fobject shape
          ((fix all (shape : list (string * OpenAI.ZodType))
              : Forall (λ entry, P entry.2) shape :=
              match shape with
              | [] => List.Forall_nil _
              | entry :: shape =>
                  List.Forall_cons _ entry shape (go entry.2) (all shape)
              end) shape)
    end.

(** ** Lookup in the fields of an object *)

Lemma field_Some_elem_of (key : string) (fields : list (string * Json)) (value : Json) :
  field key fields = Some value → (key, value) ∈ fields.
Proof.
  induction fields as [|[key' value'] fields IH]; simpl; [done|].
  destruct (String.eqb key key') eqn:Hk.
  - apply String.eqb_eq in Hk as ->. intros [= ->]. by left.
  - intros ?. right. by apply IH.
Qed.

(** In an object that holds each key once, a binding is found. *)
Lemma field_NoDup (key : string) (fields : list (string * Json)) (value : Json) :
  NoDup fields.*1 → (key, value) ∈ fields → field key fields = Some value.
Proof.
  induction fields as [|[key' value'] fields IH]; simpl; [by intros _ ?%elem_of_nil|].
  intros [Hnotin Hnodup]%NoDup_cons [[= -> ->]|Hin]%elem_of_cons.
  - by rewrite String.eqb_refl.
  - destruct (String.eqb key key') eqn:Hk; [|by apply IH].
    apply String.eqb_eq in Hk as ->. destruct Hnotin.
    apply list_elem_of_fmap. by exists (key', value).
Qed.

(** ** Validation of objects *)

Lemma parse_object (shape : list (string * OpenAI.ZodType)) (fields : list (string * Json)) :
  parse (OpenAI.ZodObject shape) (JObject fields) = JObject <$> parseEntries fields shape.
Proof.
  simpl. f_equal. induction shape as [|[key schema] shape IH]; simpl; [done|].
  by rewrite IH.
Qed.

Lemma parse_object_Some (shape : list (string * OpenAI.ZodType)) (value v : Json) :
  parse (OpenAI.ZodObject shape) value = Some v ↔
  ∃ fields entries, value = JObject fields ∧ v = JObject entries ∧
    parseEntries fields shape = Some entries.
Proof.
  destruct value as [| | | | |fields]; try by (split; [|intros (? & ? & ? & _)]).
  rewrite parse_object. destruct (parseEntries fields shape) as [entries|] eqn:He; simpl.
  - split; [intros [= <-]; by eauto|]. intros (? & ? & [= <-] & -> & ?). congruence.
  - split; [done|]. intros (? & ? & [= <-] & _ & ?). congruence.
Qed.

(** The entries are the validated values of the keys, in the order of the
    shape. *)
Lemma parseEntries_Some (fields entries : list (string * Json))
    (shape : list (string * OpenAI.ZodType)) :
  parseEntries fields shape = Some entries ↔
  Forall2 (λ entry kv, entry.1 = kv.1 ∧
             ∃ value, field entry.1 fields = Some value ∧
                      parse entry.2 value = Some kv.2) shape entries.
Proof.
  revert entries. induction shape as [|[key schema] shape IH]; intros entries; simpl.
  { split; [intros [= <-]; constructor|by intros ->%Forall2_nil_inv_l]. }
  split.
  - intros (v & (value & Hf & Hv)%bind_Some & (rest & Hrest & [= <-])%bind_Some)%bind_Some.
    constructor; [by eauto|by apply IH].
  - intros ([k v] & rest & (Hk & value & Hf & Hv) & Hrest%IH & ->)%Forall2_cons_inv_l.
    simpl in *. subst k. rewrite Hf. simpl. rewrite Hv. simpl. by rewrite Hrest.
Qed.

#[export] Hint Constructors HasType WellFormed : js.

(** ** Soundness of validation *)

(** Validation yields a value of the type of the schema. *)
Lemma parse_HasType (schema : OpenAI.ZodType) :
  ∀ value v, parse schema value = Some v → HasType schema v.
Proof.
  induction schema as [description|description|shape IH] using ZodType_nested_ind;
    intros value v.
  - destruct value; intros [= <-]; constructor.
  - destruct value; intros [= <-]; constructor.
  - intros (fields & entries & -> & -> & Hentries%parseEntries_Some)%parse_object_Some.
    constructor. revert IH.
    induction Hentries as [|entry kv shape entries [Hk (value & _ & Hv)] _ IH'];
      intros IH; [constructor|].
    apply Forall_cons in IH as [IHentry IHshape].
    constructor; [split; [done|by eapply IHentry]|by apply IH'].
Qed.

(** ** Values of the type are left as they are *)

(** An object of the type of a shape has the keys of the shape. *)
Lemma HasType_keys (shape : list (string * OpenAI.ZodType)) (fields : list (string * Json)) :
  Forall2 (λ entry kv, entry.1 = kv.1 ∧ HasType entry.2 kv.2) shape fields →
  shape.*1 = fields.*1.
Proof. induction 1 as [|?? ?? [Hk _] _ IH]; [done|]. by rewrite !fmap_cons, Hk, IH. Qed.

Lemma HasType_parse (schema : OpenAI.ZodType) :
  WellFormed schema → ∀ v, HasType schema v → parse schema v = Some v.
Proof.
  induction schema as [description|description|shape IH] using ZodType_nested_ind;
    intros Hwf v Hty.
  - by inversion Hty.
  - by inversion Hty.
  - inversion Hwf as [| |? Hnodup Hall]; inversion Hty as [| |? fields Hfields]; subst.
    rewrite parse_object. assert (parseEntries fields shape = Some fields) as ->; [|done].
    rewrite (HasType_keys _ _ Hfields) in Hnodup.
    apply parseEntries_Some, Forall2_same_length_lookup.
    apply Forall2_same_length_lookup in Hfields as [Hlen Hfields].
    split; [done|]. intros i entry kv Hentry Hkv.
    destruct (Hfields i entry kv Hentry Hkv) as [Hk Hty']. split; [done|].
    exists kv.2. split.
    + rewrite Hk. apply field_NoDup; [done|].
      destruct kv. by eapply list_elem_of_lookup_2.
    + eapply Forall_lookup_1 in IH; [|done]. apply IH; [|done].
      by eapply Forall_lookup_1 in Hall.
Qed.

(** The schema of the answer is well formed, and the values of its type
    are the JSON forms of the answers. *)
Lemma verificationResponseSchema_WellFormed : WellFormed verificationResponseSchema.
Proof.
  constructor; [|by repeat constructor]. simpl.
  apply NoDup_cons. split; [|apply NoDup_singleton]. by intros ?%list_elem_of_singleton.
Qed.

Lemma HasType_encode (v : Json) :
  HasType verificationResponseSchema v ↔ ∃ r, v = encode r.
Proof.
  split.
  - intros Hty. inversion Hty as [| |? fields Hfields]; subst.
    apply Forall2_cons_inv_l in Hfields as ([k1 v1] & rest & [Hk1 Hv1] & Hrest & ->).
    apply Forall2_cons_inv_l in Hrest as ([k2 v2] & rest' & [Hk2 Hv2] & Hnil & ->).
    apply Forall2_nil_inv_l in Hnil as ->. simpl in *. subst.
    inversion Hv1; inversion Hv2; subst.
    by eexists {| OpenAI.result := _; OpenAI.reasoning := _ |}.
  - intros [r ->]. by repeat constructor.
Qed.

(** ** Properties *)

(** C20. Validation is typed: for every schema, a value that validates
    does so to a value of the type of the schema; and when the schema names
    each key once, a value of its type validates to itself, so that
    validating twice is validating once. *)
Theorem parse_typed (schema : OpenAI.ZodType) (value v : Json) :
  parse schema value = Some v →
  HasType schema v ∧ (WellFormed schema → parse schema v = Some v).
Proof.
  intros Hv%parse_HasType. split; [done|]. intros Hwf. by apply HasType_parse.
Qed.

Lemma parse_typed_witness :
  HasType verificationResponseSchema
    (JObject [("result", JBool true); ("reasoning", JString "logo visible")]) ∧
  (WellFormed verificationResponseSchema →
   parse verificationResponseSchema
     (JObject [("result", JBool true); ("reasoning", JString "logo visible")]) =
   Some (JObject [("result", JBool true); ("reasoning", JString "logo visible")])).
Proof. by apply (parse_typed verificationResponseSchema Example.verbose). Defined.
