(* ===== verification/Pipeline.v ===== *)
(** * Pipeline: [main] against the contracts of its two steps

    [main] of [src/src/index.ts] (lines 154-175) uses the resolver and the
    verifier through what they promise, not through how they work.  This
    file states those promises as two classes, proves the behaviour of
    [main] for every resolver and verifier that keep them ([mainWith] is the
    body of [main] with the two steps as parameters), and shows that
    [fetchTweetData] and [askOpenAIAboutImage] keep them.  A fake step that
    keeps its contract can stand for the real one, as the design notes ask
    for; and a step can be replaced by one that is equivalent up to
    diagnostics ([mainWith] respects the equivalence of [Obs]). *)

From stdpp Require Import gmap.
From S2P Require Import Prelude JsString Api JsRuntime Resolver Verifier Main.
From S2P Require Import Legacy Lifecycle Obs.

(** ** The contracts *)

(** What [main] needs of its resolver: it returns or throws, prints no
    verdict, and does not talk to the model. *)
Class ResolverContract (fetch : string → M TweetData) : Prop := {
  fetch_no_exit (tweetId : string) (code : Z) :
    outcome (fetch tweetId) ≠ Exited code;
  fetch_no_verdict (tweetId : string) :
    printed (trace (fetch tweetId)) = [];
  fetch_no_parse (tweetId : string) (c : OpenAI.Client) (body : OpenAI.ParseParams) :
    OpenAIParse c body ∉ trace (fetch tweetId)
}.

(** What [main] needs of its verifier: it returns or throws, prints no
    verdict, and sends requests for the image it is given only. *)
Class VerifierContract
    (ask : string → M (option (option OpenAI.VerificationResponse))) : Prop := {
  ask_no_exit (imageUrl : string) (code : Z) :
    outcome (ask imageUrl) ≠ Exited code;
  ask_no_verdict (imageUrl : string) :
    printed (trace (ask imageUrl)) = [];
  ask_about (imageUrl : string) (c : OpenAI.Client) (body : OpenAI.ParseParams) :
    OpenAIParse c body ∈ trace (ask imageUrl) → body = parseBody imageUrl
}.

(** ** [main] with its steps as parameters *)

Definition mainWith (fetch : string → M TweetData)
    (ask : string → M (option (option OpenAI.VerificationResponse))) : M unit :=
  console_log [VStr ("Processing Tweet ID: " +:+ TWEET_ID)];;
  try_catch
    (tweetData ← fetch TWEET_ID;
     console_log [VStr ("Image URL: " +:+ template (imageUrl tweetData))];;
     imageUrl ← require_truthy (imageUrl tweetData) (throw noImageError);
     openAIResponse ← ask imageUrl;
     console_log [VParsed openAIResponse])
    catchMain.

(** The answer [mainWith] prints, from the outcomes of its steps. *)
Definition answerWith (fetch : string → M TweetData)
    (ask : string → M (option (option OpenAI.VerificationResponse)))
    : option (option (option OpenAI.VerificationResponse)) :=
  match outcome (fetch TWEET_ID) with
  | Returned tweetData =>
      if truthy_opt (imageUrl tweetData) then
        match outcome (ask (template (imageUrl tweetData))) with
        | Returned r => Some r
        | _ => None
        end
      else None
  | _ => None
  end.

(** A resolver for tests: it answers with a fixed image and emits
    nothing. *)
Definition fakeResolver (imageUrl : option string) : string → M TweetData :=
  λ _, mret {| imageUrl := imageUrl; text := None |}.

(** ** The run of [mainWith] *)

Section run.
Context (fetch : string → M TweetData).
Context (ask : string → M (option (option OpenAI.VerificationResponse))).

(** What follows a resolution that returned [tweetData]. *)
Definition afterFetchWith (tweetData : TweetData) : M unit :=
  if truthy_opt (imageUrl tweetData) then
    let asked := ask (template (imageUrl tweetData)) in
    match outcome asked with
    | Returned r =>
        Run (logImageUrl (imageUrl tweetData) :: trace asked ++ [Console Log [VParsed r]])
            (Returned ())
    | Threw error =>
        Run (logImageUrl (imageUrl tweetData) :: trace asked ++ [logMainError error])
            (Exited 1)
    | Exited code => Run (logImageUrl (imageUrl tweetData) :: trace asked) (Exited code)
    end
  else
    Run [logImageUrl (imageUrl tweetData); logMainError noImageError] (Exited 1).

Lemma mainWith_run :
  mainWith fetch ask =
  match outcome (fetch TWEET_ID) with
  | Returned tweetData =>
      Run (logProcessing :: trace (fetch TWEET_ID) ++ trace (afterFetchWith tweetData))
          (outcome (afterFetchWith tweetData))
  | Threw error =>
      Run (logProcessing :: trace (fetch TWEET_ID) ++ [logMainError error]) (Exited 1)
  | Exited code => Run (logProcessing :: trace (fetch TWEET_ID)) (Exited code)
  end.
Proof.
  unfold mainWith, afterFetchWith, catchMain.
  destruct (fetch TWEET_ID) as [t [tweetData|error|code]]; [|by js_run..].
  rewrite bind_Returned. cbn [outcome trace].
  destruct (truthy_opt (imageUrl tweetData)) eqn:Himg.
  - rewrite require_truthy_true, bind_ret_l by done.
    destruct (ask _) as [t' [r|error|code]]; js_run; by rewrite <-?app_assoc.
  - rewrite require_truthy_false by done. js_run. by rewrite <-?app_assoc.
Qed.

End run.

(** [main] is [mainWith] of the resolver and the verifier of the script. *)
Lemma main_mainWith `{TwitterService, OpenAIService}
    (openai : OpenAI.Client) (client : Twitter.TwitterApiReadOnly) :
  main openai client = mainWith (fetchTweetData client) (askOpenAIAboutImage openai).
Proof. done. Qed.

(** ** Steps up to diagnostics *)

(** [mainWith] respects the equivalence: steps that are equivalent up to
    their diagnostic lines give equivalent runs. *)
#[export] Instance mainWith_proper :
  Proper (pointwise_relation string (≡) ==> pointwise_relation string (≡) ==> (≡))
         mainWith.
Proof.
  intros fetch1 fetch2 Hfetch ask1 ask2 Hask. unfold mainWith.
  apply mbind_proper; [intros []|done]. apply try_catch_proper; [|done].
  apply mbind_proper; [intros tweetData|apply Hfetch].
  apply mbind_proper; [intros []|done].
  apply mbind_proper; [intros imageUrl|done].
  apply mbind_proper; [done|apply Hask].
Qed.

(** [main] is, up to diagnostics, [mainWith] of the steps of the design. *)
Lemma main_design `{TwitterService, OpenAIService}
    (openai : OpenAI.Client) (client : Twitter.TwitterApiReadOnly) :
  main openai client ≡ mainWith (resolveQ client) (verifyQ openai).
Proof.
  rewrite main_mainWith.
  apply mainWith_proper; intros ?; [apply fetch_quiet|apply ask_quiet].
Qed.

(** ** The steps of the script keep the contracts *)

#[export] Instance fetchTweetData_contract `{TwitterService}
    (client : Twitter.TwitterApiReadOnly) : ResolverContract (fetchTweetData client).
Proof.
  split.
  - intros tweetId code. rewrite fetch_outcome. by destruct (resolve _).
  - intros tweetId. apply fetch_printed.
  - intros tweetId c body Hin.
    assert (OpenAIParse c body ∈ network (trace (fetchTweetData client tweetId))) as Hnet
      by by apply elem_of_network.
    rewrite fetch_network in Hnet. by apply list_elem_of_singleton in Hnet.
Qed.

#[export] Instance askOpenAIAboutImage_contract `{OpenAIService}
    (openai : OpenAI.Client) : VerifierContract (askOpenAIAboutImage openai).
Proof.
  split.
  - intros imageUrl code. rewrite ask_outcome. by destruct (parse_response _ _).
  - intros imageUrl. apply ask_printed.
  - intros imageUrl c body Hin.
    assert (OpenAIParse c body ∈ network (trace (askOpenAIAboutImage openai imageUrl)))
      as Hnet by by apply elem_of_network.
    rewrite ask_network in Hnet. by apply list_elem_of_singleton in Hnet as [= -> ->].
Qed.

#[export] Instance fakeResolver_contract (imageUrl : option string) :
  ResolverContract (fakeResolver imageUrl).
Proof. split; [done..|]. intros ??? Hin. by apply elem_of_nil in Hin. Qed.

(** ** [main] for every resolver and verifier that keep the contracts *)

Section client.
Context (fetch : string → M TweetData).
Context (ask : string → M (option (option OpenAI.VerificationResponse))).
Context `{!ResolverContract fetch, !VerifierContract ask}.

Lemma afterFetchWith_printed (tweetData : TweetData) :
  printed (trace (afterFetchWith ask tweetData)) =
  if truthy_opt (imageUrl tweetData) then
    match outcome (ask (template (imageUrl tweetData))) with
    | Returned (Some (Some response)) => [response]
    | _ => []
    end
  else [].
Proof.
  unfold afterFetchWith. destruct (truthy_opt _); [|done].
  pose proof (ask_no_verdict (template (imageUrl tweetData))) as Hask.
  destruct (outcome _) as [[[r|]|]|error|code]; cbn [trace];
    by rewrite printed_cons, ?printed_app, Hask.
Qed.

(** C19. For every resolver and verifier that keep their contracts,
    [main] ends normally exactly when both steps return and the resolver
    gave an image, with exit code 1 otherwise, and prints the answer of
    the verifier then, and nothing else that could pass for a verdict. *)
Theorem mainWith_contract :
  exit_code (outcome (mainWith fetch ask)) =
    match answerWith fetch ask with Some _ => 0%Z | None => 1%Z end ∧
  printed (trace (mainWith fetch ask)) =
    match answerWith fetch ask with
    | Some (Some (Some response)) => [response]
    | _ => []
    end.
Proof.
  rewrite mainWith_run. unfold answerWith.
  pose proof (fetch_no_exit (fetch:=fetch) TWEET_ID) as Hexit.
  pose proof (fetch_no_verdict (fetch:=fetch) TWEET_ID) as Hquiet.
  destruct (outcome (fetch TWEET_ID)) as [tweetData|error|code];
    [|by cbn [trace]; rewrite printed_cons, printed_app, Hquiet|by destruct (Hexit code)].
  cbn [trace outcome]. rewrite printed_cons, printed_app, Hquiet, afterFetchWith_printed.
  unfold afterFetchWith. destruct (truthy_opt _); [|done].
  pose proof (ask_no_exit (ask:=ask) (template (imageUrl tweetData))) as Hexit'.
  destruct (outcome (ask _)) as [[[r|]|]|error|code]; try done. by destruct (Hexit' code).
Qed.

(** Every request to the model is the verifier's, for the image the
    resolver returned. *)
Lemma mainWith_asks (c : OpenAI.Client) (body : OpenAI.ParseParams) :
  OpenAIParse c body ∈ trace (mainWith fetch ask) →
  ∃ tweetData, outcome (fetch TWEET_ID) = Returned tweetData ∧
    truthy_opt (imageUrl tweetData) = true ∧
    body = parseBody (template (imageUrl tweetData)).
Proof.
  rewrite mainWith_run. intros Hin.
  pose proof (fetch_no_parse (fetch:=fetch) TWEET_ID c body) as Hfetch.
  destruct (outcome (fetch TWEET_ID)) as [tweetData|error|code] eqn:Ho; cbn [trace] in Hin;
    [|set_solver..].
  exists tweetData. unfold afterFetchWith in Hin.
  destruct (truthy_opt (imageUrl tweetData)) eqn:Himg; [|set_solver].
  split_and!; [done..|]. apply (ask_about (ask:=ask) _ c).
  destruct (outcome (ask _)); cbn [trace] in Hin; set_solver.
Qed.

End client.

(** The theorem at a fake resolver and the verifier of the script. *)
Lemma mainWith_contract_witness :
  exit_code (outcome (mainWith (fakeResolver (Some "a.jpg"))
                        (askOpenAIAboutImage (H:=Mock.openai (inr Example.hat))
                           Verifier.Example.client))) = 0%Z ∧
  printed (trace (mainWith (fakeResolver (Some "a.jpg"))
                    (askOpenAIAboutImage (H:=Mock.openai (inr Example.hat))
                       Verifier.Example.client))) = [Verifier.Example.verdict].
Proof.
  apply (mainWith_contract (fakeResolver (Some "a.jpg"))
           (askOpenAIAboutImage (H:=Mock.openai (inr Example.hat))
              Verifier.Example.client)).
Defined.
