(* ===== verification/Interaction.v ===== *)
(** * Interaction: the script as an interaction tree

    The files before this one run the script against vendors that are
    functions of the request.  This file states the script of
    [src/src/index.ts] and its free-text variant [src/unnamed/part_000]
    without any vendor: as interaction trees whose events are what a script
    asks of its environment (a line on the console, the lookup, a request
    to the model, the end of the process), and whose leaves are how a
    computation settles (a value or a thrown value).  Module [Tree] holds
    the functions of the script under their names, with the text of their
    models in [Resolver], [Verifier] and [Main], and module [Tree.FreeText]
    those of the variant, with the text of [Legacy]; only the operations of
    the runtime differ.

    [eval] runs a tree against vendors, with a bound on the number of
    events; it is the semantics of trees.  The rules of [Conv] relate the
    operations on trees with the operations on runs, and the adequacy
    lemmas ([program_conv], [freetext_program_conv]) show, function by
    function, that the tree of the script runs to the computation of
    [Main] within eighteen events, and the tree of the variant to the
    computation of [Legacy] within twenty.  These lemmas relate the two
    models of the development with each other; they say nothing of the
    code by themselves, and are what carries the theorems about [program]
    to the runs of the tree in [Environment]. *)

From ITree Require Import ITree ITreeFacts.
From stdpp Require Import gmap.
From S2P Require Import Prelude JsString Api JsRuntime Resolver Verifier Main Legacy.

(** ** Events and computations *)

(** What the script asks of its environment.  An [await] is answered by a
    settled promise: a thrown value or a result.  [process.exit] has no
    answer. *)
Variant scriptE : Type → Type :=
| ConsoleE (level : Level) (args : list JsVal) : scriptE unit
| SingleTweetE (client : Twitter.TwitterApiReadOnly) (tweetId : string)
    (params : Twitter.LookupParams) : scriptE (Thrown + Twitter.TweetV2SingleResult)
| ParseE (client : OpenAI.Client) (body : OpenAI.ParseParams)
    : scriptE (Thrown + OpenAI.ParsedChatCompletion)
| CreateE (client : OpenAI.Client) (body : Responses.CreateParams)
    : scriptE (Thrown + Responses.Response)
| ExitE (code : Z) : scriptE Empty_set.

(** A computation of the script: a tree that ends with a thrown value or
    with a result. *)
Definition T (A : Type) : Type := itree scriptE (Thrown + A).

#[export] Instance T_ret : MRet T := λ A a, Ret (inr a).

#[export] Instance T_bind : MBind T := λ A B k t,
  ITree.bind t (λ r, match r with inl e => Ret (inl e) | inr a => k a end).

(** ** The script *)

Module Tree.

(** *** The operations of the runtime, on trees *)

Definition throw {A} (e : Thrown) : T A := Ret (inl e).

Definition process_exit {A} (code : Z) : T A :=
  Vis (ExitE code) (λ x : Empty_set, match x with end).

Definition try_catch {A} (body : T A) (handler : Thrown → T A) : T A :=
  ITree.bind body (λ r, match r with inl e => handler e | inr a => Ret (inr a) end).

Definition never {A} (t : T Empty_set) : T A :=
  t ≫= λ x : Empty_set, match x with end.

Definition require_truthy (value : option string) (otherwise : T Empty_set) : T string :=
  match value with
  | Some s => if truthy s then mret s else never otherwise
  | None => never otherwise
  end.

Definition console (level : Level) (args : list JsVal) : T unit :=
  Vis (ConsoleE level args) (λ _, Ret (inr ())).

Definition console_log := console Log.
Definition console_warn := console Warn.
Definition console_error := console Error.

Definition await_singleTweet (client : Twitter.TwitterApiReadOnly) (tweetId : string)
    (params : Twitter.LookupParams) : T Twitter.TweetV2SingleResult :=
  ITree.trigger (SingleTweetE client tweetId params).

Definition await_parse (client : OpenAI.Client) (body : OpenAI.ParseParams)
    : T OpenAI.ParsedChatCompletion :=
  ITree.trigger (ParseE client body).

Definition await_create (client : OpenAI.Client) (body : Responses.CreateParams)
    : T Responses.Response :=
  ITree.trigger (CreateE client body).

(** *** The resolver (lines 38-91) *)

Definition checkErrors (tweet : Twitter.TweetV2SingleResult) : T unit :=
  match Twitter.errors tweet with
  | Some ((error0 :: _) as errors) =>
      let errorDetail := js_or (Twitter.detail error0) (Twitter.title error0) in
      console_error [VStr "Error fetching tweet:"; VOpt errorDetail; VErrors errors];;
      throw (new_Error ("Failed to fetch tweet: " +:+ template errorDetail))
  | _ => mret ()
  end.

Definition catchFetch (tweetId : string) (error : Thrown) : T TweetData :=
  let message := message_or "Unknown error" error in
  console_error [VStr ("Error fetching or processing tweet " +:+ tweetId +:+ " from API:");
                 VStr message; VThrown error];;
  throw (new_Error ("Failed to process tweet " +:+ tweetId +:+ ": " +:+ message)).

Definition tryFetch (readOnlyTwitterClient : Twitter.TwitterApiReadOnly)
    (tweetId : string) : T TweetData :=
  tweet ← await_singleTweet readOnlyTwitterClient tweetId lookupParams;
  checkErrors tweet;;
  match Twitter.data tweet with
  | None => throw (new_Error "Tweet data not found in API response.")
  | Some data =>
      let media := Twitter.includes tweet ≫= Twitter.media in
      let imageUrl := selectImageUrl media in
      (if negb (truthy_opt imageUrl)
       then console_warn [VStr ("Tweet " +:+ tweetId +:+
              " does not appear to contain a usable image URL (photo or video thumbnail).")]
       else mret ());;
      mret {| imageUrl := imageUrl; text := Some (Twitter.text data) |}
  end.

Definition fetchTweetData (readOnlyTwitterClient : Twitter.TwitterApiReadOnly)
    (tweetId : string) : T TweetData :=
  console_log [VStr ("Fetching tweet from Twitter API: " +:+ tweetId)];;
  try_catch (tryFetch readOnlyTwitterClient tweetId) (catchFetch tweetId).

(** *** The verifier (lines 96-140) *)

Definition catchAsk {A} (error : Thrown) : T A :=
  console_error [VStr "Error asking OpenAI:";
                 match error with JsError message => VStr message | _ => VThrown error end];;
  throw (new_Error ("Failed to get response from OpenAI about the image. " +:+
                    message_or "" error)).

Definition askOpenAIAboutImage (openai : OpenAI.Client) (imageUrl : string)
    : T (option (option OpenAI.VerificationResponse)) :=
  try_catch
    (result ← await_parse openai (parseBody imageUrl);
     mret (firstParsed result))
    catchAsk.

(** *** The top level (lines 16-36 and 154-181) *)

Definition requireOpenAIKey (env : gmap string string) : T string :=
  require_truthy (env !! "OPENAI_API_KEY")
    (console_error [VStr "Error: OPENAI_API_KEY is not set in the .env file."];;
     process_exit 1).

Definition requireTwitterToken (env : gmap string string) : T string :=
  require_truthy (env !! "TWITTER_BEARER_TOKEN")
    (console_error
       [VStr "Error: TWITTER_BEARER_TOKEN is not set in the .env file. This is required to fetch tweet data."];;
     process_exit 1).

Definition catchMain (error : Thrown) : T unit :=
  let errorMessage := message_or "An unknown error occurred" error in
  console_error [VStr "Error in main execution:"; VStr errorMessage; VThrown error];;
  process_exit 1.

Definition catchUnhandled (error : Thrown) : T unit :=
  let errorMessage := message_or "An unknown unhandled error" error in
  console_error [VStr "Unhandled error in main execution:"; VStr errorMessage;
                 VThrown error];;
  process_exit 1.

Definition main (openai : OpenAI.Client) (readOnlyTwitterClient : Twitter.TwitterApiReadOnly)
    : T unit :=
  console_log [VStr ("Processing Tweet ID: " +:+ TWEET_ID)];;
  try_catch
    (tweetData ← fetchTweetData readOnlyTwitterClient TWEET_ID;
     console_log [VStr ("Image URL: " +:+ template (imageUrl tweetData))];;
     imageUrl ← require_truthy (imageUrl tweetData) (throw noImageError);
     openAIResponse ← askOpenAIAboutImage openai imageUrl;
     console_log [VParsed openAIResponse])
    catchMain.

Definition run (openai : OpenAI.Client) (readOnlyTwitterClient : Twitter.TwitterApiReadOnly)
    : T unit :=
  try_catch (main openai readOnlyTwitterClient) catchUnhandled.

Definition program (env : gmap string string) : T unit :=
  apiKey ← requireOpenAIKey env;
  token ← requireTwitterToken env;
  let openai := new_OpenAI apiKey in
  let readOnlyTwitterClient := new_TwitterApi_readOnly token in
  run openai readOnlyTwitterClient.

(** *** The free-text variant ([src/unnamed/part_000]) *)

Module FreeText.

Definition new_OpenAI (apiKey : option string) : T OpenAI.Client :=
  if apiKey is None then throw FreeText.OpenAIError_missing_key
  else mret (FreeText.clientOf apiKey).

Definition firstContent (response : Responses.Response) : T (option string) :=
  match Responses.choices response with
  | Some choices =>
      mret ((head choices ≫= Responses.message) ≫= Responses.message_content)
  | None => throw FreeText.TypeError_reading_0
  end.

Definition askOpenAIAboutImage (openai : OpenAI.Client) (imageUrl question : string)
    : T (option string) :=
  try_catch
    (response ← await_create openai (FreeText.createBody question);
     firstContent response)
    catchAsk.

Definition reportNoResponse : T unit :=
  console_log [VStr "OpenAI did not provide a response."];;
  console_log [VStr ("Result for " +:+ dq +:+ FreeText.theQuestion +:+ dq +:+
                     ": false (no OpenAI response)")].

Definition report (openAIResponse : option string) : T unit :=
  match openAIResponse with
  | Some response =>
      if truthy response then
        console_log [VStr "OpenAI Response:"; VStr response];;
        let responseLower := toLowerCase response in
        match FreeText.classify responseLower with
        | Some result =>
            console_log [VStr (FreeText.theQuestion +:+ " " +:+ template_bool result)]
        | None =>
            console_log
              [VStr "Could not definitively determine the answer from OpenAI's response."];;
            console_log [VStr "Full OpenAI response:"; VStr response];;
            console_log
              [VStr ("Assuming 'false' due to ambiguous response for: " +:+
                     FreeText.theQuestion)]
        end
      else reportNoResponse
  | None => reportNoResponse
  end.

Definition catchMain (error : Thrown) : T unit :=
  let errorMessage := message_or "An unknown error occurred" error in
  console_error [VStr "Error in main execution:"; VStr errorMessage; VThrown error];;
  console_log [VStr ("Result for " +:+ dq +:+ FreeText.theQuestion +:+ dq +:+
                     ": false (due to error: " +:+ errorMessage +:+ ")")].

Definition main (openai : OpenAI.Client) (readOnlyTwitterClient : Twitter.TwitterApiReadOnly)
    : T unit :=
  console_log [VStr ("Processing Tweet ID: " +:+ FreeText.TWEET_ID)];;
  try_catch
    (tweetData ← fetchTweetData readOnlyTwitterClient FreeText.TWEET_ID;
     imageUrl ← require_truthy (imageUrl tweetData) (throw FreeText.noImageError);
     openAIResponse ← askOpenAIAboutImage openai imageUrl FreeText.question;
     report openAIResponse)
    catchMain.

Definition run (openai : OpenAI.Client) (readOnlyTwitterClient : Twitter.TwitterApiReadOnly)
    : T unit :=
  try_catch (main openai readOnlyTwitterClient) catchUnhandled.

Definition program (env : gmap string string) : T unit :=
  openai ← new_OpenAI (env !! "OPENAI_API_KEY");
  requireOpenAIKey env;;
  token ← requireTwitterToken env;
  let readOnlyTwitterClient := new_TwitterApi_readOnly token in
  run openai readOnlyTwitterClient.

End FreeText.

End Tree.

(** ** Running a tree against the vendors *)

(** [m] after the event [e]. *)
Definition cons_event {A} (e : Event) (m : M A) : M A := Run (e :: trace m) (outcome m).

(** The run of a tree against the vendors, within [n] events: a console
    event is recorded, a call is recorded and answered by the vendor, the
    end of the process ends the run. *)
Fixpoint eval `{TwitterService, OpenAIService, ResponsesService}
    (n : nat) {A} (t : T A) : option (M A) :=
  match observe t with
  | RetF r => Some (Run [] (settle r))
  | TauF t => if n is S n then eval n t else None
  | VisF e k =>
      if n is S n then
        match e in scriptE X return (X → T A) → option (M A) with
        | ConsoleE level args => λ k, cons_event (Console level args) <$> eval n (k ())
        | SingleTweetE c id p => λ k,
            cons_event (TwitterLookup c id p) <$> eval n (k (singleTweet_response c id p))
        | ParseE c body => λ k,
            cons_event (OpenAIParse c body) <$> eval n (k (parse_response c body))
        | CreateE c body => λ k,
            cons_event (OpenAICreate c body) <$> eval n (k (create_response c body))
        | ExitE code => λ _, Some (Run [] (Exited code))
        end k
      else None
  end.

(** [t] runs to [m] within [n] steps. *)
Definition Conv `{TwitterService, OpenAIService, ResponsesService} {A}
    (n : nat) (t : T A) (m : M A) : Prop :=
  eval n t = Some m.

(** What follows a computation that ended: [k] sees how it settled. *)
Definition andThen {A B} (m : M A) (k : Thrown + A → M B) : M B :=
  match outcome m with
  | Returned a => Run (trace m ++ trace (k (inr a))) (outcome (k (inr a)))
  | Threw e => Run (trace m ++ trace (k (inl e))) (outcome (k (inl e)))
  | Exited code => Run (trace m) (Exited code)
  end.

(** ** The evaluator *)

Section eval.
Context `{TwitterService, OpenAIService, ResponsesService}.

Lemma eval_unfold {A} (n : nat) (t : T A) :
  eval n t =
  match observe t with
  | RetF r => Some (Run [] (settle r))
  | TauF t => if n is S n then eval n t else None
  | VisF e k =>
      if n is S n then
        match e in scriptE X return (X → T A) → option (M A) with
        | ConsoleE level args => λ k, cons_event (Console level args) <$> eval n (k ())
        | SingleTweetE c id p => λ k,
            cons_event (TwitterLookup c id p) <$> eval n (k (singleTweet_response c id p))
        | ParseE c body => λ k,
            cons_event (OpenAIParse c body) <$> eval n (k (parse_response c body))
        | CreateE c body => λ k,
            cons_event (OpenAICreate c body) <$> eval n (k (create_response c body))
        | ExitE code => λ _, Some (Run [] (Exited code))
        end k
      else None
  end.
Proof. by destruct n. Qed.

(** [eval] looks at a tree through [observe]. *)
Lemma eval_observe {A} (n : nat) (t t' : T A) :
  observe t = observe t' → eval n t = eval n t'.
Proof. intros Ht. by rewrite !eval_unfold, Ht. Qed.

(** More steps change nothing. *)
Lemma eval_mono {A} (n n' : nat) (t : T A) (m : M A) :
  eval n t = Some m → n ≤ n' → eval n' t = Some m.
Proof.
  revert n' t m. induction n as [|n IH]; intros n' t m.
  { rewrite !eval_unfold. by destruct (observe t). }
  destruct n' as [|n']; [lia|]. rewrite !eval_unfold. intros Hm Hn.
  destruct (observe t) as [r|t'|X e k]; [done|apply IH; [done|lia]|].
  destruct e; [| | | |done];
    (destruct (eval n (k _)) as [m0|] eqn:Hm0; [|done]);
    by rewrite (IH n' _ m0 Hm0) by lia.
Qed.

Lemma cons_event_andThen {A B} (e : Event) (m : M A) (k : Thrown + A → M B) :
  cons_event e (andThen m k) = andThen (cons_event e m) k.
Proof. unfold andThen, cons_event. simpl. by destruct (outcome m). Qed.

Lemma andThen_settle {A B} (r : Thrown + A) (G : Thrown + A → M B) :
  andThen (Run [] (settle r)) G = G r.
Proof. unfold andThen. destruct r; simpl; by destruct (G _). Qed.

(** Sequencing of trees is sequencing of runs, and the steps add up. *)
Lemma eval_bind {A B} (n n' : nat) (t : T A) (g : Thrown + A → T B)
    (m : M A) (G : Thrown + A → M B) :
  eval n t = Some m →
  (∀ r, settle r = outcome m → eval n' (g r) = Some (G r)) →
  eval (n + n') (ITree.bind t g) = Some (andThen m G).
Proof.
  revert t m. induction n as [|n IH]; intros t m Hm HG;
    rewrite eval_unfold in Hm; destruct (observe t) as [r|t'|X e k] eqn:Ht; try done.
  1,2: injection Hm as <-; rewrite andThen_settle;
    rewrite (eval_observe _ _ (g r)) by (by rewrite observe_bind, Ht);
    apply (eval_mono n'); [by apply HG|lia].
  all: rewrite Nat.add_succ_l, (eval_unfold _ (ITree.bind t g)), observe_bind, Ht;
    cbn [observe _observe].
  - by apply IH.
  - destruct e; [| | | |by injection Hm as <-];
      (destruct (eval n (k _)) as [m0|] eqn:Hm0; [|done]);
      injection Hm as <-; rewrite (IH _ m0 Hm0) by done; simpl;
      by rewrite cons_event_andThen.
Qed.

(** ** The rules *)

Lemma conv_mono {A} (n n' : nat) (t : T A) (m : M A) :
  Conv n t m → n ≤ n' → Conv n' t m.
Proof. apply eval_mono. Qed.

Lemma conv_ret {A} (a : A) : Conv 0 (mret a) (mret a).
Proof. done. Qed.

Lemma conv_throw {A} (e : Thrown) : Conv (A:=A) 0 (Tree.throw e) (throw e).
Proof. done. Qed.

Lemma conv_exit {A} (code : Z) : Conv (A:=A) 1 (Tree.process_exit code) (process_exit code).
Proof. done. Qed.

Lemma conv_console (level : Level) (args : list JsVal) :
  Conv 1 (Tree.console level args) (console level args).
Proof. done. Qed.

Lemma conv_await_singleTweet (client : Twitter.TwitterApiReadOnly) (tweetId : string)
    (params : Twitter.LookupParams) :
  Conv 1 (Tree.await_singleTweet client tweetId params)
         (await_singleTweet client tweetId params).
Proof. done. Qed.

Lemma conv_await_parse (client : OpenAI.Client) (body : OpenAI.ParseParams) :
  Conv 1 (Tree.await_parse client body) (await_parse client body).
Proof. done. Qed.

Lemma conv_await_create (client : OpenAI.Client) (body : Responses.CreateParams) :
  Conv 1 (Tree.await_create client body) (await_create client body).
Proof. done. Qed.

Lemma conv_bind {A B} (n n' : nat) (t : T A) (k : A → T B) (m : M A) (f : A → M B) :
  Conv n t m → (∀ a, Conv n' (k a) (f a)) → Conv (n + n') (t ≫= k) (m ≫= f).
Proof.
  intros Hm Hk. unfold Conv, mbind, T_bind.
  rewrite (eval_bind n n' t _ m (λ r, match r with inl e => throw e | inr a => f a end));
    [|done|by intros [e|a] _; [destruct n'|apply Hk]].
  unfold andThen, M_bind. destruct (outcome m); [done| |done]. by rewrite app_nil_r.
Qed.

Lemma conv_try_catch {A} (n n' : nat) (t : T A) (h : Thrown → T A) (m : M A)
    (g : Thrown → M A) :
  Conv n t m → (∀ e, Conv n' (h e) (g e)) →
  Conv (n + n') (Tree.try_catch t h) (try_catch m g).
Proof.
  intros Hm Hh. unfold Conv, Tree.try_catch.
  rewrite (eval_bind n n' t _ m (λ r, match r with inl e => g e | inr a => mret a end));
    [|done|by intros [e|a] _; [apply Hh|destruct n']].
  unfold andThen, try_catch. destruct m as [t0 [a|e|code]]; simpl; [|done..].
  by rewrite app_nil_r.
Qed.

Lemma conv_if {A} (n1 n2 : nat) (b : bool) (t1 t2 : T A) (m1 m2 : M A) :
  Conv n1 t1 m1 → Conv n2 t2 m2 →
  Conv (n1 `max` n2) (if b then t1 else t2) (if b then m1 else m2).
Proof. destruct b; intros ??; eapply conv_mono; eauto with lia. Qed.

Lemma conv_option {A B} (n1 n2 : nat) (o : option B) (t1 : T A) (t2 : B → T A)
    (m1 : M A) (m2 : B → M A) :
  Conv n1 t1 m1 → (∀ b, Conv n2 (t2 b) (m2 b)) →
  Conv (n1 `max` n2) (match o with None => t1 | Some b => t2 b end)
                     (match o with None => m1 | Some b => m2 b end).
Proof. destruct o; intros ??; eapply conv_mono; eauto with lia. Qed.

Lemma conv_never {A} (n : nat) (t : T Empty_set) (m : M Empty_set) :
  Conv n t m → Conv (A:=A) n (Tree.never t) (never m).
Proof.
  intros Hm. rewrite <-(Nat.add_0_r n). apply conv_bind; [done|]. by intros [].
Qed.

Lemma conv_require_truthy (n : nat) (value : option string) (t : T Empty_set)
    (m : M Empty_set) :
  Conv n t m → Conv n (Tree.require_truthy value t) (require_truthy value m).
Proof.
  intros Hm. unfold Tree.require_truthy, require_truthy.
  destruct value as [s|]; [destruct (truthy s)|]; try by apply conv_never.
  eapply conv_mono; [apply conv_ret|lia].
Qed.

End eval.

Create HintDb conv discriminated.
#[export] Hint Resolve conv_ret conv_throw conv_exit conv_console
  conv_await_singleTweet conv_await_parse conv_await_create : conv.

(** [conv_step] applies the rule for the head of the tree; [conv] proves
    that a tree runs to the computation of the same text within the given
    number of steps. *)
Ltac conv_step :=
  lazymatch goal with
  | |- Conv _ (mbind _ _) _ => eapply conv_bind; [|intros ?]
  | |- Conv _ (Tree.try_catch _ _) _ => eapply conv_try_catch; [|intros ?]
  | |- Conv _ (Tree.require_truthy _ _) _ => eapply conv_require_truthy
  | |- Conv _ (if _ then _ else _) _ => eapply conv_if
  | |- Conv _ (match _ with None => _ | Some _ => _ end) _ => eapply conv_option; [|intros ?]
  | |- Conv _ _ _ => solve [eauto with conv]
  end.
Ltac conv := eapply conv_mono; [repeat conv_step|cbn; lia].

(** ** Adequacy, function by function *)

Section adequacy.
Context `{TwitterService, OpenAIService, ResponsesService}.

Lemma checkErrors_conv (tweet : Twitter.TweetV2SingleResult) :
  Conv 1 (Tree.checkErrors tweet) (checkErrors tweet).
Proof.
  unfold Tree.checkErrors, checkErrors.
  destruct (Twitter.errors tweet) as [[|error0 errors]|]; conv.
Qed.

Lemma catchFetch_conv (tweetId : string) (error : Thrown) :
  Conv 1 (Tree.catchFetch tweetId error) (catchFetch tweetId error).
Proof. unfold Tree.catchFetch, catchFetch. conv. Qed.

#[local] Hint Resolve checkErrors_conv catchFetch_conv : conv.

Lemma tryFetch_conv (client : Twitter.TwitterApiReadOnly) (tweetId : string) :
  Conv 3 (Tree.tryFetch client tweetId) (tryFetch client tweetId).
Proof. unfold Tree.tryFetch, tryFetch. conv. Qed.

#[local] Hint Resolve tryFetch_conv : conv.

Lemma fetchTweetData_conv (client : Twitter.TwitterApiReadOnly) (tweetId : string) :
  Conv 5 (Tree.fetchTweetData client tweetId) (fetchTweetData client tweetId).
Proof. unfold Tree.fetchTweetData, fetchTweetData. conv. Qed.

Lemma catchAsk_conv {A} (error : Thrown) :
  Conv (A:=A) 1 (Tree.catchAsk error) (catchAsk error).
Proof. unfold Tree.catchAsk, catchAsk. conv. Qed.

#[local] Hint Resolve fetchTweetData_conv catchAsk_conv : conv.

Lemma askOpenAIAboutImage_conv (openai : OpenAI.Client) (imageUrl : string) :
  Conv 2 (Tree.askOpenAIAboutImage openai imageUrl) (askOpenAIAboutImage openai imageUrl).
Proof. unfold Tree.askOpenAIAboutImage, askOpenAIAboutImage. conv. Qed.

Lemma catchMain_conv (error : Thrown) : Conv 2 (Tree.catchMain error) (catchMain error).
Proof. unfold Tree.catchMain, catchMain. conv. Qed.

Lemma catchUnhandled_conv (error : Thrown) :
  Conv 2 (Tree.catchUnhandled error) (catchUnhandled error).
Proof. unfold Tree.catchUnhandled, catchUnhandled. conv. Qed.

#[local] Hint Resolve askOpenAIAboutImage_conv catchMain_conv catchUnhandled_conv : conv.

Lemma main_conv (openai : OpenAI.Client) (client : Twitter.TwitterApiReadOnly) :
  Conv 12 (Tree.main openai client) (main openai client).
Proof. unfold Tree.main, main. conv. Qed.

#[local] Hint Resolve main_conv : conv.

Lemma run_conv (openai : OpenAI.Client) (client : Twitter.TwitterApiReadOnly) :
  Conv 14 (Tree.run openai client) (run openai client).
Proof. unfold Tree.run, run. conv. Qed.

#[local] Hint Resolve run_conv : conv.

Lemma program_conv (env : gmap string string) :
  Conv 18 (Tree.program env) (program env).
Proof.
  unfold Tree.program, program, Tree.requireOpenAIKey, requireOpenAIKey,
    Tree.requireTwitterToken, requireTwitterToken.
  conv.
Qed.

(** *** The free-text variant *)

Lemma new_OpenAI_conv (apiKey : option string) :
  Conv 0 (Tree.FreeText.new_OpenAI apiKey) (FreeText.new_OpenAI apiKey).
Proof. destruct apiKey; conv. Qed.

Lemma firstContent_conv (response : Responses.Response) :
  Conv 0 (Tree.FreeText.firstContent response) (FreeText.firstContent response).
Proof. unfold Tree.FreeText.firstContent, FreeText.firstContent. conv. Qed.

#[local] Hint Resolve new_OpenAI_conv firstContent_conv : conv.

Lemma freetext_ask_conv (openai : OpenAI.Client) (imageUrl question : string) :
  Conv 2 (Tree.FreeText.askOpenAIAboutImage openai imageUrl question)
         (FreeText.askOpenAIAboutImage openai imageUrl question).
Proof. unfold Tree.FreeText.askOpenAIAboutImage, FreeText.askOpenAIAboutImage. conv. Qed.

Lemma reportNoResponse_conv :
  Conv 2 Tree.FreeText.reportNoResponse FreeText.reportNoResponse.
Proof. unfold Tree.FreeText.reportNoResponse, FreeText.reportNoResponse. conv. Qed.

#[local] Hint Resolve freetext_ask_conv reportNoResponse_conv : conv.

Lemma report_conv (openAIResponse : option string) :
  Conv 4 (Tree.FreeText.report openAIResponse) (FreeText.report openAIResponse).
Proof. unfold Tree.FreeText.report, FreeText.report. conv. Qed.

Lemma freetext_catchMain_conv (error : Thrown) :
  Conv 2 (Tree.FreeText.catchMain error) (FreeText.catchMain error).
Proof. unfold Tree.FreeText.catchMain, FreeText.catchMain. conv. Qed.

#[local] Hint Resolve report_conv freetext_catchMain_conv : conv.

Lemma freetext_main_conv (openai : OpenAI.Client) (client : Twitter.TwitterApiReadOnly) :
  Conv 14 (Tree.FreeText.main openai client) (FreeText.main openai client).
Proof. unfold Tree.FreeText.main, FreeText.main, FreeText.fetchTweetData. conv. Qed.

#[local] Hint Resolve freetext_main_conv : conv.

Lemma freetext_run_conv (openai : OpenAI.Client) (client : Twitter.TwitterApiReadOnly) :
  Conv 16 (Tree.FreeText.run openai client) (FreeText.run openai client).
Proof. unfold Tree.FreeText.run, FreeText.run. conv. Qed.

#[local] Hint Resolve freetext_run_conv : conv.

Lemma freetext_program_conv (env : gmap string string) :
  Conv 20 (Tree.FreeText.program env) (FreeText.program env).
Proof.
  unfold Tree.FreeText.program, FreeText.program, Tree.requireOpenAIKey, requireOpenAIKey,
    Tree.requireTwitterToken, requireTwitterToken.
  conv.
Qed.

End adequacy.

(** ** The bound *)

(** The longest run of the script needs eight steps: seven events and the
    end of the process. *)
Example program_tree_steps :
  eval (H:=Mock.twitter (inr Main.Example.videoTweet))
       (H0:=Mock.openai (inl (JsError "overloaded")))
       (H1:=Mock.responses (inl (JsError "unused"))) 7 (Tree.program Main.Example.env) =
  None ∧
  eval (H:=Mock.twitter (inr Main.Example.videoTweet))
       (H0:=Mock.openai (inl (JsError "overloaded")))
       (H1:=Mock.responses (inl (JsError "unused"))) 8 (Tree.program Main.Example.env) =
  Some (program (H:=Mock.twitter (inr Main.Example.videoTweet))
          (H0:=Mock.openai (inl (JsError "overloaded"))) Main.Example.env).
Proof. split; vm_compute; reflexivity. Qed.
