(* ===== verification/Environment.v ===== *)
(** * Environment: the script in an environment that answers as it likes

    The files before this one run the script against vendors that are
    functions of the request: the same request has the same answer.  The
    services the script calls promise no such thing.  This file takes the
    script as the interaction tree of [Interaction] and lets the environment
    answer every call with any settled promise.

    A run is then a history: the lines on the console and the calls in
    order, every call with what it was answered ([IO]), and how the script
    ended.  [runs t h o] is the relation between a tree, a history and an
    outcome; [history] computes the run against given vendors.  The
    theorems show that the script terminates in every environment (the
    library's [all_finite]), that the answers determine the run, and that
    every run in an arbitrary environment is a run of [program] of [Main]
    against the vendors read off the history, because the script puts each
    question at most once: what the development proves of [program] for all
    vendors holds of every run of the script.  [reaches] is the script at
    work, with a call that may never be answered: the calls made so far
    are always those the design allows ([ScriptCalls], [FreeTextCalls]),
    and a script that has not ended waits for the answer to its last
    call.  [answerIn] is what the model answered in a history: a run ends
    normally exactly when there is such an answer, and prints the object
    parsed in it. *)

From ITree Require Import ITree ITreeFacts Props.Finite.
From stdpp Require Import gmap.
From S2P Require Import Prelude JsString Api JsRuntime Resolver Verifier Main Legacy.
From S2P Require Import Report Interaction.

(** ** Histories *)

(** The first node of a computation: how it settled, or what it asks of
    the environment with what follows the answer. *)
Variant Node (A : Type) : Type :=
| NRet (r : Thrown + A)
| NTau (t : T A)
| NConsole (level : Level) (args : list JsVal) (k : T A)
| NLookup (client : Twitter.TwitterApiReadOnly) (tweetId : string)
    (params : Twitter.LookupParams) (k : Thrown + Twitter.TweetV2SingleResult → T A)
| NParse (client : OpenAI.Client) (body : OpenAI.ParseParams)
    (k : Thrown + OpenAI.ParsedChatCompletion → T A)
| NCreate (client : OpenAI.Client) (body : Responses.CreateParams)
    (k : Thrown + Responses.Response → T A)
| NExit (code : Z).
Arguments NRet {A}.
Arguments NTau {A}.
Arguments NConsole {A}.
Arguments NLookup {A}.
Arguments NParse {A}.
Arguments NCreate {A}.
Arguments NExit {A}.

Definition node {A} (t : T A) : Node A :=
  match observe t with
  | RetF r => NRet r
  | TauF t => NTau t
  | VisF e k =>
      match e in scriptE X return (X → T A) → Node A with
      | ConsoleE level args => λ k, NConsole level args (k ())
      | SingleTweetE c id p => λ k, NLookup c id p k
      | ParseE c body => λ k, NParse c body k
      | CreateE c body => λ k, NCreate c body k
      | ExitE code => λ _, NExit code
      end k
  end.

(** An event with what the environment answered. *)
Inductive IO :=
| IOConsole (level : Level) (args : list JsVal)
| IOLookup (client : Twitter.TwitterApiReadOnly) (tweetId : string)
    (params : Twitter.LookupParams) (answer : Thrown + Twitter.TweetV2SingleResult)
| IOParse (client : OpenAI.Client) (body : OpenAI.ParseParams)
    (answer : Thrown + OpenAI.ParsedChatCompletion)
| IOCreate (client : OpenAI.Client) (body : Responses.CreateParams)
    (answer : Thrown + Responses.Response).

Definition eventOf (io : IO) : Event :=
  match io with
  | IOConsole level args => Console level args
  | IOLookup c id p _ => TwitterLookup c id p
  | IOParse c body _ => OpenAIParse c body
  | IOCreate c body _ => OpenAICreate c body
  end.

(** The runs of a computation: the environment answers a call with any
    settled promise. *)
Inductive runs {A} : T A → list IO → Outcome A → Prop :=
| runs_ret t r :
    node t = NRet r → runs t [] (settle r)
| runs_tau t t' h o :
    node t = NTau t' → runs t' h o → runs t h o
| runs_console t level args k h o :
    node t = NConsole level args k → runs k h o →
    runs t (IOConsole level args :: h) o
| runs_lookup t c id p k answer h o :
    node t = NLookup c id p k → runs (k answer) h o →
    runs t (IOLookup c id p answer :: h) o
| runs_parse t c body k answer h o :
    node t = NParse c body k → runs (k answer) h o →
    runs t (IOParse c body answer :: h) o
| runs_create t c body k answer h o :
    node t = NCreate c body k → runs (k answer) h o →
    runs t (IOCreate c body answer :: h) o
| runs_exit t code :
    node t = NExit code → runs t [] (Exited code).

(** The script at work: [reaches t h t'] when [t] makes the history [h]
    and goes on as [t'].  The call that [t'] may be waiting for has no
    answer yet, and need never get one. *)
Inductive reaches {A} : T A → list IO → T A → Prop :=
| reaches_here t :
    reaches t [] t
| reaches_tau t t' h t'' :
    node t = NTau t' → reaches t' h t'' → reaches t h t''
| reaches_console t level args k h t'' :
    node t = NConsole level args k → reaches k h t'' →
    reaches t (IOConsole level args :: h) t''
| reaches_lookup t c id p k answer h t'' :
    node t = NLookup c id p k → reaches (k answer) h t'' →
    reaches t (IOLookup c id p answer :: h) t''
| reaches_parse t c body k answer h t'' :
    node t = NParse c body k → reaches (k answer) h t'' →
    reaches t (IOParse c body answer :: h) t''
| reaches_create t c body k answer h t'' :
    node t = NCreate c body k → reaches (k answer) h t'' →
    reaches t (IOCreate c body answer :: h) t''.

(** The calls of a history, with their answers. *)
Definition callsOf (h : list IO) : list IO := filter (λ io, is_network (eventOf io)) h.

(** The calls the script may have made, at any time of a run: none, the
    lookup, or the lookup and then the question about the image that the
    precedence rules select from the answer to the lookup. *)
Inductive ScriptCalls (env : gmap string string) : list IO → Prop :=
| calls_none :
    ScriptCalls env []
| calls_lookup tweet :
    ScriptCalls env [IOLookup (twitterOf env) TWEET_ID lookupParams tweet]
| calls_parse tweet tweetData imageUrl answer :
    resolve tweet = inr tweetData → tweetData.(Resolver.imageUrl) = Some imageUrl →
    ScriptCalls env [IOLookup (twitterOf env) TWEET_ID lookupParams tweet;
                     IOParse (openaiOf env) (parseBody imageUrl) answer].

(** What the model answered in a history: the completion that settled the
    question put after the lookup, when there is one. *)
Definition answerIn (h : list IO) : option OpenAI.ParsedChatCompletion :=
  match callsOf h with
  | [IOLookup _ _ _ _; IOParse _ _ (inr result)] => Some result
  | _ => None
  end.

(** The calls of the free-text variant: its question is the same for
    every image. *)
Inductive FreeTextCalls (env : gmap string string) : list IO → Prop :=
| freetext_calls_none :
    FreeTextCalls env []
| freetext_calls_lookup tweet :
    FreeTextCalls env [IOLookup (twitterOf env) FreeText.TWEET_ID lookupParams tweet]
| freetext_calls_create tweet tweetData imageUrl answer :
    resolve tweet = inr tweetData → tweetData.(Resolver.imageUrl) = Some imageUrl →
    FreeTextCalls env
      [IOLookup (twitterOf env) FreeText.TWEET_ID lookupParams tweet;
       IOCreate (FreeText.clientOf (env !! "OPENAI_API_KEY"))
         (FreeText.createBody FreeText.question) answer].

(** [m] after [io]. *)
Definition cons_io {A} (io : IO) (ho : list IO * Outcome A) : list IO * Outcome A :=
  (io :: ho.1, ho.2).

(** The run against the vendors, with its answers, within [n] events. *)
Fixpoint history `{TwitterService, OpenAIService, ResponsesService}
    (n : nat) {A} (t : T A) : option (list IO * Outcome A) :=
  match node t with
  | NRet r => Some ([], settle r)
  | NTau t => if n is S n then history n t else None
  | NConsole level args k =>
      if n is S n then cons_io (IOConsole level args) <$> history n k else None
  | NLookup c id p k =>
      if n is S n then
        let answer := singleTweet_response c id p in
        cons_io (IOLookup c id p answer) <$> history n (k answer)
      else None
  | NParse c body k =>
      if n is S n then
        let answer := parse_response c body in
        cons_io (IOParse c body answer) <$> history n (k answer)
      else None
  | NCreate c body k =>
      if n is S n then
        let answer := create_response c body in
        cons_io (IOCreate c body answer) <$> history n (k answer)
      else None
  | NExit code => if n is S n then Some ([], Exited code) else None
  end.

(** The run that a history and an outcome stand for. *)
Definition runOf {A} (ho : list IO * Outcome A) : M A := Run (eventOf <$> ho.1) ho.2.

(** [io] is a line, or a call with the answer of the vendor. *)
Definition Answered `{TwitterService, OpenAIService, ResponsesService} (io : IO) : Prop :=
  match io with
  | IOConsole _ _ => True
  | IOLookup c id p answer => answer = singleTweet_response c id p
  | IOParse c body answer => answer = parse_response c body
  | IOCreate c body answer => answer = create_response c body
  end.

(** ** The vendors of a history *)

Definition lookupOf (io : IO) : option (Thrown + Twitter.TweetV2SingleResult) :=
  if io is IOLookup _ _ _ answer then Some answer else None.

Definition parseOf (io : IO) : option (Thrown + OpenAI.ParsedChatCompletion) :=
  if io is IOParse _ _ answer then Some answer else None.

Definition createOf (io : IO) : option (Thrown + Responses.Response) :=
  if io is IOCreate _ _ answer then Some answer else None.

(** The first answer of a kind in a history; a vendor that was not asked
    may answer anything. *)
Definition firstAnswer {B} (f : IO → option (Thrown + B)) (h : list IO) : Thrown + B :=
  default (inl (JsError "not asked")) (head (omap f h)).

(** The vendors that answer as the environment did in [h]. *)
Definition twitterIn (h : list IO) : TwitterService := Mock.twitter (firstAnswer lookupOf h).
Definition openaiIn (h : list IO) : OpenAIService := Mock.openai (firstAnswer parseOf h).
Definition responsesIn (h : list IO) : ResponsesService :=
  Mock.responses (firstAnswer createOf h).

(** The vendor behind an event. *)
Variant Vendor := Lookup | Parse | Create.

#[export] Instance Vendor_eq_dec : EqDecision Vendor.
Proof. solve_decision. Defined.

Definition vendorOf (e : Event) : option Vendor :=
  match e with
  | Console _ _ => None
  | TwitterLookup _ _ _ => Some Lookup
  | OpenAIParse _ _ => Some Parse
  | OpenAICreate _ _ => Some Create
  end.

(** No vendor is called twice in [t]. *)
Definition AskedOnce (t : list Event) : Prop := NoDup (omap vendorOf t).

#[export] Instance AskedOnce_dec (t : list Event) : Decision (AskedOnce t).
Proof. unfold AskedOnce. apply _. Defined.

(** ** Examples *)

Module Example.

(** The environment answers the lookup with a tweet that has a video with
    a poster, and the question with a verdict. *)
Definition happy : list IO :=
  [IOConsole Log [VStr "Processing Tweet ID: 1921299860000518230"];
   IOConsole Log [VStr "Fetching tweet from Twitter API: 1921299860000518230"];
   IOLookup (twitterOf Main.Example.env) TWEET_ID lookupParams (inr Main.Example.videoTweet);
   IOConsole Log [VStr "Image URL: poster.jpg"];
   IOParse (openaiOf Main.Example.env) (parseBody "poster.jpg") (inr Main.Example.hat);
   IOConsole Log [VResponse Verifier.Example.verdict]].

(** The environment refuses the lookup. *)
Definition rateLimited : list IO :=
  [IOConsole Log [VStr "Processing Tweet ID: 1921299860000518230"];
   IOConsole Log [VStr "Fetching tweet from Twitter API: 1921299860000518230"];
   IOLookup (twitterOf Main.Example.env) TWEET_ID lookupParams (inl (JsError "rate limit"));
   IOConsole Error
     [VStr "Error fetching or processing tweet 1921299860000518230 from API:";
      VStr "rate limit"; VThrown (JsError "rate limit")];
   IOConsole Error
     [VStr "Error in main execution:";
      VStr "Failed to process tweet 1921299860000518230: rate limit";
      VThrown (JsError "Failed to process tweet 1921299860000518230: rate limit")]].

(** A lookup that is tried again when it fails, which the script does not
    do, and a run of it in an environment that refuses the first call and
    answers the second. *)
Definition lookupAgain (client : Twitter.TwitterApiReadOnly) (tweetId : string)
    : T Twitter.TweetV2SingleResult :=
  Tree.try_catch (Tree.await_singleTweet client tweetId lookupParams)
    (λ _, Tree.await_singleTweet client tweetId lookupParams).

Definition recovered (client : Twitter.TwitterApiReadOnly) (tweetId : string) : list IO :=
  [IOLookup client tweetId lookupParams (inl (JsError "rate limit"));
   IOLookup client tweetId lookupParams (inr Main.Example.videoTweet)].

End Example.

(** ** The run against the vendors *)

Section history.
Context `{TwitterService, OpenAIService, ResponsesService}.

Lemma history_unfold {A} (n : nat) (t : T A) :
  history n t =
  match node t with
  | NRet r => Some ([], settle r)
  | NTau t => if n is S n then history n t else None
  | NConsole level args k =>
      if n is S n then cons_io (IOConsole level args) <$> history n k else None
  | NLookup c id p k =>
      if n is S n then
        cons_io (IOLookup c id p (singleTweet_response c id p)) <$>
          history n (k (singleTweet_response c id p))
      else None
  | NParse c body k =>
      if n is S n then
        cons_io (IOParse c body (parse_response c body)) <$>
          history n (k (parse_response c body))
      else None
  | NCreate c body k =>
      if n is S n then
        cons_io (IOCreate c body (create_response c body)) <$>
          history n (k (create_response c body))
      else None
  | NExit code => if n is S n then Some ([], Exited code) else None
  end.
Proof. by destruct n. Qed.

(** [eval] is [history] without the answers. *)
Lemma eval_history {A} (n : nat) (t : T A) : eval n t = runOf <$> history n t.
Proof.
  revert t. induction n as [|n IH]; intros t;
    rewrite eval_unfold, history_unfold; unfold node;
    destruct (observe t) as [r|t'|X e k]; try done; destruct e; try done;
    rewrite IH; by destruct (history n _).
Qed.

Lemma cons_io_Some {A} (io : IO) (x : option (list IO * Outcome A)) (h : list IO)
    (o : Outcome A) :
  cons_io io <$> x = Some (h, o) ↔ ∃ h0, x = Some (h0, o) ∧ h = io :: h0.
Proof.
  unfold cons_io. destruct x as [[h0 o0]|]; simpl; [|by split; [|intros (?&?&?)]].
  split; [intros [= <- <-]; eauto|by intros (?&[= -> ->]&->)].
Qed.

(** The run against the vendors is a run, and the vendors answered it. *)
Lemma history_runs {A} (n : nat) (t : T A) (h : list IO) (o : Outcome A) :
  history n t = Some (h, o) → runs t h o ∧ Forall Answered h.
Proof.
  revert t h o. induction n as [|n IH]; intros t h o; rewrite history_unfold;
    destruct (node t) eqn:Ht; try done;
    try (intros (h0 & [??]%IH & ->)%cons_io_Some; split; [by econstructor|by constructor]);
    try (intros [= <- <-]; split; [by econstructor|done]).
  intros [??]%IH. split; [by eapply runs_tau|done].
Qed.

End history.

(** ** Runs *)

(** Two views of the first node of one tree are the same. *)
Ltac same_node :=
  repeat match goal with
  | H1 : node ?t = _, H2 : node ?t = _ |- _ => rewrite H1 in H2; simplify_eq H2; clear H2; intros
  end; simplify_eq/=.

Lemma prefix_snoc_cons {X} (p : list X) (x y : X) (l : list X) :
  (p ++ [x]) `prefix_of` (y :: l) →
  (p = [] ∧ x = y) ∨ (∃ p', p = y :: p' ∧ (p' ++ [x]) `prefix_of` l).
Proof.
  destruct p as [|z p]; simpl; intros Hp; pose proof (prefix_cons_inv_1 _ _ _ _ Hp) as ->.
  - by left.
  - right. exists p. split; [done|]. by apply prefix_cons_inv_2 in Hp.
Qed.

Section runs.
Context `{TwitterService, OpenAIService, ResponsesService}.

(** The answers of the vendors determine the run. *)
Lemma runs_answered_unique {A} (t : T A) (h h' : list IO) (o o' : Outcome A) :
  runs t h o → runs t h' o' → Forall Answered h → Forall Answered h' →
  h = h' ∧ o = o'.
Proof.
  intros Hr. revert h' o'.
  induction Hr as [t r Ht|t t' h o Ht Hr IH|t l a k h o Ht Hr IH|t c id p k r h o Ht Hr IH
                  |t c b k r h o Ht Hr IH|t c b k r h o Ht Hr IH|t code Ht];
    intros h' o' Hr' Hh Hh'; inversion Hr'; same_node; try done;
    try (by apply IH);
    apply Forall_cons in Hh as [Ha Hh]; apply Forall_cons in Hh' as [Ha' Hh'];
    simpl in Ha, Ha'; subst;
    by edestruct IH as [-> ->].
Qed.

(** A run that the vendors answered is the run against the vendors. *)
Lemma runs_history {A} (t : T A) (h : list IO) (o : Outcome A) :
  runs t h o → Forall Answered h → ∃ n, history n t = Some (h, o).
Proof.
  induction 1 as [t r Ht|t t' h o Ht Hr IH|t l a k h o Ht Hr IH|t c id p k r h o Ht Hr IH
                  |t c b k r h o Ht Hr IH|t c b k r h o Ht Hr IH|t code Ht]; intros Hh.
  1,7: by exists 1; rewrite history_unfold, Ht.
  1: destruct (IH Hh) as [n Hn]; exists (S n); by rewrite history_unfold, Ht.
  all: apply Forall_cons in Hh as [Ha Hh]; simpl in Ha; subst;
    destruct (IH Hh) as [n Hn]; exists (S n); by rewrite history_unfold, Ht, Hn.
Qed.

(** As long as the environment answers as the vendors do, its run goes the
    way of the run against the vendors, the first call that is answered
    otherwise included. *)
Lemma runs_agree {A} (t : T A) (h : list IO) (o : Outcome A) :
  runs t h o → ∀ n h' o' p io,
  history n t = Some (h', o') → (p ++ [io]) `prefix_of` h → Forall Answered p →
  (eventOf <$> p ++ [io]) `prefix_of` (eventOf <$> h').
Proof.
  induction 1 as [t r Ht|t t' h o Ht Hr IH|t l a k h o Ht Hr IH|t c id p k r h o Ht Hr IH
                  |t c b k r h o Ht Hr IH|t c b k r h o Ht Hr IH|t code Ht];
    intros n h' o' q io; rewrite history_unfold, Ht; intros Hh Hq Ha.
  1,7: by apply prefix_nil_inv, app_nil in Hq as [_ ?].
  1: destruct n; [done|by eapply IH].
  all: destruct n; [done|]; apply cons_io_Some in Hh as (h0 & Hk & ->);
    apply prefix_snoc_cons in Hq as [[-> ->]|(q' & -> & Hq)];
    [apply prefix_cons, prefix_nil|];
    apply Forall_cons in Ha as [Hio Ha]; simpl in Hio; subst;
    rewrite !fmap_cons; apply prefix_cons; by eapply IH.
Qed.

(** A computation that is finite along all its branches runs to its end
    against every vendor. *)
Lemma all_finite_history {A} (t : T A) : all_finite t → ∃ n ho, history n t = Some ho.
Proof.
  induction 1 as [r t Ht|t u Ht _ [n [ho Hn]]|X e t k Ht _ IH].
  - exists 0, ([], settle r). by rewrite history_unfold; unfold node; rewrite Ht.
  - exists (S n), ho. by rewrite history_unfold; unfold node; rewrite Ht.
  - destruct e as [l a|c id p|c b|c b|code];
      [destruct (IH ()) as (n & ho & Hn)
      |destruct (IH (singleTweet_response c id p)) as (n & ho & Hn)
      |destruct (IH (parse_response c b)) as (n & ho & Hn)
      |destruct (IH (create_response c b)) as (n & ho & Hn)
      |exists 1; eexists; by rewrite history_unfold; unfold node; rewrite Ht];
      exists (S n); eexists; rewrite history_unfold; unfold node; rewrite Ht;
      by rewrite Hn.
Qed.

End runs.

(** ** The calls of a history *)

Lemma callsOf_app (h1 h2 : list IO) : callsOf (h1 ++ h2) = callsOf h1 ++ callsOf h2.
Proof. apply filter_app. Qed.

(** The calls of a history are the network calls of its events. *)
Lemma eventOf_callsOf (h : list IO) : eventOf <$> callsOf h = network (eventOf <$> h).
Proof.
  unfold callsOf. induction h as [|io h IH]; [done|].
  rewrite fmap_cons, network_cons, filter_cons.
  destruct io; simpl; by f_equal.
Qed.

Lemma events_lookup_inv (l : list IO) (c : Twitter.TwitterApiReadOnly) (id : string)
    (p : Twitter.LookupParams) (es : list Event) :
  eventOf <$> l = TwitterLookup c id p :: es →
  ∃ answer l', l = IOLookup c id p answer :: l' ∧ eventOf <$> l' = es.
Proof. destruct l as [|[] l]; intros; simplify_eq/=; eauto. Qed.

Lemma events_parse_inv (l : list IO) (c : OpenAI.Client) (body : OpenAI.ParseParams)
    (es : list Event) :
  eventOf <$> l = OpenAIParse c body :: es →
  ∃ answer l', l = IOParse c body answer :: l' ∧ eventOf <$> l' = es.
Proof. destruct l as [|[] l]; intros; simplify_eq/=; eauto. Qed.

Lemma events_create_inv (l : list IO) (c : OpenAI.Client) (body : Responses.CreateParams)
    (es : list Event) :
  eventOf <$> l = OpenAICreate c body :: es →
  ∃ answer l', l = IOCreate c body answer :: l' ∧ eventOf <$> l' = es.
Proof. destruct l as [|[] l]; intros; simplify_eq/=; eauto. Qed.

(** ** The vendors of a history *)

Section firstAnswer.
Context {B : Type} (f : IO → option (Thrown + B)) (v : Vendor).
Context (f_vendor : ∀ io r, f io = Some r → vendorOf (eventOf io) = Some v).

Lemma omap_not_asked (p : list IO) :
  v ∉ omap vendorOf (eventOf <$> p) → omap f p = [].
Proof.
  induction p as [|io p IH]; [done|]. simpl.
  destruct (f io) as [r|] eqn:Hio.
  - rewrite (f_vendor _ _ Hio). set_solver.
  - destruct (vendorOf (eventOf io)); set_solver.
Qed.

(** The answer of the only call to a vendor is the answer of the vendor of
    the history. *)
Lemma firstAnswer_only (p s : list IO) (io : IO) (r : Thrown + B) :
  AskedOnce (eventOf <$> p ++ [io]) → f io = Some r →
  firstAnswer f ((p ++ [io]) ++ s) = r.
Proof.
  unfold AskedOnce, firstAnswer. intros Hp Hio.
  rewrite fmap_app, omap_app in Hp. simpl in Hp. rewrite (f_vendor _ _ Hio) in Hp.
  apply NoDup_app in Hp as (_ & Hp & _).
  rewrite !omap_app, omap_not_asked; [by simpl; rewrite Hio|].
  intros Hv. apply (Hp _ Hv). set_solver.
Qed.

End firstAnswer.

Lemma AskedOnce_prefix (t1 t2 : list Event) :
  t1 `prefix_of` t2 → AskedOnce t2 → AskedOnce t1.
Proof. intros [t ->]. unfold AskedOnce. rewrite omap_app. by intros [? _]%NoDup_app. Qed.

(** Calls to vendors are the network calls. *)
Lemma omap_vendorOf_network (t : list Event) :
  omap vendorOf (network t) = omap vendorOf t.
Proof.
  induction t as [|e t IH]; [done|]. rewrite network_cons.
  by destruct e; cbn -[network]; rewrite IH.
Qed.

Lemma AskedOnce_network (t : list Event) : AskedOnce (network t) ↔ AskedOnce t.
Proof. unfold AskedOnce. by rewrite omap_vendorOf_network. Qed.

(** ** Every run is a run against vendors *)

Section realised.
Context {A : Type} (t : T A) (h : list IO) (o : Outcome A).
Context (n : nat) (m : M A).
Context (t_run :
  eval (H:=twitterIn h) (H0:=openaiIn h) (H1:=responsesIn h) n t = Some m).
Context (t_once : AskedOnce (trace m)).
Context (h_run : runs t h o).

#[local] Abbreviation AnsweredIn :=
  (Answered (H:=twitterIn h) (H0:=openaiIn h) (H1:=responsesIn h)).

(** The environment of [h] answered as the vendors of [h] do. *)
Lemma answered_prefix (p : list IO) : p `prefix_of` h → Forall AnsweredIn p.
Proof.
  induction p as [|io p IH] using rev_ind; [done|]. intros Hp.
  apply Forall_app. split; [apply IH; by etrans; [apply prefix_app_r|]|].
  constructor; [|done].
  rewrite eval_history in t_run.
  destruct (history _ _) as [[h' o']|] eqn:Hh'; simplify_eq/=.
  assert (AskedOnce (eventOf <$> p ++ [io])) as Honce.
  { eapply AskedOnce_prefix; [|done].
    eapply runs_agree; [done..|]. apply IH. by etrans; [apply prefix_app_r|]. }
  destruct Hp as [s ->].
  destruct io as [l a|c id q r|c b r|c b r]; [done|..]; simpl.
  - symmetry. by apply (firstAnswer_only lookupOf Lookup); [intros [] |..].
  - symmetry. by apply (firstAnswer_only parseOf Parse); [intros [] |..].
  - symmetry. by apply (firstAnswer_only createOf Create); [intros [] |..].
Qed.

Lemma runs_answered : Forall AnsweredIn h.
Proof. by apply answered_prefix. Qed.

(** A run of a computation that calls no vendor twice, in an environment
    that answers as it likes, is the run against the vendors of its
    history. *)
Lemma runs_realised : m = Run (eventOf <$> h) o.
Proof.
  pose proof runs_answered as Hh.
  rewrite eval_history in t_run.
  destruct (history _ _) as [[h' o']|] eqn:Hh'; simplify_eq/=.
  apply history_runs in Hh' as [Hr' Ha'].
  by destruct (runs_answered_unique _ _ _ _ _ h_run Hr' Hh Ha') as [-> ->].
Qed.

(** Its calls are the network calls of that run, answered by the vendors
    of the history. *)
Lemma run_calls :
  eventOf <$> callsOf h = network (trace m) ∧ Forall AnsweredIn (callsOf h).
Proof.
  split; [by rewrite eventOf_callsOf, runs_realised|].
  pose proof runs_answered as Ha. rewrite Forall_forall in Ha.
  apply Forall_forall. by intros io [_ ?%Ha]%list_elem_of_filter.
Qed.

End realised.

(** ** Termination in every environment *)

Section finite.

Lemma finite_ret {A} (a : A) : all_finite (mret a : T A).
Proof. apply all_finite_Ret. Qed.

Lemma finite_throw {A} (e : Thrown) : all_finite (Tree.throw e : T A).
Proof. apply all_finite_Ret. Qed.

Lemma finite_exit {A} (code : Z) : all_finite (Tree.process_exit code : T A).
Proof. apply all_finite_Vis. by intros []. Qed.

Lemma finite_console (level : Level) (args : list JsVal) :
  all_finite (Tree.console level args).
Proof. apply all_finite_Vis. intros _. apply all_finite_Ret. Qed.

Lemma finite_await_singleTweet (client : Twitter.TwitterApiReadOnly) (tweetId : string)
    (params : Twitter.LookupParams) :
  all_finite (Tree.await_singleTweet client tweetId params).
Proof. apply all_finite_trigger. Qed.

Lemma finite_await_parse (client : OpenAI.Client) (body : OpenAI.ParseParams) :
  all_finite (Tree.await_parse client body).
Proof. apply all_finite_trigger. Qed.

Lemma finite_await_create (client : OpenAI.Client) (body : Responses.CreateParams) :
  all_finite (Tree.await_create client body).
Proof. apply all_finite_trigger. Qed.

Lemma finite_bind {A B} (t : T A) (k : A → T B) :
  all_finite t → (∀ a, all_finite (k a)) → all_finite (t ≫= k).
Proof.
  intros Ht Hk. apply all_finite_bind_weak; [done|].
  intros [e|a]; [apply all_finite_Ret|apply Hk].
Qed.

Lemma finite_try_catch {A} (t : T A) (h : Thrown → T A) :
  all_finite t → (∀ e, all_finite (h e)) → all_finite (Tree.try_catch t h).
Proof.
  intros Ht Hh. apply all_finite_bind_weak; [done|].
  intros [e|a]; [apply Hh|apply all_finite_Ret].
Qed.

Lemma finite_require_truthy (value : option string) (t : T Empty_set) :
  all_finite t → all_finite (Tree.require_truthy value t).
Proof.
  intros Ht. unfold Tree.require_truthy, Tree.never.
  repeat case_match; try apply finite_ret; by apply finite_bind; [|intros []].
Qed.

End finite.

Create HintDb finite discriminated.
#[export] Hint Resolve finite_ret finite_throw finite_exit finite_console
  finite_await_singleTweet finite_await_parse finite_await_create : finite.
#[export] Hint Extern 1 (all_finite (Tree.console_log _)) => apply finite_console : finite.
#[export] Hint Extern 1 (all_finite (Tree.console_warn _)) => apply finite_console : finite.
#[export] Hint Extern 1 (all_finite (Tree.console_error _)) => apply finite_console : finite.

(** [finite] proves that a function of the script is finite along all its
    branches, from its text. *)
Ltac finite_step :=
  lazymatch goal with
  | |- all_finite (mbind _ _) => apply finite_bind; [|intros ?]
  | |- all_finite (Tree.try_catch _ _) => apply finite_try_catch; [|intros ?]
  | |- all_finite (Tree.require_truthy _ _) => apply finite_require_truthy
  | |- all_finite (match _ with _ => _ end) => case_match
  | |- all_finite _ => solve [auto with finite]
  end.
Ltac finite := repeat finite_step.

Section script.

Lemma checkErrors_finite (tweet : Twitter.TweetV2SingleResult) :
  all_finite (Tree.checkErrors tweet).
Proof. unfold Tree.checkErrors. finite. Qed.

Lemma catchFetch_finite (tweetId : string) (error : Thrown) :
  all_finite (Tree.catchFetch tweetId error).
Proof. unfold Tree.catchFetch. finite. Qed.

#[local] Hint Resolve checkErrors_finite catchFetch_finite : finite.

Lemma fetchTweetData_finite (client : Twitter.TwitterApiReadOnly) (tweetId : string) :
  all_finite (Tree.fetchTweetData client tweetId).
Proof. unfold Tree.fetchTweetData, Tree.tryFetch. finite. Qed.

Lemma catchAsk_finite {A} (error : Thrown) : all_finite (Tree.catchAsk error : T A).
Proof. unfold Tree.catchAsk. finite. Qed.

#[local] Hint Resolve fetchTweetData_finite catchAsk_finite : finite.

Lemma askOpenAIAboutImage_finite (openai : OpenAI.Client) (imageUrl : string) :
  all_finite (Tree.askOpenAIAboutImage openai imageUrl).
Proof. unfold Tree.askOpenAIAboutImage. finite. Qed.

Lemma catchUnhandled_finite (error : Thrown) : all_finite (Tree.catchUnhandled error).
Proof. unfold Tree.catchUnhandled. finite. Qed.

#[local] Hint Resolve askOpenAIAboutImage_finite catchUnhandled_finite : finite.

Lemma run_finite (openai : OpenAI.Client) (client : Twitter.TwitterApiReadOnly) :
  all_finite (Tree.run openai client).
Proof. unfold Tree.run, Tree.main, Tree.catchMain. finite. Qed.

Lemma freetext_ask_finite (openai : OpenAI.Client) (imageUrl question : string) :
  all_finite (Tree.FreeText.askOpenAIAboutImage openai imageUrl question).
Proof. unfold Tree.FreeText.askOpenAIAboutImage, Tree.FreeText.firstContent. finite. Qed.

Lemma report_finite (openAIResponse : option string) :
  all_finite (Tree.FreeText.report openAIResponse).
Proof. unfold Tree.FreeText.report, Tree.FreeText.reportNoResponse. finite. Qed.

#[local] Hint Resolve freetext_ask_finite report_finite : finite.

Lemma freetext_run_finite (openai : OpenAI.Client) (client : Twitter.TwitterApiReadOnly) :
  all_finite (Tree.FreeText.run openai client).
Proof. unfold Tree.FreeText.run, Tree.FreeText.main, Tree.FreeText.catchMain. finite. Qed.

End script.

(** ** The script in every environment *)

(** The script calls no vendor twice. *)
Lemma program_asked_once `{TwitterService, OpenAIService} (env : gmap string string) :
  AskedOnce (trace (program env)).
Proof.
  apply AskedOnce_network. destruct (configured env) eqn:Hc;
    [|by rewrite (proj1 (program_not_configured env Hc)); constructor].
  rewrite program_configured, main_network by done.
  repeat case_match; by apply (bool_decide_unpack _).
Qed.

Lemma freetext_asked_once `{TwitterService, ResponsesService} (env : gmap string string) :
  AskedOnce (trace (FreeText.program env)).
Proof.
  apply AskedOnce_network. destruct (configured env) eqn:Hc;
    [|by rewrite (proj1 (FreeText.freetext_not_configured env Hc)); constructor].
  rewrite FreeText.freetext_program_configured, FreeText.freetext_main_network by done.
  repeat case_match; by apply (bool_decide_unpack _).
Qed.

(** The script ends normally or with exit code 1. *)
Lemma program_outcome `{TwitterService, OpenAIService} (env : gmap string string) :
  outcome (program env) = Returned () ∨ outcome (program env) = Exited 1.
Proof.
  pose proof (program_verdict_run env) as Hrun.
  destruct (verdictOf env); injection Hrun as -> _; auto.
Qed.

(** A run against vendors is a run of the tree in an environment that
    answers as the vendors do. *)
Lemma eval_runs `{TwitterService, OpenAIService, ResponsesService} {A}
    (n : nat) (t : T A) (m : M A) :
  eval n t = Some m →
  ∃ h, runs t h (outcome m) ∧ eventOf <$> h = trace m ∧ Forall Answered h.
Proof.
  rewrite eval_history. destruct (history n t) as [[h o]|] eqn:Hh; [|done].
  intros [= <-]. exists h. by destruct (history_runs _ _ _ _ Hh).
Qed.

Section program.
Context (env : gmap string string) (h : list IO) (o : Outcome ()).
Context (h_run : runs (Tree.program env) h o).

Lemma program_realised :
  program (H:=twitterIn h) (H0:=openaiIn h) env = Run (eventOf <$> h) o.
Proof. eapply runs_realised; [apply program_conv|apply program_asked_once|done]. Qed.

(** The lookup of a run was answered with the first answer to a lookup in
    its history. *)
Lemma program_lookup_answer (c : Twitter.TwitterApiReadOnly) (id : string)
    (p : Twitter.LookupParams) :
  TwitterLookup c id p ∈ eventOf <$> h → IOLookup c id p (firstAnswer lookupOf h) ∈ h.
Proof.
  intros (io & Hio & Hin)%list_elem_of_fmap.
  pose proof (runs_answered _ _ _ _ _ (program_conv env) (program_asked_once env) h_run)
    as Hh.
  rewrite Forall_forall in Hh. specialize (Hh _ Hin).
  destruct io; by simplify_eq/=.
Qed.

End program.

(** ** The script at work *)

Lemma reaches_runs {A} (t t' : T A) (h h' : list IO) (o : Outcome A) :
  reaches t h t' → runs t' h' o → runs t (h ++ h') o.
Proof. induction 1; intros Hr; simpl; [done|by econstructor; eauto..]. Qed.

Lemma reaches_trans {A} (t t' t'' : T A) (h h' : list IO) :
  reaches t h t' → reaches t' h' t'' → reaches t (h ++ h') t''.
Proof. induction 1; intros Hr; simpl; [done|by econstructor; eauto..]. Qed.

(** What follows the first node of a finite computation is finite. *)
Lemma all_finite_node {A} (t : T A) :
  all_finite t →
  match node t with
  | NRet _ | NExit _ => True
  | NTau t' => all_finite t'
  | NConsole _ _ k => all_finite k
  | NLookup _ _ _ k => ∀ answer, all_finite (k answer)
  | NParse _ _ k => ∀ answer, all_finite (k answer)
  | NCreate _ _ k => ∀ answer, all_finite (k answer)
  end.
Proof.
  destruct 1 as [r t Ht|t u Ht Hu|X e t k Ht Hk]; unfold node; rewrite Ht;
    [done..|by destruct e].
Qed.

Lemma all_finite_reaches {A} (t t' : T A) (h : list IO) :
  reaches t h t' → all_finite t → all_finite t'.
Proof.
  induction 1 as [t|t t0 h t' Ht _ IH|t l a k h t' Ht _ IH|t c id p k r h t' Ht _ IH
                 |t c b k r h t' Ht _ IH|t c b k r h t' Ht _ IH];
    intros Hf; [done|apply all_finite_node in Hf; rewrite Ht in Hf; auto..].
Qed.

(** A finite computation has a run. *)
Lemma all_finite_runs {A} (t : T A) : all_finite t → ∃ h o, runs t h o.
Proof.
  intros Hf.
  destruct (all_finite_history (H:=Mock.twitter (inl (JsError "refused")))
              (H0:=Mock.openai (inl (JsError "refused")))
              (H1:=Mock.responses (inl (JsError "refused"))) t Hf) as (n & [h o] & Hh).
  exists h, o. by eapply history_runs.
Qed.

(** Progress: whatever a finite computation has done, it can run to its
    end, as soon as its calls are answered. *)
Lemma reaches_extends {A} (t t' : T A) (h : list IO) :
  all_finite t → reaches t h t' → ∃ h' o, runs t (h ++ h') o.
Proof.
  intros Hf Hr. destruct (all_finite_runs t') as (h' & o & Hr'); [by eapply all_finite_reaches|].
  exists h', o. by eapply reaches_runs.
Qed.

(** A run has reached its end. *)
Lemma runs_reaches {A} (t : T A) (h : list IO) (o : Outcome A) :
  runs t h o → ∃ t', reaches t h t'.
Proof.
  induction 1 as [t r Ht|t t' h o Ht Hr [t'' IH]|t l a k h o Ht Hr [t'' IH]
                 |t c id p k r h o Ht Hr [t'' IH]|t c b k r h o Ht Hr [t'' IH]
                 |t c b k r h o Ht Hr [t'' IH]|t code Ht];
    [exists t; constructor|exists t''; by econstructor..|exists t; constructor].
Qed.

Lemma program_finite (env : gmap string string) : all_finite (Tree.program env).
Proof.
  unfold Tree.program, Tree.requireOpenAIKey, Tree.requireTwitterToken.
  pose proof run_finite. finite.
Qed.

Lemma ScriptCalls_prefix (env : gmap string string) (l l' : list IO) :
  ScriptCalls env l → l' `prefix_of` l → ScriptCalls env l'.
Proof.
  intros Hl [k Hk]. destruct Hl; destruct l' as [|? [|? [|]]]; simplify_eq/=;
    by econstructor.
Qed.

(** The calls of a run of the script, and what the pipeline of the design
    yields for the vendors of its history: the answer that the environment
    gave to the question. *)
Lemma program_run_verdict (env : gmap string string) (h : list IO) (o : Outcome ()) :
  runs (Tree.program env) h o →
  ScriptCalls env (callsOf h) ∧
  verdictOf (H:=twitterIn h) (H0:=openaiIn h) env = firstParsed <$> answerIn h.
Proof.
  intros Hr. unfold answerIn, verdictOf.
  destruct (run_calls _ _ _ _ _ (program_conv env) (program_asked_once env) Hr) as [He Ha].
  destruct (configured env) eqn:Hcfg; last first.
  { rewrite (proj1 (program_not_configured env Hcfg)) in He.
    apply fmap_nil_inv in He as ->. split; [constructor|done]. }
  rewrite program_configured, main_network in He by done.
  apply events_lookup_inv in He as (tweet & l & Hh & Hl). rewrite Hh in Ha |- *.
  apply Forall_cons in Ha as [Htweet Ha]. simpl in Htweet. rewrite <-Htweet in Hl |- *.
  destruct (resolve tweet) as [err|tweetData] eqn:Hres;
    [apply fmap_nil_inv in Hl as ->; split; [constructor|done]|].
  destruct (Resolver.imageUrl tweetData) as [u|] eqn:Hu;
    [|apply fmap_nil_inv in Hl as ->; split; [constructor|done]].
  apply events_parse_inv in Hl as (answer & l' & -> & ->%fmap_nil_inv).
  apply Forall_cons in Ha as [Hanswer _]. simpl in Hanswer. rewrite <-Hanswer.
  split; [by econstructor|by destruct answer].
Qed.

Lemma program_run_calls (env : gmap string string) (h : list IO) (o : Outcome ()) :
  runs (Tree.program env) h o → ScriptCalls env (callsOf h).
Proof. by intros [? _]%program_run_verdict. Qed.

(** At any time of a run. *)
Lemma program_calls_so_far (env : gmap string string) (h : list IO) (t' : T ()) :
  reaches (Tree.program env) h t' → ScriptCalls env (callsOf h).
Proof.
  intros (h' & o & Hr)%reaches_extends; [|apply program_finite].
  apply program_run_calls in Hr. rewrite callsOf_app in Hr.
  eapply ScriptCalls_prefix; [done|]. by apply prefix_app_r.
Qed.

Lemma callsOf_snoc_call (h : list IO) (io : IO) :
  is_network (eventOf io) = true → callsOf (h ++ [io]) = callsOf h ++ [io].
Proof.
  intros Hio. rewrite callsOf_app. f_equal. unfold callsOf.
  rewrite filter_cons_True; [done|]. by rewrite Hio.
Qed.

(** The calls of the script with the call it makes next. *)
Lemma program_next_call (env : gmap string string) (h : list IO) (t' : T ()) (io : IO)
    (t'' : T ()) :
  reaches (Tree.program env) h t' → reaches t' [io] t'' → is_network (eventOf io) = true →
  ScriptCalls env (callsOf h ++ [io]).
Proof.
  intros Hr Hio Hn. rewrite <-callsOf_snoc_call by done.
  eapply program_calls_so_far, reaches_trans; eauto.
Qed.

#[local] Abbreviation refused := (inl (JsError "refused")).

(** The call the script waits for: the lookup, before any other call, or
    the question about the image of the tweet that the lookup was answered
    with. *)
Lemma program_pending (env : gmap string string) (h : list IO) (t' : T ()) :
  reaches (Tree.program env) h t' →
  match node t' with
  | NLookup c id p _ =>
      callsOf h = [] ∧ c = twitterOf env ∧ id = TWEET_ID ∧ p = lookupParams
  | NParse c body _ =>
      ∃ tweet tweetData imageUrl,
        callsOf h = [IOLookup (twitterOf env) TWEET_ID lookupParams tweet] ∧
        resolve tweet = inr tweetData ∧ tweetData.(Resolver.imageUrl) = Some imageUrl ∧
        c = openaiOf env ∧ body = parseBody imageUrl
  | NCreate _ _ _ => False
  | _ => True
  end.
Proof.
  intros Hr. destruct (node t') as [| | |c id p k|c b k|c b k|] eqn:Ht; try done;
    [pose proof (program_next_call _ _ _ (IOLookup c id p refused) (k refused) Hr) as Hc
    |pose proof (program_next_call _ _ _ (IOParse c b refused) (k refused) Hr) as Hc
    |pose proof (program_next_call _ _ _ (IOCreate c b refused) (k refused) Hr) as Hc];
    specialize (Hc ltac:(by econstructor; [|constructor]) eq_refl);
    inversion Hc as [Hl|tw Hl|tw td u a ?? Hl]; destruct (callsOf h) as [|? [|? [|]]];
    simplify_eq/=; [done|]. by exists tw, td, u.
Qed.

(** ** Properties *)

(** C14. Whatever the environment answers, and however its answers depend
    on what went before, a run of the script is a run of [program] against
    vendors: the vendors that give the first answer of the history to
    every lookup and to every question.  Every call of the history was
    answered as these vendors answer, and the events and the outcome of
    the run are those of [program].  So what is proved of [program] for
    all vendors holds of every run of the script. *)
Theorem program_any_environment (env : gmap string string) (h : list IO) (o : Outcome ()) :
  runs (Tree.program env) h o →
  Forall (Answered (H:=twitterIn h) (H0:=openaiIn h) (H1:=responsesIn h)) h ∧
  program (H:=twitterIn h) (H0:=openaiIn h) env = Run (eventOf <$> h) o.
Proof.
  intros Hr. split; [|by apply program_realised].
  by eapply runs_answered; [apply program_conv|apply program_asked_once|].
Qed.

(** C16. The script terminates in every environment, as soon as its calls
    are answered: its tree is finite along all its branches, whatever is
    answered to its calls; whatever it has done so far, it can run to its
    end; no run has more than seven events, and the size of a run is
    [runLength] for the vendors of its history.  A call that is never
    answered leaves the script waiting: it sets no timeout. *)
Theorem program_terminates (env : gmap string string) :
  all_finite (Tree.program env) ∧
  (∀ h t', reaches (Tree.program env) h t' →
     ∃ h' o, runs (Tree.program env) (h ++ h') o) ∧
  (∀ h o, runs (Tree.program env) h o →
     length h = runLength (H:=twitterIn h) (H0:=openaiIn h) env ∧ length h ≤ 7).
Proof.
  pose proof (program_finite env) as Hf.
  split_and!; [done|intros h t'; by apply reaches_extends|]. intros h o Hr.
  pose proof (program_length (H:=twitterIn h) (H0:=openaiIn h) env) as Hl.
  pose proof (runLength_bounds (H:=twitterIn h) (H0:=openaiIn h) env).
  rewrite (program_realised _ _ _ Hr) in Hl. simpl in Hl.
  rewrite length_fmap in Hl. lia.
Qed.

(** C15. In every environment and at any time of a run, the calls the
    script has made are none, or the one lookup of the tweet with the
    client of the configured token, or that lookup and then one question
    to the model, with the client of the configured key, about the image
    that the precedence rules select from the answer to the lookup: no
    vendor is asked twice, and the model is never asked before the lookup
    was answered with a tweet that has an image.  A run ends normally or
    with exit code 1. *)
Theorem program_environment_safe (env : gmap string string) :
  (∀ h t', reaches (Tree.program env) h t' → ScriptCalls env (callsOf h)) ∧
  (∀ h o, runs (Tree.program env) h o → o = Returned () ∨ o = Exited 1).
Proof.
  split; [intros h t'; apply program_calls_so_far|intros h o Hr].
  pose proof (program_outcome (H:=twitterIn h) (H0:=openaiIn h) env) as Ho.
  by rewrite (program_realised _ _ _ Hr) in Ho.
Qed.

(** C13. In every environment, how a run ends and what it prints is
    decided by what the environment answered, as the pipeline of the design
    says.  The model's answer of a run is the completion that settled the
    question put after the lookup; there is one exactly when both secrets
    are configured, the lookup was answered with a tweet that resolves with
    an image, and the question about that image was answered and not
    rejected.  The run ends normally exactly when there is one, and with
    exit code 1 otherwise; it prints the object parsed in the first choice
    of that answer, once, and no other verdict: in no environment does the
    script end normally without an answer of the model, or print a verdict
    of its own. *)
Theorem program_environment_verdict (env : gmap string string) (h : list IO)
    (o : Outcome ()) :
  runs (Tree.program env) h o →
  verdictOf (H:=twitterIn h) (H0:=openaiIn h) env = firstParsed <$> answerIn h ∧
  o = (if answerIn h is Some _ then Returned () else Exited 1) ∧
  printed (eventOf <$> h) =
    match answerIn h ≫= firstParsed with Some (Some response) => [response] | _ => [] end.
Proof.
  intros Hr. destruct (program_run_verdict _ _ _ Hr) as [_ Hv]. split; [done|].
  pose proof (program_verdict_run (H:=twitterIn h) (H0:=openaiIn h) env) as Hrun.
  rewrite (program_realised _ _ _ Hr), Hv in Hrun. simpl in Hrun.
  destruct (answerIn h) as [result|]; simpl in *; injection Hrun as -> ->; [|done].
  split; [done|]. by destruct (firstParsed result) as [[?|]|].
Qed.

(** ** The free-text variant in every environment *)

Lemma freetext_realised (env : gmap string string) (h : list IO) (o : Outcome ()) :
  runs (Tree.FreeText.program env) h o →
  FreeText.program (H:=twitterIn h) (H0:=responsesIn h) env = Run (eventOf <$> h) o.
Proof.
  intros Hr.
  eapply runs_realised; [apply freetext_program_conv|apply freetext_asked_once|done].
Qed.

Lemma freetext_terminates (env : gmap string string) :
  all_finite (Tree.FreeText.program env).
Proof.
  unfold Tree.FreeText.program, Tree.FreeText.new_OpenAI, Tree.requireOpenAIKey,
    Tree.requireTwitterToken.
  pose proof freetext_run_finite. finite.
Qed.

Lemma FreeTextCalls_prefix (env : gmap string string) (l l' : list IO) :
  FreeTextCalls env l → l' `prefix_of` l → FreeTextCalls env l'.
Proof.
  intros Hl [k Hk]. destruct Hl; destruct l' as [|? [|? [|]]]; simplify_eq/=;
    by econstructor.
Qed.

(** The calls of the variant, in every environment and at any time of a
    run: the lookup, and then the question alone, with the client of the
    key, once the lookup was answered with a tweet that has an image. *)
Lemma freetext_calls_so_far (env : gmap string string) (h : list IO) (t' : T ()) :
  reaches (Tree.FreeText.program env) h t' → FreeTextCalls env (callsOf h).
Proof.
  intros (h' & o & Hr)%reaches_extends; [|apply freetext_terminates].
  cut (FreeTextCalls env (callsOf (h ++ h'))).
  { rewrite callsOf_app. intros Hc. eapply FreeTextCalls_prefix; [done|]. by apply prefix_app_r. }
  destruct (run_calls _ _ _ _ _ (freetext_program_conv (H0:=openaiIn (h ++ h')) env)
              (freetext_asked_once env) Hr) as [He Ha].
  destruct (configured env) eqn:Hcfg; last first.
  { rewrite (proj1 (FreeText.freetext_not_configured env Hcfg)) in He.
    apply fmap_nil_inv in He as ->. constructor. }
  rewrite FreeText.freetext_program_configured, FreeText.freetext_main_network in He by done.
  apply events_lookup_inv in He as (tweet & l & Hh & Hl). rewrite Hh in Ha |- *.
  apply Forall_cons in Ha as [Htweet _]. simpl in Htweet. rewrite <-Htweet in Hl.
  destruct (resolve tweet) as [err|tweetData] eqn:Hres;
    [apply fmap_nil_inv in Hl as ->; constructor|].
  rewrite (resolve_truthy _ _ Hres) in Hl.
  destruct (Resolver.imageUrl tweetData) as [u|] eqn:Hu;
    [|apply fmap_nil_inv in Hl as ->; constructor].
  apply events_create_inv in Hl as (answer & l' & -> & ->%fmap_nil_inv). by econstructor.
Qed.

(** ** A computation that asks twice *)

(** The result of a run does not depend on the bound. *)
Lemma eval_unique `{TwitterService, OpenAIService, ResponsesService} {A}
    (n n' : nat) (t : T A) (m m' : M A) :
  eval n t = Some m → eval n' t = Some m' → m = m'.
Proof.
  intros Hm%(eval_mono _ (n `max` n')) Hm'%(eval_mono _ (n `max` n')); [|lia..].
  congruence.
Qed.

(** An environment may refuse a call and answer the same call later; no
    vendor that is a function of the request does.  A script that asks
    again has runs that are runs against no vendor, so that the script
    asks once matters above. *)
Example lookupAgain_not_realised `{TwitterService, OpenAIService, ResponsesService}
    (client : Twitter.TwitterApiReadOnly) (tweetId : string) (n : nat)
    (m : M Twitter.TweetV2SingleResult) :
  runs (Example.lookupAgain client tweetId) (Example.recovered client tweetId)
       (Returned Main.Example.videoTweet) ∧
  (eval n (Example.lookupAgain client tweetId) = Some m →
   m ≠ Run (eventOf <$> Example.recovered client tweetId) (Returned Main.Example.videoTweet)).
Proof.
  split.
  { do 2 (eapply runs_lookup; [reflexivity|]).
    by apply (runs_ret _ (inr Main.Example.videoTweet)). }
  intros Hm.
  assert (Conv 2 (Example.lookupAgain client tweetId)
            (try_catch (await_singleTweet client tweetId lookupParams)
               (λ _, await_singleTweet client tweetId lookupParams))) as Hc
    by (unfold Example.lookupAgain; conv).
  rewrite (eval_unique _ _ _ _ _ Hm Hc). unfold try_catch, await_singleTweet.
  by destruct (singleTweet_response _ _ _).
Qed.

(** ** Waiting *)

(** The script before its lookup is answered: two lines are printed and
    the script waits; nothing ends the wait but an answer. *)
Example program_waits_for_lookup :
  ∃ t' k,
    reaches (Tree.program Main.Example.env)
      [IOConsole Log [VStr "Processing Tweet ID: 1921299860000518230"];
       IOConsole Log [VStr "Fetching tweet from Twitter API: 1921299860000518230"]] t' ∧
    node t' = NLookup (twitterOf Main.Example.env) TWEET_ID lookupParams k.
Proof.
  do 2 eexists. split; [do 2 (eapply reaches_console; [reflexivity|]); apply reaches_here|].
  reflexivity.
Qed.

(** ** Witnesses *)

Lemma happy_run : runs (Tree.program Main.Example.env) Example.happy (Returned ()).
Proof.
  apply (history_runs (H:=Mock.twitter (inr Main.Example.videoTweet))
           (H0:=Mock.openai (inr Main.Example.hat))
           (H1:=Mock.responses (inl (JsError "unused"))) 18).
  by vm_compute.
Qed.

Lemma rateLimited_run : runs (Tree.program Main.Example.env) Example.rateLimited (Exited 1).
Proof.
  apply (history_runs (H:=Mock.twitter (inl (JsError "rate limit")))
           (H0:=Mock.openai (inr Main.Example.hat))
           (H1:=Mock.responses (inl (JsError "unused"))) 18).
  by vm_compute.
Qed.

Lemma program_any_environment_witness :
  Forall (Answered (H:=twitterIn Example.happy) (H0:=openaiIn Example.happy)
            (H1:=responsesIn Example.happy)) Example.happy ∧
  program (H:=twitterIn Example.happy) (H0:=openaiIn Example.happy) Main.Example.env =
  Run (eventOf <$> Example.happy) (Returned ()).
Proof. exact (program_any_environment _ _ _ happy_run). Defined.

Lemma program_terminates_witness :
  length Example.rateLimited =
    runLength (H:=twitterIn Example.rateLimited) (H0:=openaiIn Example.rateLimited)
      Main.Example.env ∧
  length Example.rateLimited ≤ 7.
Proof.
  exact (proj2 (proj2 (program_terminates Main.Example.env)) _ _ rateLimited_run).
Defined.

Lemma program_environment_safe_witness :
  ScriptCalls Main.Example.env (callsOf Example.happy) ∧
  (Exited 1 = Returned () ∨ Exited 1 = Exited (A:=()) 1).
Proof.
  destruct (runs_reaches _ _ _ happy_run) as [t' Hr].
  split; [exact (proj1 (program_environment_safe _) _ _ Hr)|].
  exact (proj2 (program_environment_safe _) _ _ rateLimited_run).
Defined.

Lemma program_environment_verdict_witness :
  verdictOf (H:=twitterIn Example.happy) (H0:=openaiIn Example.happy) Main.Example.env =
    Some (Some (Some Verifier.Example.verdict)) ∧
  Returned () = Returned () ∧
  printed (eventOf <$> Example.happy) = [Verifier.Example.verdict].
Proof. exact (program_environment_verdict _ _ _ happy_run). Defined.
