(* ===== verification/Laws.v ===== *)
(** * Laws: the script up to equivalence of trees

    Two interaction trees are equivalent ([≅], the strong bisimulation of
    the library) when they ask the same of their environment, in the same
    order, and settle alike whatever they are answered.  This file holds
    the laws of the operations of [Interaction] up to [≅] (sequencing is a
    monad, [try]/[catch] passes a value and hands a thrown value to its
    handler), shows that equivalent trees have the same runs in every
    environment, and proves the one equivalence the source invites: [main]
    catches whatever its steps throw, so the handler of [main().catch] can
    be removed, in both versions of the script.  The proofs cut at the
    sequencing with the leaves of the first tree, as the library's proofs
    of optimisations do. *)

From ITree Require Import ITree ITreeFacts Props.Leaf.
From stdpp Require Import gmap.
From S2P Require Import Prelude JsString Api JsRuntime Resolver Verifier Main Legacy.
From S2P Require Import Interaction Environment.

(** [MayThrow t e]: some environment makes [t] throw [e]. *)
Definition MayThrow {A} (t : T A) (e : Thrown) : Prop :=
  ∃ h, runs t h (Threw e).

(** ** Sequencing and [try]/[catch] *)

Section laws.
Context {A B C : Type}.

Lemma T_bind_ret_l (a : A) (k : A → T B) : mret a ≫= k ≅ k a.
Proof. unfold mbind, T_bind, mret, T_ret. by rewrite Eqit.bind_ret_l. Qed.

Lemma T_bind_throw (e : Thrown) (k : A → T B) : Tree.throw e ≫= k ≅ Tree.throw e.
Proof. unfold mbind, T_bind, Tree.throw. by rewrite Eqit.bind_ret_l. Qed.

Lemma T_bind_ret_r (t : T A) : t ≫= mret ≅ t.
Proof.
  unfold mbind, T_bind, mret, T_ret. rewrite <-(Eqit.bind_ret_r t) at 2.
  apply eqit_bind; [reflexivity|]. by intros [e|a].
Qed.

Lemma T_bind_assoc (t : T A) (k : A → T B) (k' : B → T C) :
  (t ≫= k) ≫= k' ≅ t ≫= (λ a, k a ≫= k').
Proof.
  unfold mbind, T_bind. rewrite Eqit.bind_bind.
  apply eqit_bind; [reflexivity|]. intros [e|a]; [by rewrite Eqit.bind_ret_l|reflexivity].
Qed.

Lemma tree_try_catch_ret (a : A) (h : Thrown → T A) :
  Tree.try_catch (mret a) h ≅ (mret a : T A).
Proof. unfold Tree.try_catch, mret, T_ret. by rewrite Eqit.bind_ret_l. Qed.

Lemma tree_try_catch_throw (e : Thrown) (h : Thrown → T A) :
  Tree.try_catch (Tree.throw e) h ≅ h e.
Proof. unfold Tree.try_catch, Tree.throw. by rewrite Eqit.bind_ret_l. Qed.

(** A handler that throws its argument again changes nothing. *)
Lemma tree_try_catch_rethrow (t : T A) : Tree.try_catch t Tree.throw ≅ t.
Proof.
  unfold Tree.try_catch, Tree.throw. rewrite <-(Eqit.bind_ret_r t) at 2.
  apply eqit_bind; [reflexivity|]. by intros [e|a].
Qed.

(** A handler is dead code after a computation that does not throw. *)
Lemma try_catch_no_throw (t : T A) (h : Thrown → T A) :
  (∀ e, ¬ Leaf (inl e) t) → Tree.try_catch t h ≅ t.
Proof.
  intros Ht. unfold Tree.try_catch. rewrite <-(Eqit.bind_ret_r t) at 2.
  apply eqit_clo_bind_gen with (UU := eq); [reflexivity|].
  intros [e|a] ? Hleaf _ <-; [by destruct (Ht e)|reflexivity].
Qed.

End laws.

(** ** The leaves of the operations *)

Lemma Leaf_console (level : Level) (args : list JsVal) (r : Thrown + unit) :
  Leaf r (Tree.console level args) → r = inr ().
Proof. by intros [[] ->%Leaf_Ret_inv]%Leaf_Vis_inv. Qed.

Lemma Leaf_exit {A} (code : Z) (r : Thrown + A) : ¬ Leaf r (Tree.process_exit code).
Proof. by intros [[] _]%Leaf_Vis_inv. Qed.

Lemma Leaf_mbind {A B} (t : T A) (k : A → T B) (r : Thrown + B) :
  Leaf r (t ≫= k) →
  (∃ e, r = inl e ∧ Leaf (inl e) t) ∨ (∃ a, Leaf (inr a) t ∧ Leaf r (k a)).
Proof.
  intros ([e|a] & Ht & Hr)%Leaf_bind_inv; [left|right; by eauto].
  apply Leaf_Ret_inv in Hr as ->. by eauto.
Qed.

Lemma Leaf_try_catch {A} (t : T A) (h : Thrown → T A) (r : Thrown + A) :
  Leaf r (Tree.try_catch t h) →
  (∃ e, Leaf (inl e) t ∧ Leaf r (h e)) ∨ (∃ a, r = inr a ∧ Leaf (inr a) t).
Proof.
  intros ([e|a] & Ht & Hr)%Leaf_bind_inv; [left; by eauto|right].
  apply Leaf_Ret_inv in Hr as ->. by eauto.
Qed.

(** ** Leaves and runs *)

#[export] Instance settle_inj {A} : Inj (=) (=) (@settle A).
Proof. intros [e|a] [e'|a'] ?; by simplify_eq/=. Qed.

(** The results at the leaves of a tree are the results of its runs. *)
Lemma runs_Leaf {A} (t : T A) (h : list IO) (r : Thrown + A) :
  runs t h (settle r) → Leaf r t.
Proof.
  remember (settle r) as o eqn:Ho. intros Hr. revert Ho.
  induction Hr as [t r' Hn|t t' h o Hn Hr IH|t l a k h o Hn Hr IH|t c id p k x h o Hn Hr IH
                  |t c b k x h o Hn Hr IH|t c b k x h o Hn Hr IH|t code Hn];
    intros Ho; unfold node in Hn; destruct (observe t) as [r0|t0|X ev k0] eqn:Hobs;
    try destruct ev; simplify_eq; try specialize (IH eq_refl).
  - by apply LeafRet.
  - by eapply LeafTau.
  - by eapply LeafVis.
  - by eapply LeafVis.
  - by eapply LeafVis.
  - by eapply LeafVis.
  - by destruct r.
Qed.

Lemma Leaf_runs {A} (t : T A) (r : Thrown + A) :
  Leaf r t → ∃ h, runs t h (settle r).
Proof.
  induction 1 as [t Hobs|t u Hobs _ [h Hr]|X ev t k x Hobs _ [h Hr]].
  - exists []. apply runs_ret. unfold node. by rewrite Hobs.
  - exists h. eapply runs_tau; [|done]. unfold node. by rewrite Hobs.
  - destruct ev; [destruct x|..|destruct x]; eexists;
      [eapply runs_console|eapply runs_lookup|eapply runs_parse|eapply runs_create];
      first [by unfold node; rewrite Hobs|done].
Qed.

Lemma MayThrow_Leaf {A} (t : T A) (e : Thrown) : MayThrow t e ↔ Leaf (inl e) t.
Proof.
  split; [intros [h Hr]; by apply (runs_Leaf t h (inl e))|apply (Leaf_runs t (inl e))].
Qed.

(** ** Equivalent trees have the same runs *)

Lemma node_eq_itree {A} (t1 t2 : T A) :
  t1 ≅ t2 →
  match node t2 with
  | NRet r => node t1 = NRet r
  | NTau t => ∃ t', node t1 = NTau t' ∧ t' ≅ t
  | NConsole level args k => ∃ k', node t1 = NConsole level args k' ∧ k' ≅ k
  | NLookup c id p k => ∃ k', node t1 = NLookup c id p k' ∧ ∀ answer, k' answer ≅ k answer
  | NParse c body k => ∃ k', node t1 = NParse c body k' ∧ ∀ answer, k' answer ≅ k answer
  | NCreate c body k => ∃ k', node t1 = NCreate c body k' ∧ ∀ answer, k' answer ≅ k answer
  | NExit code => node t1 = NExit code
  end.
Proof.
  intros Ht. rewrite (itree_eta t2) in Ht. unfold node at 1.
  destruct (observe t2) as [r|t|X e k].
  - apply eqitree_inv_Ret_r in Ht. unfold node. by rewrite Ht.
  - apply eqitree_inv_Tau_r in Ht as (t' & Ht & ?). unfold node. rewrite Ht. by eauto.
  - apply eqitree_inv_Vis_r in Ht as (k' & Ht & Hk). unfold node. rewrite Ht.
    destruct e; by eauto.
Qed.

Lemma runs_eq_itree {A} (t1 t2 : T A) (h : list IO) (o : Outcome A) :
  t1 ≅ t2 → runs t2 h o → runs t1 h o.
Proof.
  intros Ht Hr. revert t1 Ht.
  induction Hr as [t r Hn|t t' h o Hn Hr IH|t l a k h o Hn Hr IH|t c id p k r h o Hn Hr IH
                  |t c b k r h o Hn Hr IH|t c b k r h o Hn Hr IH|t code Hn];
    intros t1 Ht%node_eq_itree; rewrite Hn in Ht;
    [by constructor|destruct Ht as (k' & Ht & Hk)..|by constructor].
  - eapply runs_tau; eauto.
  - eapply runs_console; eauto.
  - eapply runs_lookup; eauto.
  - eapply runs_parse; eauto.
  - eapply runs_create; eauto.
Qed.

#[export] Instance runs_proper {A} :
  Proper (eq_itree eq ==> (=) ==> (=) ==> iff) (@runs A).
Proof.
  intros t1 t2 Ht h ? <- o ? <-. split; apply runs_eq_itree; [by symmetry|done].
Qed.

(** What an equivalent tree has reached is equivalent. *)
Lemma reaches_eq_itree {A} (t1 t2 t' : T A) (h : list IO) :
  t1 ≅ t2 → reaches t2 h t' → ∃ t'', reaches t1 h t'' ∧ t'' ≅ t'.
Proof.
  intros Ht Hr. revert t1 Ht.
  induction Hr as [t|t u h t' Hn Hr IH|t l a k h t' Hn Hr IH|t c id p k x h t' Hn Hr IH
                  |t c b k x h t' Hn Hr IH|t c b k x h t' Hn Hr IH]; intros t1 Ht.
  { exists t1. split; [constructor|done]. }
  all: apply node_eq_itree in Ht; rewrite Hn in Ht; destruct Ht as (k' & Ht & Hk);
    edestruct IH as (t'' & Hr' & Ht''); [by eauto|]; exists t''; split; [|done].
  - by eapply reaches_tau.
  - by eapply reaches_console.
  - by eapply reaches_lookup.
  - by eapply reaches_parse.
  - by eapply reaches_create.
Qed.

(** Against given vendors, equivalent trees run alike within the same
    number of events. *)
Section vendors.
Context `{TwitterService, OpenAIService, ResponsesService}.

Lemma history_eq_itree {A} (n : nat) (t1 t2 : T A) :
  t1 ≅ t2 → history n t1 = history n t2.
Proof.
  revert t1 t2. induction n as [|n IH]; intros t1 t2 Ht%node_eq_itree; simpl;
    destruct (node t2); first [rewrite Ht|destruct Ht as (k' & -> & Hk)]; try done;
    by erewrite IH by eauto.
Qed.

#[export] Instance history_proper {A} (n : nat) :
  Proper (eq_itree eq ==> (=)) (history n (A:=A)).
Proof. intros t1 t2. apply history_eq_itree. Qed.

#[export] Instance eval_proper {A} (n : nat) :
  Proper (eq_itree eq ==> (=)) (eval n (A:=A)).
Proof. intros t1 t2 Ht. by rewrite !eval_history, Ht. Qed.

#[export] Instance Conv_proper {A} (n : nat) :
  Proper (eq_itree eq ==> (=) ==> iff) (Conv n (A:=A)).
Proof. intros t1 t2 Ht m ? <-. unfold Conv. by rewrite Ht. Qed.

End vendors.

(** ** The handler of [main().catch] *)

(** [main] catches what its steps throw: it has no leaf that is a thrown
    value, whatever the environment answers. *)
Lemma main_no_throw (openai : OpenAI.Client) (client : Twitter.TwitterApiReadOnly)
    (e : Thrown) :
  ¬ Leaf (inl e) (Tree.main openai client).
Proof.
  unfold Tree.main. intros [(e' & _ & He)|(a & _ & Hr)]%Leaf_mbind.
  { by apply Leaf_console in He. }
  apply Leaf_try_catch in Hr as [(e' & _ & Hr)|(? & ? & _)]; [|done].
  unfold Tree.catchMain in Hr.
  apply Leaf_mbind in Hr as [(? & _ & He)|(? & _ & Hr)];
    [by apply Leaf_console in He|by apply Leaf_exit in Hr].
Qed.

Lemma freetext_main_no_throw (openai : OpenAI.Client)
    (client : Twitter.TwitterApiReadOnly) (e : Thrown) :
  ¬ Leaf (inl e) (Tree.FreeText.main openai client).
Proof.
  unfold Tree.FreeText.main. intros [(e' & _ & He)|(a & _ & Hr)]%Leaf_mbind.
  { by apply Leaf_console in He. }
  apply Leaf_try_catch in Hr as [(e' & _ & Hr)|(? & ? & _)]; [|done].
  unfold Tree.FreeText.catchMain in Hr.
  by apply Leaf_mbind in Hr as [(? & _ & He%Leaf_console)|(? & _ & Hr%Leaf_console)].
Qed.

Lemma run_main_equiv (openai : OpenAI.Client) (client : Twitter.TwitterApiReadOnly) :
  Tree.run openai client ≅ Tree.main openai client.
Proof. apply try_catch_no_throw, main_no_throw. Qed.

Lemma freetext_run_main_equiv (openai : OpenAI.Client)
    (client : Twitter.TwitterApiReadOnly) :
  Tree.FreeText.run openai client ≅ Tree.FreeText.main openai client.
Proof. apply try_catch_no_throw, freetext_main_no_throw. Qed.

(** Against any vendors, the script with the handler runs to the
    computation of [main], within the same number of events. *)
Lemma run_main_eval `{TwitterService, OpenAIService, ResponsesService}
    (openai : OpenAI.Client) (client : Twitter.TwitterApiReadOnly) (n : nat) :
  eval n (Tree.run openai client) = eval n (Tree.main openai client).
Proof. by rewrite run_main_equiv. Qed.

(** The same for the free-text variant: its [main] throws in no
    environment, and the script with the handler of [main().catch] has the
    runs of [main] alone. *)
Lemma freetext_handler_dead (openai : OpenAI.Client)
    (client : Twitter.TwitterApiReadOnly) :
  (∀ e, ¬ MayThrow (Tree.FreeText.main openai client) e) ∧
  (∀ h o, runs (Tree.FreeText.run openai client) h o ↔
          runs (Tree.FreeText.main openai client) h o).
Proof.
  split; [intros e ?%MayThrow_Leaf; by eapply freetext_main_no_throw|].
  intros h o. by rewrite freetext_run_main_equiv.
Qed.

(** ** Properties *)

(** C18. The handler of [main().catch] is dead code: in no environment does
    [main] throw, the script with the handler is the same tree as [main]
    alone up to equivalence, and both have the same runs (the same
    histories and outcomes) whatever the vendors answer. *)
Theorem run_handler_dead (openai : OpenAI.Client)
    (client : Twitter.TwitterApiReadOnly) :
  (∀ e, ¬ MayThrow (Tree.main openai client) e) ∧
  Tree.run openai client ≅ Tree.main openai client ∧
  (∀ h o, runs (Tree.run openai client) h o ↔ runs (Tree.main openai client) h o).
Proof.
  split; [intros e ?%MayThrow_Leaf; by eapply main_no_throw|].
  split; [apply run_main_equiv|]. intros h o. by rewrite run_main_equiv.
Qed.
